(** * Voice assistant: turn taking, pipeline and playback gate

    A shallow embedding of the two programs of the repository:

    - [app.py], the local loop (microphone callback, playback gate,
      knowledge-base lookup);
    - [VOICE_ASSISTANT_OPENAI.py], the FastAPI server (transcribe, answer,
      synthesize, the websocket handler) together with the browser client
      it serves (the [VoiceAssistant] JavaScript class: voice detection,
      recording, message handling).

    Time is a logical clock in milliseconds ([Z]); the external services
    (audio decoding, Whisper, chat completion, edge-tts, the vector
    collection) are oracles gathered in an environment record. *)

From Stdlib Require Import ZArith QArith String Ascii List Lia Bool.
From Stdlib.Strings Require Import Byte.
From stdpp Require Import gmap strings list pretty.

Local Open Scope string_scope.
Local Open Scope Z_scope.

(** ** Python strings

    A [str] is modelled as a [string] whose characters are the code points
    0..255; [len], slicing, [in], [startswith], [strip] and [lower] follow
    Python on that range. *)

Module PyStr.

(** [str.isspace] on one code point below 256: TAB..CR, FS..US, SPACE,
    NEL (0x85) and NBSP (0xA0). *)
Definition isspace (c : ascii) : bool :=
  let n := N_of_ascii c in
  ((9 <=? n) && (n <=? 13) || (28 <=? n) && (n <=? 32)
   || (n =? 133) || (n =? 160))%N.

Fixpoint lstrip (s : string) : string :=
  match s with
  | EmptyString => EmptyString
  | String c s' => if isspace c then lstrip s' else s
  end.

Fixpoint rev_onto (s acc : string) : string :=
  match s with
  | EmptyString => acc
  | String c s' => rev_onto s' (String c acc)
  end.

Definition rev (s : string) : string := rev_onto s EmptyString.

Definition rstrip (s : string) : string := rev (lstrip (rev s)).

(** [s.strip()] *)
Definition strip (s : string) : string := rstrip (lstrip s).

(** [c.lower()] on one code point below 256: A..Z and the Latin-1 capitals
    0xC0..0xDE (the multiplication sign 0xD7 apart) move up by 32. *)
Definition lower_char (c : ascii) : ascii :=
  let n := N_of_ascii c in
  if ((65 <=? n) && (n <=? 90)
      || (192 <=? n) && (n <=? 222) && negb (n =? 215))%N
  then ascii_of_N (n + 32) else c.

(** [s.lower()] *)
Fixpoint lower (s : string) : string :=
  match s with
  | EmptyString => EmptyString
  | String c s' => String (lower_char c) (lower s')
  end.

(** [s.startswith(p)] *)
Definition startswith (s p : string) : bool := String.prefix p s.

(** [needle in hay] *)
Fixpoint contains (needle hay : string) : bool :=
  String.prefix needle hay ||
  match hay with
  | EmptyString => false
  | String _ hay' => contains needle hay'
  end.

(** [len(s)] *)
Definition len (s : string) : Z := Z.of_nat (String.length s).

(** [s[:n]] for a literal [n >= 0] *)
Definition slice_to (n : nat) (s : string) : string := String.substring 0 n s.

(** truthiness of a string: [if s] *)
Definition truthy (s : string) : bool :=
  match s with EmptyString => false | _ => true end.

End PyStr.

(** ** The local loop ([app.py]) *)

Module LocalLoop.

(** One block delivered by the input stream ([bytes(indata)]). *)
Abbreviation frame := (list byte).

(** What the loop does to the outside world, with the clock value at which
    it happens where that matters. *)
Inductive event : Type :=
| GateEngaged (t : Z)          (* listening_active = False *)
| GateCleared (t : Z)          (* listening_active = True *)
| Enqueued (f : frame)         (* q_audio.put *)
| PlaybackStart (t : Z)        (* pygame.mixer.music.play() *)
| PlaybackEnd (t : Z)          (* get_busy() turned false *)
| Slept (ms : Z)               (* time.sleep *)
| Encoded (question : string)  (* embedder.encode *)
| Queried (n_results : nat).   (* collection.query *)

(** The services of [app.py]: edge-tts, pydub, pygame, the sentence
    embedder and the Chroma collection.  A left value is a raised
    exception (its message). *)
Record Env : Type := {
  tts_stream : string -> string + list byte;
  tts_ms : string -> Z;
  mp3_to_wav : list byte -> string + list byte;
  (* [None]: pygame raised inside play_audio_from_memory, which swallows
     it; [Some d]: the clip plays for [d] ms *)
  playback_ms : list byte -> option Z;
  (* the metadata dictionaries of results["metadatas"][0] *)
  collection_query : string -> nat -> list (gmap string string)
}.

(** The variables of [run_voice_assistant] shared by its closures. *)
Record state : Type := {
  listening_active : bool;
  q_audio : list frame;
  now : Z;
  log : list event
}.

Definition emit (e : event) (s : state) : state :=
  {| listening_active := listening_active s; q_audio := q_audio s;
     now := now s; log := log s ++ [e] |}.

Definition set_listening (b : bool) (s : state) : state :=
  {| listening_active := b; q_audio := q_audio s;
     now := now s; log := log s |}.

Definition put (f : frame) (s : state) : state :=
  {| listening_active := listening_active s; q_audio := q_audio s ++ [f];
     now := now s; log := log s |}.

Definition sleep (ms : Z) (s : state) : state :=
  emit (Slept ms)
    {| listening_active := listening_active s; q_audio := q_audio s;
       now := now s + ms; log := log s |}.

Definition elapse (ms : Z) (s : state) : state :=
  {| listening_active := listening_active s; q_audio := q_audio s;
     now := now s + ms; log := log s |}.

(** [audio_callback(indata, frames, time, status)] *)
Definition audio_callback (indata : frame) (s : state) : state :=
  if listening_active s then emit (Enqueued indata) (put indata s) else s.

(** The stream thread delivering several blocks in a row. *)
Definition callbacks (fs : list frame) (s : state) : state :=
  fold_left (fun s f => audio_callback f s) fs s.

(** [play_audio_from_memory(audio_data)]: plays, polls [get_busy] until the
    clip is over; any exception is printed and swallowed.  [during] are the
    blocks the stream thread delivers meanwhile. *)
Definition play_audio_from_memory (env : Env) (audio_data : list byte)
    (during : list frame) (s : state) : state :=
  match playback_ms env audio_data with
  | Some d =>
      let s := emit (PlaybackStart (now s)) s in
      let s := elapse d (callbacks during s) in
      emit (PlaybackEnd (now s)) s
  | None => callbacks during s
  end.

(** The blocks the stream thread delivers while [speak_text] runs, by the
    phase of [speak_text] they fall in. *)
Record arrivals : Type := {
  while_synthesizing : list frame;
  while_playing : list frame;
  while_guarding : list frame
}.

(** The [try] block of [speak_text]. *)
Definition speak_text_try (env : Env) (text : string) (arr : arrivals)
    (s : state) : state :=
  let s := elapse (tts_ms env text) (callbacks (while_synthesizing arr) s) in
  match tts_stream env text with
  | inl _ => callbacks (while_playing arr) s
  | inr audio_data =>
      match mp3_to_wav env audio_data with
      | inl _ => callbacks (while_playing arr) s
      | inr wav_data =>
          play_audio_from_memory env wav_data (while_playing arr) s
      end
  end.

(** [speak_text(text)] *)
Definition speak_text (env : Env) (text : string) (arr : arrivals)
    (s : state) : state :=
  (* with audio_lock: listening_active = False *)
  let s := emit (GateEngaged (now s)) (set_listening false s) in
  let s := speak_text_try env text arr s in
  (* finally: time.sleep(0.5) *)
  let s := sleep 500 s in
  let s := callbacks (while_guarding arr) s in
  (* with audio_lock: listening_active = True *)
  emit (GateCleared (now s)) (set_listening true s).

Definition garbled_indicators : list string :=
  ["murder"; "oh i see"; "that is"; "of and that"].

Definition sorry_message : string :=
  "Sorry, I didn't catch that. Could you please repeat your question?".

Definition trouble_message : string :=
  "I'm having trouble understanding. Could you please repeat your question more clearly?".

(** [query_chroma_db(question_text, top_k)]: the answers and the calls made
    to the embedder and to the collection. *)
Definition query_chroma_db (env : Env) (question_text : string)
    (top_k : nat) : list string * list event :=
  if negb (PyStr.truthy (PyStr.strip question_text)) then
    ([sorry_message], [])
  else
    let question_lower := PyStr.lower question_text in
    if existsb (fun indicator => PyStr.contains indicator question_lower)
         garbled_indicators
    then ([trouble_message], [])
    else
      let metadatas := collection_query env question_text top_k in
      (map (fun m : gmap string string =>
              default "No answer found." (m !! "answer")) metadatas,
       [Encoded question_text; Queried top_k]).

(** *** What the gate is expected to do *)

Definition playback_event (e : event) : Prop :=
  exists t, e = PlaybackStart t \/ e = PlaybackEnd t.

(** A run of [speak_text] from [s]: the queue is left as it was, the gate
    ends open, and the log of the run is: gate engaged, playback events
    only, the 500 ms sleep, gate cleared; so the gate is cleared 500 ms
    after the end of the playback. *)
Definition gate_discipline (env : Env) (text : string) (arr : arrivals)
    (s : state) : Prop :=
  let s' := speak_text env text arr s in
  q_audio s' = q_audio s
  /\ listening_active s' = true
  /\ exists evs,
       log s' = (log s ++ GateEngaged (now s) :: evs
                   ++ [Slept 500; GateCleared (now s')])%list
       /\ (forall e, In e evs -> playback_event e)
       /\ (forall t, In (PlaybackEnd t) evs -> now s' = t + 500).

End LocalLoop.

(** ** The server ([VOICE_ASSISTANT_OPENAI.py], Python part) *)

Module Server.

(** The configuration constants, in seconds.  No function of the file
    reads either of them. *)
Definition MAX_RECORDING_TIME : Z := 10.
Definition RESPONSE_TIMEOUT : Z := 15.

Inductive stage : Type := Transcribe | Answer | Synthesize.

(** JSON messages the handler sends ([websocket.send_json]). *)
Inductive message : Type :=
| StateUpdate (is_processing : bool)
| ErrorMsg (msg : string) (processing_time : option Z)
| ResponseMsg (transcription response audio_base64 : string)
    (processing_time : Z) (metrics : gmap string Z).

(** What a run does to the outside world. *)
Inductive event : Type :=
| Entered (st : stage)                 (* the coroutine of the stage started *)
| WhisperCalled (audio : list byte)    (* client.audio.transcriptions.create *)
| ChatCalled (user_input : string)     (* client.chat.completions.create *)
| TtsCalled (text : string)            (* edge_tts.Communicate(text, ...) *)
| Sent (conn : nat) (m : message).     (* websocket.send_json *)

(** Python exceptions.  [CancelledError] is not an [Exception]: an
    [except Exception] clause lets it through. *)
Inductive exn : Type :=
| CancelledError
| TimeoutError
| Exception (msg : string).

Definition exn_str (e : exn) : string :=
  match e with Exception msg => msg | _ => "" end.

(** The services the server calls.  A left value is a raised exception
    (its message); the [_ms] fields give how long a call takes. *)
Record Env : Type := {
  openai_api_key : option string;
  (* AudioSegment.from_file, set_frame_rate, set_channels, normalize:
     the length of the result in ms, and the time the decoding takes *)
  load_audio : list byte -> string + Z;
  load_audio_ms : list byte -> N;
  whisper : list byte -> string + string;
  whisper_ms : list byte -> Z;
  chat : string -> string + string;
  chat_ms : string -> Z;
  edge_tts : string -> string + list byte;
  edge_tts_ms : string -> Z;
  b64encode : list byte -> string
}.

(** [bool(openai_api_key)] *)
Definition api_configured (env : Env) : bool :=
  match openai_api_key env with
  | Some k => PyStr.truthy k
  | None => false
  end.

(** The module-level [conversation_state] dictionary. *)
Record conversation_state : Type := {
  is_listening : bool;
  is_processing : bool;
  is_speaking : bool;
  current_websocket : option nat
}.

(** Everything global in the process: the clock, the single
    [performance_monitor] object, [conversation_state], and the trace of
    events. *)
Record world : Type := {
  clock : Z;
  start_time : option Z;
  metrics : gmap string Z;
  conv : conversation_state;
  trace : list event
}.

Definition initial_conversation_state : conversation_state :=
  {| is_listening := false; is_processing := false; is_speaking := false;
     current_websocket := None |}.

Definition initial_world (t : Z) : world :=
  {| clock := t; start_time := None; metrics := ∅;
     conv := initial_conversation_state; trace := [] |}.

(** *** The monad of coroutines

    A coroutine runs under the deadline of the enclosing
    [asyncio.wait_for] (if any), reads and writes the world, and returns
    a value or raises. *)

Definition M (A : Type) : Type := option Z -> world -> (exn + A) * world.

#[global] Instance M_ret : MRet M := fun A a _ w => (inr a, w).

#[global] Instance M_bind : MBind M := fun A B k m dl w =>
  match m dl w with
  | (inr a, w') => k a dl w'
  | (inl e, w') => (inl e, w')
  end.

Definition raise {A} (e : exn) : M A := fun _ w => (inl e, w).

(** [try: m except Exception as e: h e] *)
Definition try_except {A} (m : M A) (h : exn -> M A) : M A :=
  fun dl w =>
    match m dl w with
    | (inl CancelledError, w') => (inl CancelledError, w')
    | (inl e, w') => h e dl w'
    | (inr a, w') => (inr a, w')
    end.

(** [time.time()] *)
Definition time_time : M Z := fun _ w => (inr (clock w), w).

Definition modify (f : world -> world) : M unit := fun _ w => (inr tt, f w).

Definition set_trace (tr : list event) (w : world) : world :=
  {| clock := clock w; start_time := start_time w; metrics := metrics w;
     conv := conv w; trace := tr |}.

Definition set_clock (t : Z) (w : world) : world :=
  {| clock := t; start_time := start_time w; metrics := metrics w;
     conv := conv w; trace := trace w |}.

Definition set_monitor (st : option Z) (ms : gmap string Z) (w : world)
    : world :=
  {| clock := clock w; start_time := st; metrics := ms;
     conv := conv w; trace := trace w |}.

Definition set_conv (c : conversation_state) (w : world) : world :=
  {| clock := clock w; start_time := start_time w; metrics := metrics w;
     conv := c; trace := trace w |}.

Definition emit (e : event) : M unit :=
  modify (fun w => set_trace (trace w ++ [e]) w).

(** A synchronous call that takes [ms] (pydub, the OpenAI client): the
    coroutine does not give up the event loop, so no deadline of an
    enclosing [wait_for] can cut it, and nothing else runs meanwhile. *)
Definition block (ms : Z) : M unit :=
  fun _ w => (inr tt, set_clock (clock w + ms) w).

(** Awaiting data from the network that is complete at time [ready].  The
    coroutine goes on when the event loop gives it control again, at
    [ready] or later if the loop was busy; if the deadline of the
    enclosing [wait_for] has passed by then, the coroutine is cancelled
    instead. *)
Definition await_until (ready : Z) : M unit :=
  fun dl w =>
    let t := Z.max (clock w) ready in
    match dl with
    | Some d =>
        if d <? t
        then (inl CancelledError, set_clock (Z.max (clock w) d) w)
        else (inr tt, set_clock t w)
    | None => (inr tt, set_clock t w)
    end.

(** [asyncio.wait_for(m, timeout)], [timeout] in ms. *)
Definition wait_for {A} (m : M A) (timeout : Z) : M A :=
  fun _ w =>
    match m (Some (clock w + timeout)) w with
    | (inl CancelledError, w') => (inl TimeoutError, w')
    | r => r
    end.

(** Lifting a fallible service call: a left value raises. *)
Definition call {A} (r : string + A) : M A :=
  match r with
  | inl msg => raise (Exception msg)
  | inr a => mret a
  end.

(** *** [PerformanceMonitor] *)

Definition monitor_start : M unit :=
  modify (fun w =>
    set_monitor (Some (clock w))
      (<["transcription_time" := 0]>
        (<["response_time" := 0]> (<["tts_time" := 0]> ∅))) w).

(** [record(stage)]; [if self.start_time] is false for [None] and for 0. *)
Definition monitor_record (key : string) : M unit :=
  modify (fun w =>
    match start_time w with
    | Some t0 =>
        if t0 =? 0 then w
        else set_monitor (Some (clock w))
               (<[key := clock w - t0]> (metrics w)) w
    | None => w
    end).

Definition sum_values (m : gmap string Z) : Z :=
  map_fold (fun _ v acc => v + acc) 0 m.

Definition get_metrics : M (gmap string Z) :=
  fun _ w =>
    (inr (<["total_time" := sum_values (metrics w)]> (metrics w)), w).

(** *** The three stages *)

(** [transcribe_audio_openai(audio_data)] *)
Definition transcribe_audio_openai (env : Env) (audio_data : list byte)
    : M string :=
  try_except
    (emit (Entered Transcribe);;
     monitor_start;;
     block (Z.of_N (load_audio_ms env audio_data));;
     len_audio ← call (load_audio env audio_data);
     if len_audio <? 300 then mret ""
     else if negb (api_configured env)
     then mret "[ERROR: API key not configured]"
     else
       emit (WhisperCalled audio_data);;
       block (whisper_ms env audio_data);;
       transcript ← call (whisper env audio_data);
       monitor_record "transcription_time";;
       mret (PyStr.strip transcript))
    (fun e => mret ("[Transcription Error: " +:+ exn_str e +:+ "]")).

Definition repeat_prompt : string :=
  "I didn't catch that. Could you please repeat?".

Definition key_missing_reply : string :=
  "[ERROR: OpenAI API key not configured. Please set the OPENAI_API_KEY environment variable.]".

(** [get_openai_response(user_input)] *)
Definition get_openai_response (env : Env) (user_input : string)
    : M string :=
  try_except
    (emit (Entered Answer);;
     if negb (PyStr.truthy (PyStr.strip user_input))
        || PyStr.startswith user_input "[ERROR"
     then mret repeat_prompt
     else if negb (api_configured env) then mret key_missing_reply
     else
       emit (ChatCalled user_input);;
       block (chat_ms env user_input);;
       content ← call (chat env user_input);
       monitor_record "response_time";;
       mret (PyStr.strip content))
    (fun e =>
       mret ("I'm having trouble connecting right now. Error: "
             +:+ exn_str e)).

(** The text handed to [edge_tts.Communicate]:
    [if len(text) > 150: text = text[:147] + "..."]. *)
Definition limit_text (text : string) : string :=
  if 150 <? PyStr.len text then PyStr.slice_to 147 text +:+ "..."
  else text.

(** [text_to_speech], up to its first suspension: the request is built. *)
Definition tts_request (text : string) : M string :=
  emit (Entered Synthesize);;
  let text := limit_text text in
  emit (TtsCalled text);;
  mret text.

(** [text_to_speech], from the stream to the return; the stream was
    opened at time [started] and takes [edge_tts_ms]. *)
Definition tts_stream (env : Env) (text : string) (started : Z)
    : M string :=
  await_until (started + edge_tts_ms env text);;
  audio_bytes ← call (edge_tts env text);
  monitor_record "tts_time";;
  mret (b64encode env audio_bytes).

(** [text_to_speech(text)] *)
Definition text_to_speech (env : Env) (text : string) : M string :=
  try_except
    (text ← tts_request text;
     started ← time_time;
     tts_stream env text started)
    (fun _ => mret "").

(** *** The pipeline *)

(** The dictionary [process_audio] returns. *)
Inductive result : Type :=
| ErrorResult (error : string) (processing_time : Z)
| Success (transcription response audio_base64 : string)
    (processing_time : Z) (metrics : gmap string Z).

Definition could_not_understand : string :=
  "Could not understand audio. Please speak clearly and try again.".

Definition took_too_long : string :=
  "Processing took too long. Please try again.".

(** The test of [process_audio] on the transcription:
    [not transcription or transcription.startswith("[ERROR")]. *)
Definition rejected (transcription : string) : bool :=
  negb (PyStr.truthy transcription)
  || PyStr.startswith transcription "[ERROR".

Definition error_result (total_start_time : Z) (error : string)
    : M result :=
  t ← time_time; mret (ErrorResult error (t - total_start_time)).

(** The two [except] clauses of [process_audio]. *)
Definition process_audio_except (total_start_time : Z) (e : exn)
    : M result :=
  match e with
  | TimeoutError => error_result total_start_time took_too_long
  | e => error_result total_start_time
           ("An error occurred: " +:+ exn_str e)
  end.

(** [process_audio(audio_data)] *)
Definition process_audio (env : Env) (audio_data : list byte) : M result :=
  total_start_time ← time_time;
  try_except
    (transcription ← wait_for (transcribe_audio_openai env audio_data) 15000;
     if rejected transcription
     then error_result total_start_time could_not_understand
     else
       response ← wait_for (get_openai_response env transcription) 15000;
       audio_base64 ← wait_for (text_to_speech env response) 10000;
       t ← time_time;
       metrics ← get_metrics;
       mret (Success transcription response audio_base64
               (t - total_start_time) metrics))
    (process_audio_except total_start_time).

(** Running a coroutine outside any [wait_for]. *)
Definition run {A} (m : M A) (w : world) : (exn + A) * world := m None w.

(** *** The websocket handler *)

(** A JSON object from the client that has a "type" key; [msg_audio] is
    what [base64.b64decode(data["audio"])] gives: bytes, or an exception
    (no "audio" key, or not base64). *)
Record client_message : Type := {
  msg_type : string;
  msg_audio : string + list byte
}.

(** What arrives on the socket: such an object, or something for which
    [receive_json] or [data["type"]] raises (text that is not JSON, a
    JSON value that is not an object, an object without a "type" key);
    [error] is the message of the exception. *)
Inductive json : Type :=
| Typed (data : client_message)
| Untyped (error : string).

(** [try: m finally: fin] *)
Definition try_finally {A} (m : M A) (fin : M unit) : M A :=
  fun dl w =>
    match m dl w with
    | (r, w') =>
        match fin dl w' with
        | (inr _, w'') => (r, w'')
        | (inl e, w'') => (inl e, w'')
        end
    end.

Definition set_is_processing (b : bool) : M unit :=
  modify (fun w =>
    set_conv {| is_listening := is_listening (conv w);
                is_processing := b;
                is_speaking := is_speaking (conv w);
                current_websocket := current_websocket (conv w) |} w).

Definition set_current_websocket (c : option nat) : M unit :=
  modify (fun w =>
    set_conv {| is_listening := is_listening (conv w);
                is_processing := is_processing (conv w);
                is_speaking := is_speaking (conv w);
                current_websocket := c |} w).

Definition send_json (conn : nat) (m : message) : M unit :=
  emit (Sent conn m).

(** The [if "error" in result: ... else: ...] of the handler. *)
Definition reply (conn : nat) (r : result) : M unit :=
  match r with
  | ErrorResult error processing_time =>
      send_json conn (ErrorMsg error (Some processing_time))
  | Success transcription response audio_base64 processing_time metrics =>
      send_json conn
        (ResponseMsg transcription response audio_base64
           processing_time metrics)
  end.

Definition failed_to_process (conn : nat) (e : exn) : M unit :=
  send_json conn
    (ErrorMsg ("Failed to process audio: " +:+ exn_str e) None).

Definition finish_message (conn : nat) : M unit :=
  set_is_processing false;;
  send_json conn (StateUpdate false).

(** One turn of the [while True] loop of [websocket_endpoint], after
    [receive_json] returned [data]. *)
Definition on_message (env : Env) (conn : nat) (data : client_message)
    : M unit :=
  if String.eqb (msg_type data) "audio_data" then
    set_is_processing true;;
    send_json conn (StateUpdate true);;
    try_finally
      (try_except
         (audio_bytes ← call (msg_audio data);
          result ← process_audio env audio_bytes;
          reply conn result)
         (failed_to_process conn))
      (finish_message conn)
  else mret tt.

(** One turn of the loop from [receive_json] on. *)
Definition receive (env : Env) (conn : nat) (j : json) : M unit :=
  match j with
  | Typed data => on_message env conn data
  | Untyped error => raise (Exception error)
  end.

(** The [while True] loop, for what arrives before the client leaves. *)
Fixpoint serve (env : Env) (conn : nat) (msgs : list json) : M unit :=
  match msgs with
  | [] => mret tt
  | j :: msgs => receive env conn j;; serve env conn msgs
  end.

(** [websocket_endpoint(websocket)] for a client that sends [msgs] and
    then disconnects: [receive_json] then raises [WebSocketDisconnect]
    and the first [except] clause clears [current_websocket]; any other
    exception ends the endpoint in the second clause, which only logs
    it. *)
Definition websocket_endpoint (env : Env) (conn : nat) (msgs : list json)
    : M unit :=
  set_current_websocket (Some conn);;
  try_except
    (serve env conn msgs;;
     set_current_websocket None)
    (fun _ => mret tt).

(** *** Several connections on one event loop

    The handler of a connection is a coroutine: it can be suspended where
    it awaits the network.  The model keeps the one suspension inside
    [process_audio] that always waits for the network, the [async for]
    over the edge-tts stream in [text_to_speech]; between two
    suspensions a handler runs alone. *)

Inductive task : Type :=
| Idle                       (* in receive_json *)
| Streaming (total_start_time : Z) (transcription response text : string)
    (started : Z).           (* in text_to_speech, inside async for, since
                                [started] *)

(** From [receive_json] to the suspension in [text_to_speech], or to the
    end of the turn when the pipeline stops earlier. *)
Definition on_message_begin (env : Env) (conn : nat)
    (data : client_message) : M task :=
  if String.eqb (msg_type data) "audio_data" then
    set_is_processing true;;
    send_json conn (StateUpdate true);;
    early ← try_except
      (audio_bytes ← call (msg_audio data);
       total_start_time ← time_time;
       try_except
         (transcription ←
            wait_for (transcribe_audio_openai env audio_bytes) 15000;
          if rejected transcription
          then r ← error_result total_start_time could_not_understand;
               reply conn r;; mret Idle
          else
            response ←
              wait_for (get_openai_response env transcription) 15000;
            text ← tts_request response;
            started ← time_time;
            mret (Streaming total_start_time transcription response text
                    started))
         (fun e => r ← process_audio_except total_start_time e;
                   reply conn r;; mret Idle))
      (fun e => failed_to_process conn e;; mret Idle);
    match early with
    | Idle => finish_message conn;; mret Idle
    | suspended => mret suspended
    end
  else mret Idle.

(** Running [m] under a deadline fixed earlier by [wait_for]. *)
Definition resume_wait_for {A} (m : M A) (deadline : Z) : M A :=
  fun _ w =>
    match m (Some deadline) w with
    | (inl CancelledError, w') => (inl TimeoutError, w')
    | r => r
    end.

(** From the moment the event loop gives control back to the handler
    (the stream has ended, or the time limit has passed) to the next
    [receive_json]. *)
Definition on_message_resume (env : Env) (conn : nat) (t : task)
    : M task :=
  match t with
  | Idle => mret Idle
  | Streaming total_start_time transcription response text started =>
      try_finally
        (try_except
           (result ← try_except
              (audio_base64 ←
                 resume_wait_for
                   (try_except (tts_stream env text started)
                      (fun _ => mret ""))
                   (started + 10000);
               t ← time_time;
               metrics ← get_metrics;
               mret (Success transcription response audio_base64
                       (t - total_start_time) metrics))
              (process_audio_except total_start_time);
            reply conn result)
           (failed_to_process conn))
        (finish_message conn);;
      mret Idle
  end.

(** The server process: the shared world and the coroutine of each open
    connection. *)
Record system : Type := {
  shared : world;
  tasks : gmap nat task
}.

Inductive action : Type :=
| Connect (conn : nat)
| Deliver (conn : nat) (j : json)
| Resume (conn : nat)
| Disconnect (conn : nat).

(** [receive], up to the first suspension. *)
Definition receive_begin (env : Env) (conn : nat) (j : json) : M task :=
  match j with
  | Typed data => on_message_begin env conn data
  | Untyped error => raise (Exception error)
  end.

Definition commit {A} (conn : nat) (sys : system)
    (r : (exn + A) * world) (next : A -> option task) : system :=
  match r with
  | (inr a, w) =>
      {| shared := w;
         tasks := match next a with
                  | Some t => <[conn := t]> (tasks sys)
                  | None => delete conn (tasks sys)
                  end |}
  | (inl _, w) => {| shared := w; tasks := delete conn (tasks sys) |}
  end.

(** One scheduling decision of the event loop.  An action that is not
    enabled (a message for a handler that is not in [receive_json], a
    resumption of a handler that is not suspended) changes nothing.  A
    handler that raises is over: its endpoint ends in the clause that
    logs the exception. *)
Definition sys_step (env : Env) (a : action) (sys : system) : system :=
  match a with
  | Connect conn =>
      match tasks sys !! conn with
      | None =>
          commit conn sys
            (run (set_current_websocket (Some conn)) (shared sys))
            (fun _ => Some Idle)
      | Some _ => sys
      end
  | Deliver conn j =>
      match tasks sys !! conn with
      | Some Idle =>
          commit conn sys (run (receive_begin env conn j) (shared sys))
            Some
      | _ => sys
      end
  | Resume conn =>
      match tasks sys !! conn with
      | Some (Streaming t0 tr re tx dl) =>
          commit conn sys
            (run (on_message_resume env conn (Streaming t0 tr re tx dl))
               (shared sys))
            Some
      | _ => sys
      end
  | Disconnect conn =>
      match tasks sys !! conn with
      | Some Idle =>
          commit conn sys (run (set_current_websocket None) (shared sys))
            (fun _ => None)
      | _ => sys
      end
  end.

Definition sys_run (env : Env) (acts : list action) (sys : system)
    : system :=
  fold_left (fun sys a => sys_step env a sys) acts sys.

Definition initial_system (t : Z) : system :=
  {| shared := initial_world t; tasks := ∅ |}.

(** What the client of [conn] receives. *)
Definition received (conn : nat) (tr : list event) : list message :=
  omap (fun e => match e with
                 | Sent c m => if Nat.eqb c conn then Some m else None
                 | _ => None
                 end) tr.

(** The value a response message reports for one metric. *)
Definition metric (key : string) (m : message) : option Z :=
  match m with
  | ResponseMsg _ _ _ _ metrics => metrics !! key
  | _ => None
  end.

(** *** Two runs side by side

    Two worlds that show the same clock, or the same clock and the same
    monitor; [agree P Q E m]: started in two worlds related by [P], [m]
    returns the same value or raises the same exception in both, emits the
    same events, and leaves worlds related by [Q] (after a return) or by
    [E] (after a raise). *)

Definition same_clock (w1 w2 : world) : Prop := clock w1 = clock w2.

Definition same_monitor (w1 w2 : world) : Prop :=
  clock w1 = clock w2 /\ start_time w1 = start_time w2
  /\ metrics w1 = metrics w2.

Definition exit_in {A} (Q E : world -> world -> Prop) (r : exn + A)
    : world -> world -> Prop :=
  match r with inr _ => Q | inl _ => E end.

Definition agree {A} (P Q E : world -> world -> Prop) (m : M A) : Prop :=
  forall dl w1 w2, P w1 w2 ->
    exists r w1' w2' evs,
      m dl w1 = (r, w1') /\ m dl w2 = (r, w2') /\ exit_in Q E r w1' w2'
      /\ trace w1' = (trace w1 ++ evs)%list
      /\ trace w2' = (trace w2 ++ evs)%list.

Definition implies (P Q : world -> world -> Prop) : Prop :=
  forall w1 w2, P w1 w2 -> Q w1 w2.

End Server.

(** ** The browser client (the [VoiceAssistant] class served by
    [VOICE_ASSISTANT_OPENAI.py]) *)

Module Client.

(** [this.volumeThreshold] and [this.silenceDelay] (ms). *)
Definition volumeThreshold : Q := 25%Q.
Definition silenceDelay : Z := 2000.

(** [analyser.frequencyBinCount], half of [fftSize = 256]. *)
Definition bufferLength : Z := 128.

(** A [MediaRecorder] and the time its recording started. *)
Record recorder : Type := { rec_started : Z }.

(** A recorded [Blob]: the time it covers and its size in bytes. *)
Record blob : Type := { blob_ms : Z; blob_size : Z }.

Inductive ui_state : Type := UiIdle | UiListening | UiRecording | UiProcessing.

(** The two decisions of the voice detector, written where the code logs
    its "Voice detected ..., starting recording" and "Silence detected,
    stopping recording" entries. *)
Inductive vad_event : Type :=
| SpeechStart (t : Z)
| SpeechStop (t : Z).

(** A call of [getUserMedia] that has not settled, by the function that
    awaits it. *)
Inductive request : Type :=
| ForListening      (* startAutoListening *)
| ForRecording.     (* startRecording, when it has no stream to reuse *)

(** The page.  Three of its functions are asynchronous: they stop at an
    [await] (of [getUserMedia], of [arrayBuffer()]) and go on when the
    promise settles, after whatever else happened meanwhile; and a
    stopped recorder delivers its data in events of its own.  What is
    outstanding is kept in [requests], [stopping] and [reading]. *)
Record VoiceAssistant : Type := {
  (* the socket is open *)
  ws_open : bool;
  mediaRecorder : option recorder;
  audioChunks : list blob;
  isRecording : bool;
  isProcessing : bool;
  autoMode : bool;
  (* the audio graph (audioContext, analyser, microphone) exists *)
  microphone : bool;
  (* the pending silence timer and the time it is due *)
  silenceTimeout : option Z;
  (* the last updateUI *)
  ui : ui_state;
  (* the clock of the page *)
  now : Z;
  (* the checkAudio loops that are scheduled *)
  monitoring : nat;
  (* the calls of getUserMedia that have not settled *)
  requests : list request;
  (* the recorders stopped (and when) whose events are due *)
  stopping : list (recorder * Z);
  (* the blobs whose arrayBuffer() has not resolved *)
  reading : list (list blob);
  (* the audio_data messages sent to the server *)
  outbox : list (list blob);
  vad_log : list vad_event;
  (* the clips handed to playAudio, with the time *)
  played : list (Z * string)
}.

Definition set_ws_open (v : bool) (s : VoiceAssistant) : VoiceAssistant :=
  {| ws_open := v; mediaRecorder := mediaRecorder s;
     audioChunks := audioChunks s; isRecording := isRecording s;
     isProcessing := isProcessing s; autoMode := autoMode s;
     microphone := microphone s; silenceTimeout := silenceTimeout s;
     ui := ui s; now := now s; monitoring := monitoring s;
     requests := requests s; stopping := stopping s; reading := reading s;
     outbox := outbox s; vad_log := vad_log s; played := played s |}.

Definition set_mediaRecorder (v : option recorder) (s : VoiceAssistant)
    : VoiceAssistant :=
  {| ws_open := ws_open s; mediaRecorder := v; audioChunks := audioChunks s;
     isRecording := isRecording s; isProcessing := isProcessing s;
     autoMode := autoMode s; microphone := microphone s;
     silenceTimeout := silenceTimeout s; ui := ui s; now := now s;
     monitoring := monitoring s; requests := requests s;
     stopping := stopping s; reading := reading s; outbox := outbox s;
     vad_log := vad_log s; played := played s |}.

Definition set_audioChunks (v : list blob) (s : VoiceAssistant)
    : VoiceAssistant :=
  {| ws_open := ws_open s; mediaRecorder := mediaRecorder s;
     audioChunks := v; isRecording := isRecording s;
     isProcessing := isProcessing s; autoMode := autoMode s;
     microphone := microphone s; silenceTimeout := silenceTimeout s;
     ui := ui s; now := now s; monitoring := monitoring s;
     requests := requests s; stopping := stopping s; reading := reading s;
     outbox := outbox s; vad_log := vad_log s; played := played s |}.

Definition set_isRecording (v : bool) (s : VoiceAssistant) : VoiceAssistant :=
  {| ws_open := ws_open s; mediaRecorder := mediaRecorder s;
     audioChunks := audioChunks s; isRecording := v;
     isProcessing := isProcessing s; autoMode := autoMode s;
     microphone := microphone s; silenceTimeout := silenceTimeout s;
     ui := ui s; now := now s; monitoring := monitoring s;
     requests := requests s; stopping := stopping s; reading := reading s;
     outbox := outbox s; vad_log := vad_log s; played := played s |}.

Definition set_isProcessing (v : bool) (s : VoiceAssistant)
    : VoiceAssistant :=
  {| ws_open := ws_open s; mediaRecorder := mediaRecorder s;
     audioChunks := audioChunks s; isRecording := isRecording s;
     isProcessing := v; autoMode := autoMode s; microphone := microphone s;
     silenceTimeout := silenceTimeout s; ui := ui s; now := now s;
     monitoring := monitoring s; requests := requests s;
     stopping := stopping s; reading := reading s; outbox := outbox s;
     vad_log := vad_log s; played := played s |}.

Definition set_autoMode (v : bool) (s : VoiceAssistant) : VoiceAssistant :=
  {| ws_open := ws_open s; mediaRecorder := mediaRecorder s;
     audioChunks := audioChunks s; isRecording := isRecording s;
     isProcessing := isProcessing s; autoMode := v;
     microphone := microphone s; silenceTimeout := silenceTimeout s;
     ui := ui s; now := now s; monitoring := monitoring s;
     requests := requests s; stopping := stopping s; reading := reading s;
     outbox := outbox s; vad_log := vad_log s; played := played s |}.

Definition set_microphone (v : bool) (s : VoiceAssistant) : VoiceAssistant :=
  {| ws_open := ws_open s; mediaRecorder := mediaRecorder s;
     audioChunks := audioChunks s; isRecording := isRecording s;
     isProcessing := isProcessing s; autoMode := autoMode s; microphone := v;
     silenceTimeout := silenceTimeout s; ui := ui s; now := now s;
     monitoring := monitoring s; requests := requests s;
     stopping := stopping s; reading := reading s; outbox := outbox s;
     vad_log := vad_log s; played := played s |}.

Definition set_silenceTimeout (v : option Z) (s : VoiceAssistant)
    : VoiceAssistant :=
  {| ws_open := ws_open s; mediaRecorder := mediaRecorder s;
     audioChunks := audioChunks s; isRecording := isRecording s;
     isProcessing := isProcessing s; autoMode := autoMode s;
     microphone := microphone s; silenceTimeout := v; ui := ui s;
     now := now s; monitoring := monitoring s; requests := requests s;
     stopping := stopping s; reading := reading s; outbox := outbox s;
     vad_log := vad_log s; played := played s |}.

Definition set_ui (v : ui_state) (s : VoiceAssistant) : VoiceAssistant :=
  {| ws_open := ws_open s; mediaRecorder := mediaRecorder s;
     audioChunks := audioChunks s; isRecording := isRecording s;
     isProcessing := isProcessing s; autoMode := autoMode s;
     microphone := microphone s; silenceTimeout := silenceTimeout s; ui := v;
     now := now s; monitoring := monitoring s; requests := requests s;
     stopping := stopping s; reading := reading s; outbox := outbox s;
     vad_log := vad_log s; played := played s |}.

Definition set_now (v : Z) (s : VoiceAssistant) : VoiceAssistant :=
  {| ws_open := ws_open s; mediaRecorder := mediaRecorder s;
     audioChunks := audioChunks s; isRecording := isRecording s;
     isProcessing := isProcessing s; autoMode := autoMode s;
     microphone := microphone s; silenceTimeout := silenceTimeout s;
     ui := ui s; now := v; monitoring := monitoring s;
     requests := requests s; stopping := stopping s; reading := reading s;
     outbox := outbox s; vad_log := vad_log s; played := played s |}.

Definition set_monitoring (v : nat) (s : VoiceAssistant) : VoiceAssistant :=
  {| ws_open := ws_open s; mediaRecorder := mediaRecorder s;
     audioChunks := audioChunks s; isRecording := isRecording s;
     isProcessing := isProcessing s; autoMode := autoMode s;
     microphone := microphone s; silenceTimeout := silenceTimeout s;
     ui := ui s; now := now s; monitoring := v; requests := requests s;
     stopping := stopping s; reading := reading s; outbox := outbox s;
     vad_log := vad_log s; played := played s |}.

Definition set_requests (v : list request) (s : VoiceAssistant)
    : VoiceAssistant :=
  {| ws_open := ws_open s; mediaRecorder := mediaRecorder s;
     audioChunks := audioChunks s; isRecording := isRecording s;
     isProcessing := isProcessing s; autoMode := autoMode s;
     microphone := microphone s; silenceTimeout := silenceTimeout s;
     ui := ui s; now := now s; monitoring := monitoring s; requests := v;
     stopping := stopping s; reading := reading s; outbox := outbox s;
     vad_log := vad_log s; played := played s |}.

Definition set_stopping (v : list (recorder * Z)) (s : VoiceAssistant)
    : VoiceAssistant :=
  {| ws_open := ws_open s; mediaRecorder := mediaRecorder s;
     audioChunks := audioChunks s; isRecording := isRecording s;
     isProcessing := isProcessing s; autoMode := autoMode s;
     microphone := microphone s; silenceTimeout := silenceTimeout s;
     ui := ui s; now := now s; monitoring := monitoring s;
     requests := requests s; stopping := v; reading := reading s;
     outbox := outbox s; vad_log := vad_log s; played := played s |}.

Definition set_reading (v : list (list blob)) (s : VoiceAssistant)
    : VoiceAssistant :=
  {| ws_open := ws_open s; mediaRecorder := mediaRecorder s;
     audioChunks := audioChunks s; isRecording := isRecording s;
     isProcessing := isProcessing s; autoMode := autoMode s;
     microphone := microphone s; silenceTimeout := silenceTimeout s;
     ui := ui s; now := now s; monitoring := monitoring s;
     requests := requests s; stopping := stopping s; reading := v;
     outbox := outbox s; vad_log := vad_log s; played := played s |}.

Definition set_outbox (v : list (list blob)) (s : VoiceAssistant)
    : VoiceAssistant :=
  {| ws_open := ws_open s; mediaRecorder := mediaRecorder s;
     audioChunks := audioChunks s; isRecording := isRecording s;
     isProcessing := isProcessing s; autoMode := autoMode s;
     microphone := microphone s; silenceTimeout := silenceTimeout s;
     ui := ui s; now := now s; monitoring := monitoring s;
     requests := requests s; stopping := stopping s; reading := reading s;
     outbox := v; vad_log := vad_log s; played := played s |}.

Definition set_vad_log (v : list vad_event) (s : VoiceAssistant)
    : VoiceAssistant :=
  {| ws_open := ws_open s; mediaRecorder := mediaRecorder s;
     audioChunks := audioChunks s; isRecording := isRecording s;
     isProcessing := isProcessing s; autoMode := autoMode s;
     microphone := microphone s; silenceTimeout := silenceTimeout s;
     ui := ui s; now := now s; monitoring := monitoring s;
     requests := requests s; stopping := stopping s; reading := reading s;
     outbox := outbox s; vad_log := v; played := played s |}.

Definition set_played (v : list (Z * string)) (s : VoiceAssistant)
    : VoiceAssistant :=
  {| ws_open := ws_open s; mediaRecorder := mediaRecorder s;
     audioChunks := audioChunks s; isRecording := isRecording s;
     isProcessing := isProcessing s; autoMode := autoMode s;
     microphone := microphone s; silenceTimeout := silenceTimeout s;
     ui := ui s; now := now s; monitoring := monitoring s;
     requests := requests s; stopping := stopping s; reading := reading s;
     outbox := outbox s; vad_log := vad_log s; played := v |}.

Definition initial : VoiceAssistant :=
  {| ws_open := false; mediaRecorder := None; audioChunks := [];
     isRecording := false; isProcessing := false; autoMode := false;
     microphone := false; silenceTimeout := None; ui := UiIdle; now := 0;
     monitoring := 0%nat; requests := []; stopping := []; reading := [];
     outbox := []; vad_log := []; played := [] |}.

(** What happens to the page. *)
Inductive event : Type :=
| AnimationFrame (dataArray : list Z)
    (* a callback of a checkAudio loop *)
| MicClick
| AutoModeClick
| UserMedia (k : nat) (granted : bool) (dataArray : list Z)
    (* the k-th pending getUserMedia settles; dataArray is what the
       analyser holds when monitorAudio is then started *)
| RecorderStopped (k : nat) (size : Z)
    (* the dataavailable and stop events of the k-th stopped recorder;
       size is event.data.size *)
| BlobRead (k : nat) (max_arguments : Z)
    (* arrayBuffer() of the k-th blob resolves; max_arguments is the
       number of arguments the engine accepts in a call at that moment *)
| WsOpened
| WsClosed
| WsMessage (m : Server.message).

Definition Qgtb (a b : Q) : bool := negb (Qle_bool a b).
Definition Qltb (a b : Q) : bool := negb (Qle_bool b a).

(** [dataArray.reduce((a, b) => a + b) / bufferLength] *)
Definition average (dataArray : list Z) : Q :=
  Qdiv (inject_Z (fold_left Z.add dataArray 0)) (inject_Z bufferLength).

(** [processRecording()], up to its [await]: the blob is made of the
    chunks the page holds now. *)
Definition processRecording (s : VoiceAssistant) : VoiceAssistant :=
  set_reading (reading s ++ [audioChunks s]) s.

(** The bytes of a blob made of [chunks]. *)
Definition total_size (chunks : list blob) : Z :=
  fold_right (fun b n => blob_size b + n) 0 chunks.

(** [processRecording()], from the [await] on.  The conversion to base64,
    [String.fromCharCode(...new Uint8Array(arrayBuffer))], passes one
    argument per byte and raises RangeError when the engine does not
    take that many: the function then ends without sending.  Otherwise
    the audio is sent if the socket is open. *)
Definition processRecording_resume (max_arguments : Z)
    (chunks : list blob) (s : VoiceAssistant) : VoiceAssistant :=
  if total_size chunks <=? max_arguments then
    if ws_open s then set_outbox (outbox s ++ [chunks]) s
    else set_ui UiIdle s
  else s.

(** The [dataavailable] and [stop] events of a recorder stopped at time
    [stopped]: [ondataavailable] pushes the recorded blob, when it is not
    empty, onto the chunks the page holds now, then [onstop] runs
    [processRecording]. *)
Definition recorder_stopped (r : recorder) (stopped size : Z)
    (s : VoiceAssistant) : VoiceAssistant :=
  let data := {| blob_ms := stopped - rec_started r;
                 blob_size := size |} in
  let s := if 0 <? blob_size data
           then set_audioChunks (audioChunks s ++ [data]) s else s in
  processRecording s.

(** [stopRecording()] *)
Definition stopRecording (s : VoiceAssistant) : VoiceAssistant :=
  match mediaRecorder s with
  | Some r =>
      if isRecording s then
        let s := set_stopping (stopping s ++ [(r, now s)]) s in
        let s := set_isRecording false s in
        set_ui UiProcessing s
      else s
  | None => s
  end.

(** [startRecording], once it has a stream: nothing is checked again. *)
Definition startRecording_resume (s : VoiceAssistant) : VoiceAssistant :=
  let s := set_mediaRecorder (Some {| rec_started := now s |}) s in
  let s := set_audioChunks [] s in
  let s := set_isRecording true s in
  set_ui UiRecording s.

(** [startRecording(autoMode)]: in auto mode with the audio graph open
    the stream of the graph is used at once; otherwise the function
    awaits [getUserMedia]. *)
Definition startRecording (auto : bool) (s : VoiceAssistant)
    : VoiceAssistant :=
  if auto && microphone s then startRecording_resume s
  else set_requests (requests s ++ [ForRecording]) s.

(** The callback of the silence timer. *)
Definition silence_elapsed (s : VoiceAssistant) : VoiceAssistant :=
  let s := if isRecording s
           then stopRecording (set_vad_log (vad_log s ++ [SpeechStop (now s)]) s)
           else s in
  set_silenceTimeout None s.

(** [checkAudio()], the callback of a loop: without auto mode it returns
    and the loop ends; without analyser [getByteFrequencyData] raises and
    the loop ends as well. *)
Definition checkAudio (dataArray : list Z) (s : VoiceAssistant)
    : VoiceAssistant :=
  if negb (autoMode s) then set_monitoring (pred (monitoring s)) s
  else if negb (microphone s) then set_monitoring (pred (monitoring s)) s
  else
    let average := average dataArray in
    if Qgtb average volumeThreshold && negb (isRecording s)
       && negb (isProcessing s)
    then
      startRecording true
        (set_vad_log (vad_log s ++ [SpeechStart (now s)]) s)
    else if isRecording s && Qltb average (volumeThreshold / 2)
    then
      match silenceTimeout s with
      | None => set_silenceTimeout (Some (now s + silenceDelay)) s
      | Some _ => s
      end
    else if isRecording s && Qgtb average (volumeThreshold / 2)
    then
      match silenceTimeout s with
      | Some _ => set_silenceTimeout None s
      | None => s
      end
    else s.

(** [monitorAudio()]: a new loop, whose first callback runs at once. *)
Definition monitorAudio (dataArray : list Z) (s : VoiceAssistant)
    : VoiceAssistant :=
  if negb (autoMode s) then s
  else checkAudio dataArray (set_monitoring (S (monitoring s)) s).

(** [stopAutoListening()] *)
Definition stopAutoListening (s : VoiceAssistant) : VoiceAssistant :=
  let s := set_microphone false s in
  let s := set_silenceTimeout None s in
  let s := if isRecording s then stopRecording s else s in
  set_ui UiIdle s.

(** [startAutoListening()], up to its [await]. *)
Definition startAutoListening (s : VoiceAssistant) : VoiceAssistant :=
  set_requests (requests s ++ [ForListening]) s.

(** [startAutoListening()], from the [await] on; [autoMode] is not looked
    at again, except by [monitorAudio]. *)
Definition startAutoListening_resume (granted : bool) (dataArray : list Z)
    (s : VoiceAssistant) : VoiceAssistant :=
  if granted then
    let s := set_microphone true s in
    let s := set_ui UiListening s in
    monitorAudio dataArray s
  else set_autoMode false s.

(** [toggleAutoMode()] *)
Definition toggleAutoMode (s : VoiceAssistant) : VoiceAssistant :=
  let s := set_autoMode (negb (autoMode s)) s in
  if autoMode s then startAutoListening s
  else stopAutoListening s.

(** The click listener of the microphone button. *)
Definition micButton_click (s : VoiceAssistant) : VoiceAssistant :=
  if autoMode s then toggleAutoMode s
  else if isRecording s then stopRecording s
  else if negb (isProcessing s) then startRecording false s
  else s.

(** A call of [getUserMedia] settles. *)
Definition userMedia (k : nat) (granted : bool) (dataArray : list Z)
    (s : VoiceAssistant) : VoiceAssistant :=
  match requests s !! k with
  | Some rq =>
      let s := set_requests (delete k (requests s)) s in
      match rq with
      | ForListening => startAutoListening_resume granted dataArray s
      | ForRecording => if granted then startRecording_resume s else s
      end
  | None => s
  end.

(** [handleResponse(data)] and [handleError(...)]: the clip is played
    when [data.audio_base64] is not empty. *)
Definition after_reply (s : VoiceAssistant) : VoiceAssistant :=
  set_ui (if autoMode s then UiListening else UiIdle) s.

Definition handleWebSocketMessage (m : Server.message)
    (s : VoiceAssistant) : VoiceAssistant :=
  match m with
  | Server.ResponseMsg _ _ audio_base64 _ _ =>
      let s := if PyStr.truthy audio_base64
               then set_played (played s ++ [(now s, audio_base64)]) s
               else s in
      after_reply s
  | Server.ErrorMsg _ _ => after_reply s
  | Server.StateUpdate is_processing => set_isProcessing is_processing s
  end.

Definition handle (ev : event) (s : VoiceAssistant) : VoiceAssistant :=
  match ev with
  | AnimationFrame dataArray =>
      if (0 <? monitoring s)%nat then checkAudio dataArray s else s
  | MicClick => micButton_click s
  | AutoModeClick => toggleAutoMode s
  | UserMedia k granted dataArray => userMedia k granted dataArray s
  | RecorderStopped k size =>
      match stopping s !! k with
      | Some (r, stopped) =>
          recorder_stopped r stopped size
            (set_stopping (delete k (stopping s)) s)
      | None => s
      end
  | BlobRead k max_arguments =>
      match reading s !! k with
      | Some chunks =>
          processRecording_resume max_arguments chunks
            (set_reading (delete k (reading s)) s)
      | None => s
      end
  | WsOpened => set_ws_open true s
  | WsClosed => set_ws_open false s
  | WsMessage m => handleWebSocketMessage m s
  end.

(** Time passing up to [t]: a silence timer that is due fires first. *)
Definition advance (t : Z) (s : VoiceAssistant) : VoiceAssistant :=
  let s := match silenceTimeout s with
           | Some due =>
               if due <=? t
               then silence_elapsed (set_now (Z.max (now s) due) s)
               else s
           | None => s
           end in
  set_now (Z.max (now s) t) s.

(** The event [ev] happening at time [t]. *)
Definition step (i : Z * event) (s : VoiceAssistant) : VoiceAssistant :=
  handle (snd i) (advance (fst i) s).

Definition run (inputs : list (Z * event)) (s : VoiceAssistant)
    : VoiceAssistant :=
  fold_left (fun s i => step i s) inputs s.

(** The assistant's voice is audible: a clip handed to [playAudio] has
    not run its length ([audio_ms]) yet. *)
Definition speaking (audio_ms : string -> Z) (s : VoiceAssistant) : bool :=
  existsb (fun p : Z * string => now s <? fst p + audio_ms (snd p))
    (played s).

(** *** States used to state the properties *)

(** An event that does not clear [isProcessing]. *)
Definition keeps_processing (ev : event) : Prop :=
  match ev with
  | WsMessage (Server.StateUpdate false) => False
  | _ => True
  end.

(** Nothing of a recording is under way: none is open, none is being
    started ([startRecording] waiting for the microphone), none is being
    delivered (events of a stopped recorder, a blob being read). *)
Definition settled (s : VoiceAssistant) : Prop :=
  isRecording s = false /\ ~ In ForRecording (requests s)
  /\ stopping s = [] /\ reading s = [].

(** [s] is processing and settled, and since [s0] nothing was recorded,
    detected or sent. *)
Definition held (s0 s : VoiceAssistant) : Prop :=
  isProcessing s = true /\ settled s
  /\ vad_log s = vad_log s0 /\ outbox s = outbox s0
  /\ mediaRecorder s = mediaRecorder s0 /\ audioChunks s = audioChunks s0.

(** [s] is recording in auto mode with the loop running and the silence
    timer armed at [t0], and since [s0] nothing was detected or sent. *)
Definition dipping (t0 : Z) (s0 s : VoiceAssistant) : Prop :=
  autoMode s = true /\ microphone s = true /\ (0 < monitoring s)%nat
  /\ isRecording s = true
  /\ silenceTimeout s = Some (t0 + silenceDelay)
  /\ vad_log s = vad_log s0 /\ outbox s = outbox s0
  /\ mediaRecorder s = mediaRecorder s0 /\ audioChunks s = audioChunks s0.

(** The recording of [s0] is still open in [s]: no stop was decided,
    nothing was sent, the same recorder runs, and no timer is pending. *)
Definition still_open (s0 s : VoiceAssistant) : Prop :=
  isRecording s = true /\ silenceTimeout s = None
  /\ vad_log s = vad_log s0 /\ outbox s = outbox s0
  /\ mediaRecorder s = mediaRecorder s0 /\ audioChunks s = audioChunks s0.

(** Frames given by time and bins. *)
Definition frames (l : list (Z * list Z)) : list (Z * event) :=
  map (fun i => (fst i, AnimationFrame (snd i))) l.

End Client.

(** ** Concrete inputs

    A small world to run the programs in: every byte of audio stands for
    100 ms of sound and costs Whisper 50 ms, the empty byte string does
    not decode, the chat model and the synthesizer always give the same
    answer. *)

Module Demo.

Definition env : Server.Env := {|
  Server.openai_api_key := Some "sk-demo";
  Server.load_audio := fun a =>
    match a with
    | [] => inl "Decoding failed"
    | _ => inr (100 * Z.of_nat (length a))
    end;
  Server.load_audio_ms := fun _ => 0%N;
  Server.whisper := fun _ => inr " where is my parcel ";
  Server.whisper_ms := fun a => 50 * Z.of_nat (length a);
  Server.chat := fun _ => inr "It is on its way.";
  Server.chat_ms := fun _ => 400;
  Server.edge_tts := fun _ => inr [x49; x44; x33]%byte;
  Server.edge_tts_ms := fun _ => 300;
  Server.b64encode := fun _ => "SUQz" |}.

(** The same services with [OPENAI_API_KEY] unset. *)
Definition env_without_key : Server.Env := {|
  Server.openai_api_key := None;
  Server.load_audio := Server.load_audio env;
  Server.load_audio_ms := Server.load_audio_ms env;
  Server.whisper := Server.whisper env;
  Server.whisper_ms := Server.whisper_ms env;
  Server.chat := Server.chat env;
  Server.chat_ms := Server.chat_ms env;
  Server.edge_tts := Server.edge_tts env;
  Server.edge_tts_ms := Server.edge_tts_ms env;
  Server.b64encode := Server.b64encode env |}.

Definition corrupt : list byte := [].
Definition short_audio : list byte := repeat x00 2.     (* 200 ms *)
Definition utterance : list byte := repeat x00 12.      (* 1.2 s *)

Definition audio_message (a : list byte) : Server.client_message :=
  {| Server.msg_type := "audio_data"; Server.msg_audio := inr a |}.

(** Two connections; the message of connection 2 is handled while the
    handler of connection 1 waits for the edge-tts stream. *)
Definition overlap (b : list byte) : list Server.action :=
  [Server.Connect 1; Server.Connect 2;
   Server.Deliver 1 (Server.Typed (audio_message utterance));
   Server.Deliver 2 (Server.Typed (audio_message b));
   Server.Resume 1; Server.Resume 2].

(** Connection 1 alone. *)
Definition alone : list Server.action :=
  [Server.Connect 1;
   Server.Deliver 1 (Server.Typed (audio_message utterance));
   Server.Resume 1].

Definition local_env : LocalLoop.Env := {|
  LocalLoop.tts_stream := fun _ => inr [x49; x44; x33]%byte;
  LocalLoop.tts_ms := fun _ => 300;
  LocalLoop.mp3_to_wav := fun a => inr a;
  LocalLoop.playback_ms := fun _ => Some 1500;
  LocalLoop.collection_query := fun _ _ =>
    [{["answer" := "Within three days."]}] |}.

Definition local_state (listening : bool) : LocalLoop.state :=
  {| LocalLoop.listening_active := listening; LocalLoop.q_audio := [];
     LocalLoop.now := 0; LocalLoop.log := [] |}.

Definition block : LocalLoop.frame := [x7f; x7f]%byte.

Definition local_arrivals : LocalLoop.arrivals :=
  {| LocalLoop.while_synthesizing := [block];
     LocalLoop.while_playing := [block; block];
     LocalLoop.while_guarding := [block] |}.

(** A frame of the analyser with every bin at [v]. *)
Definition bins (v : Z) : list Z := repeat v 128.

(** The page with the socket open and auto mode on, the microphone
    granted, at time 10. *)
Definition listening : Client.VoiceAssistant :=
  Client.run [(0, Client.WsOpened); (10, Client.AutoModeClick);
              (10, Client.UserMedia 0 true (bins 0))] Client.initial.

Definition frame_at (t v : Z) : Z * Client.event :=
  (t, Client.AnimationFrame (bins v)).

(** An utterance: speech from 100 ms, silence from 1500 ms, confirmed at
    3500 ms; the recorder delivers its blob of 54 kB, which is read and
    sent by an engine that takes 65536 arguments. *)
Definition utterance_sent : list (Z * Client.event) :=
  [frame_at 100 30; frame_at 1500 5; frame_at 3500 5;
   (3500, Client.RecorderStopped 0 54400);
   (3500, Client.BlobRead 0 65536)].

(** One turn: the utterance, then the server's messages; the reply
    arrives at 5000 ms with its clip, followed at once by the state
    update that clears [isProcessing]. *)
Definition answered : Client.VoiceAssistant :=
  Client.run
    (utterance_sent ++
    [(3600, Client.WsMessage (Server.StateUpdate true));
     (5000, Client.WsMessage
              (Server.ResponseMsg "where is my parcel" "It is on its way."
                 "SUQz" 1300 ∅));
     (5000, Client.WsMessage (Server.StateUpdate false))]) listening.

(** The clip of the reply lasts 1.5 s. *)
Definition clip_ms (audio_base64 : string) : Z := 1500.

(** The page while the server works on the utterance. *)
Definition processing : Client.VoiceAssistant :=
  Client.run
    (utterance_sent ++ [(3600, Client.WsMessage (Server.StateUpdate true))])
    listening.

(** A loud frame every second, from 100 ms to 12100 ms. *)
Definition loud_seconds : list (Z * Client.event) :=
  map (fun k => frame_at (100 + 1000 * Z.of_nat k) 30) (seq 0 13).

(** The page after the first loud frame: recording since 100 ms. *)
Definition recording : Client.VoiceAssistant :=
  Client.run [frame_at 100 30] listening.

(** The world in which the demonstrations start, at 1000 ms. *)
Definition start : Server.world := Server.initial_world 1000.

(** What the first stage of the pipeline gives, under its time limit. *)
Definition first_stage (e : Server.Env) (a : list byte)
    : (Server.exn + string) * Server.world :=
  Server.run
    (Server.wait_for (Server.transcribe_audio_openai e a) 15000) start.

(** The world connection 2 leaves at 2300 ms after a whole turn, and a
    world in which nothing happened before 2300 ms. *)
Definition used_world : Server.world :=
  snd (Server.run (Server.on_message env 2 (audio_message utterance)) start).

Definition fresh_world : Server.world := Server.initial_world 2300.

(** What happens to the page while the server works. *)
Definition while_processing : list (Z * Client.event) :=
  [frame_at 3700 50; (3800, Client.MicClick);
   (3900, Client.AutoModeClick);
   (3950, Client.UserMedia 0 true (bins 60));
   (4000, Client.AutoModeClick); (4050, Client.MicClick);
   (4100, Client.WsMessage (Server.ErrorMsg "x" None));
   (4150, Client.AutoModeClick);
   (4160, Client.UserMedia 0 false []);
   frame_at 4200 90].

End Demo.

(** ** The knowledge base of the local loop ([app.py]) *)

Module Knowledge.

Definition COLLECTION_NAME : string := "qna_collection".

Section WithVectors.

(** The embedding vectors; the code only moves them around. *)
Variable vector : Type.

(** One record of a Chroma collection, as [collection.add] stores it. *)
Record entry : Type := {
  entry_id : string;
  document : string;
  metadata : gmap string string;
  embedding : vector
}.

(** A Chroma client is modelled by its collections by name,
    [gmap string (list entry)], each with its records in the order they
    were added. *)

(** A sheet of the workbook as [pd.read_excel] gives it: the number of
    columns and the data rows; [None] is an empty cell (NaN). *)
Record sheet : Type := {
  width : nat;
  rows : list (list (option string))
}.

Definition cell (row : list (option string)) (i : nat) : option string :=
  mjoin (row !! i).

(** [df.iloc[:, [0, 2]].dropna()] and the two [astype(str).tolist()]:
    the question and answer of every row that has both; an exception for
    a sheet with fewer than three columns. *)
Definition question_and_answer (row : list (option string))
    : option (string * string) :=
  match cell row 0, cell row 2 with
  | Some q, Some a => Some (q, a)
  | _, _ => None
  end.

Definition questions_and_answers (sh : sheet)
    : string + list (string * string) :=
  if (width sh <? 3)%nat then inl "positional indexers are out-of-bounds"
  else inr (omap question_and_answer (rows sh)).

(** The loop over the sheets. *)
Fixpoint all_pairs (sheets : list sheet) : string + list (string * string) :=
  match sheets with
  | [] => inr []
  | sh :: sheets =>
      match questions_and_answers sh with
      | inl e => inl e
      | inr pairs =>
          match all_pairs sheets with
          | inl e => inl e
          | inr more => inr (pairs ++ more)%list
          end
      end
  end.

(** The records added by the [enumerate(zip(...))] loop, from index
    [idx] on. *)
Fixpoint records (idx : nat) (pairs : list (string * string))
    (embeddings : list vector) : list entry :=
  match pairs, embeddings with
  | (q, a) :: pairs, emb :: embeddings =>
      {| entry_id := pretty idx; document := q;
         metadata := {["answer" := a]}; embedding := emb |}
      :: records (S idx) pairs embeddings
  | _, _ => []
  end.

(** [upload_excel_to_chroma(client, model)]: the client afterwards and
    the collection returned, or the exception raised.  [workbook] is what
    [pd.ExcelFile] and [pd.read_excel] give, [encode] is [model.encode]. *)
Definition upload_excel_to_chroma (workbook : string + list sheet)
    (encode : list string -> list vector) (c : gmap string (list entry))
    : gmap string (list entry) * (string + list entry) :=
  (* delete_collection, errors ignored; create_collection *)
  let c := <[COLLECTION_NAME := []]> (delete COLLECTION_NAME c) in
  match workbook with
  | inl e => (c, inl e)
  | inr sheets =>
      match all_pairs sheets with
      | inl e => (c, inl e)
      | inr pairs =>
          let embeddings := encode (map fst pairs) in
          let collection := records 0 pairs embeddings in
          (<[COLLECTION_NAME := collection]> c, inr collection)
      end
  end.

(** [get_existing_collection(client)] *)
Definition get_existing_collection (c : gmap string (list entry)) : option (list entry) :=
  match c !! COLLECTION_NAME with
  | Some collection =>
      if (0 <? length collection)%nat then Some collection else None
  | None => None
  end.

(** The first lines of [main]: the collection the assistant runs with. *)
Definition main_collection (workbook : string + list sheet)
    (encode : list string -> list vector) (c : gmap string (list entry))
    : gmap string (list entry) * (string + list entry) :=
  match get_existing_collection c with
  | Some collection => (c, inr collection)
  | None => upload_excel_to_chroma workbook encode c
  end.

(** [collection.query(query_embeddings=..., n_results=top_k)] for one
    query: the metadata of the [top_k] nearest records; [nearest] orders
    the records by distance to the query. *)
Definition query (nearest : vector -> list entry -> list entry)
    (collection : list entry) (v : vector) (n_results : nat)
    : list (gmap string string) :=
  map metadata (take n_results (nearest v collection)).

(** The services of the loop, with the collection behind
    [collection.query]. *)
Definition with_collection (base : LocalLoop.Env)
    (encode : list string -> list vector)
    (nearest : vector -> list entry -> list entry)
    (collection : list entry) : LocalLoop.Env :=
  {| LocalLoop.tts_stream := LocalLoop.tts_stream base;
     LocalLoop.tts_ms := LocalLoop.tts_ms base;
     LocalLoop.mp3_to_wav := LocalLoop.mp3_to_wav base;
     LocalLoop.playback_ms := LocalLoop.playback_ms base;
     LocalLoop.collection_query := fun question top_k =>
       match encode [question] with
       | v :: _ => query nearest collection v top_k
       | [] => []
       end |}.

(** A row that has both a question and an answer. *)
Definition complete (row : list (option string)) : bool :=
  match cell row 0, cell row 2 with
  | Some _, Some _ => true
  | _, _ => false
  end.

(** The encoder gives one vector per text. *)
Definition one_each (encode : list string -> list vector) : Prop :=
  forall texts, length (encode texts) = length texts.

(** A ranking that only reorders or drops records. *)
Definition selects (nearest : vector -> list entry -> list entry) : Prop :=
  forall v collection e, In e (nearest v collection) -> In e collection.

End WithVectors.

Arguments one_each {vector} encode.
Arguments selects {vector} nearest.

End Knowledge.

(** ** The main loop of the local assistant ([run_voice_assistant]) *)

Module Loop.

(** What the recognizer says about the block just fed to it: a final
    result with its text ([AcceptWaveform] returned true), or a partial
    one. *)
Inductive recognition : Type :=
| Final (text : string)
| Partial (partial : string).

Inductive outcome : Type :=
| Continue                 (* the loop goes on *)
| Blocked                  (* q_audio.get() waits: the queue is empty *)
| Stopped (error : string). (* the except clause around the loop *)

(** The state of the loop: the shared variables and the blocks the
    recognizer has been fed. *)
Record state : Type := {
  shared : LocalLoop.state;
  fed : list LocalLoop.frame
}.

Definition set_queue (q : list LocalLoop.frame) (s : LocalLoop.state)
    : LocalLoop.state :=
  {| LocalLoop.listening_active := LocalLoop.listening_active s;
     LocalLoop.q_audio := q;
     LocalLoop.now := LocalLoop.now s;
     LocalLoop.log := LocalLoop.log s |}.

Definition add_log (evs : list LocalLoop.event) (s : LocalLoop.state)
    : LocalLoop.state :=
  {| LocalLoop.listening_active := LocalLoop.listening_active s;
     LocalLoop.q_audio := LocalLoop.q_audio s;
     LocalLoop.now := LocalLoop.now s;
     LocalLoop.log := LocalLoop.log s ++ evs |}.

(** The blocks the stream thread delivers during one turn of the loop:
    while the recognizer works on the block taken from the queue, while
    the knowledge base is searched, and while the reply is spoken. *)
Record deliveries : Type := {
  while_recognizing : list LocalLoop.frame;
  while_answering : list LocalLoop.frame;
  while_speaking : LocalLoop.arrivals
}.

(** What the callback logs for blocks delivered with the gate open or
    closed. *)
Definition enqueued (listening : bool) (fs : list LocalLoop.frame)
    : list LocalLoop.event :=
  if listening then map LocalLoop.Enqueued fs else [].

(** One turn of the [while True] loop.  [vosk] is the recognizer, as a
    function of the blocks fed so far; the stream thread runs
    [audio_callback] on the blocks of [arr] meanwhile. *)
Definition iteration (env : LocalLoop.Env)
    (vosk : list LocalLoop.frame -> recognition)
    (arr : deliveries) (s : state) : outcome * state :=
  match LocalLoop.q_audio (shared s) with
  | [] => (Blocked, s)
  | data :: rest =>
      let sh := set_queue rest (shared s) in
      let fed := (fed s ++ [data])%list in
      let sh := LocalLoop.callbacks (while_recognizing arr) sh in
      match vosk fed with
      | Final raw =>
          let text := PyStr.strip raw in
          if PyStr.truthy text then
            let (answers, evs) := LocalLoop.query_chroma_db env text 1 in
            let sh := add_log evs sh in
            let sh := LocalLoop.callbacks (while_answering arr) sh in
            match answers with
            | reply :: _ =>
                (Continue,
                 {| shared :=
                      LocalLoop.speak_text env reply (while_speaking arr) sh;
                    fed := fed |})
            | [] =>
                (Stopped "list index out of range",
                 {| shared := sh; fed := fed |})
            end
          else (Continue, {| shared := sh; fed := fed |})
      | Partial _ => (Continue, {| shared := sh; fed := fed |})
      end
  end.

End Loop.

(** ** What the pipeline and the handler can do *)

Module Outcomes.

Import Server.

(** A string that [strip] leaves alone. *)
Definition trimmed (s : string) : Prop :=
  PyStr.lstrip s = s /\ PyStr.lstrip (PyStr.rev s) = PyStr.rev s.

(** What a stage under [wait_for] ends with: a value or a timeout. *)
Definition contained {A} (r : exn + A) : Prop :=
  match r with inl TimeoutError | inr _ => True | _ => False end.

(** The metrics just after [performance_monitor.start()]. *)
Definition started : gmap string Z :=
  <["transcription_time" := 0]>
    (<["response_time" := 0]> (<["tts_time" := 0]> ∅)).

(** The markers the first two stages make of an exception. *)
Definition transcription_error (msg : string) : string :=
  "[Transcription Error: " +:+ msg +:+ "]".

Definition apology (msg : string) : string :=
  "I'm having trouble connecting right now. Error: " +:+ msg.

(** How the three stages compose. *)
Inductive pipeline (env : Env) (audio : list byte) (w : world)
    : result -> world -> Prop :=
| stop_at_transcribe r1 w1 :
    wait_for (transcribe_audio_openai env audio) 15000 None w = (r1, w1) ->
    r1 = inl TimeoutError \/ (exists t, r1 = inr t /\ rejected t = true) ->
    pipeline env audio w
      (ErrorResult (match r1 with inl _ => took_too_long
                    | inr _ => could_not_understand end)
         (clock w1 - clock w)) w1
| stop_at_answer t w1 w2 :
    wait_for (transcribe_audio_openai env audio) 15000 None w = (inr t, w1) ->
    rejected t = false ->
    wait_for (get_openai_response env t) 15000 None w1
    = (inl TimeoutError, w2) ->
    pipeline env audio w (ErrorResult took_too_long (clock w2 - clock w)) w2
| stop_at_synthesize t w1 response w2 w3 :
    wait_for (transcribe_audio_openai env audio) 15000 None w = (inr t, w1) ->
    rejected t = false ->
    wait_for (get_openai_response env t) 15000 None w1 = (inr response, w2) ->
    wait_for (text_to_speech env response) 10000 None w2
    = (inl TimeoutError, w3) ->
    pipeline env audio w (ErrorResult took_too_long (clock w3 - clock w)) w3
| all_stages t w1 response w2 audio_base64 w3 :
    wait_for (transcribe_audio_openai env audio) 15000 None w = (inr t, w1) ->
    rejected t = false ->
    wait_for (get_openai_response env t) 15000 None w1 = (inr response, w2) ->
    wait_for (text_to_speech env response) 10000 None w2
    = (inr audio_base64, w3) ->
    pipeline env audio w
      (Success t response audio_base64 (clock w3 - clock w)
         (<["total_time" := sum_values (metrics w3)]> (metrics w3))) w3.

(** The computation leaves the connections and the flags alone. *)
Definition quiet {A} (m : M A) : Prop :=
  forall conn dl w,
    received conn (trace (snd (m dl w))) = received conn (trace w)
    /\ conv (snd (m dl w)) = conv w.

(** An event that is not a call to OpenAI. *)
Definition offline (e : event) : Prop :=
  match e with
  | WhisperCalled _ | ChatCalled _ => False
  | _ => True
  end.

Definition is_audio (data : client_message) : bool :=
  String.eqb (msg_type data) "audio_data".

(** What the handler sends for one audio message. *)
Definition turn (reply : message) : list message :=
  [StateUpdate true; reply; StateUpdate false].

(** The messages the loop of the endpoint gets to: those in front of the
    first one that has no type. *)
Fixpoint served (msgs : list json) : list client_message :=
  match msgs with
  | Typed data :: msgs => data :: served msgs
  | _ => []
  end.

Definition typed (j : json) : bool :=
  match j with Typed _ => true | Untyped _ => false end.

End Outcomes.

(** ** States of the page *)

Module Page.

Import Client.

(** What the flags of the page say about each other, whatever happened
    to it: a recording has its recorder, and a pending silence timer
    belongs to an open audio graph and to a recorder. *)
Definition consistent (s : VoiceAssistant) : Prop :=
  (isRecording s = true -> mediaRecorder s <> None)
  /\ (silenceTimeout s <> None ->
      microphone s = true /\ mediaRecorder s <> None).

(** The recording, the detector's log and timer, what is outstanding,
    what was sent and the two mode flags are as they were. *)
Definition same_recording (s s' : VoiceAssistant) : Prop :=
  isRecording s' = isRecording s /\ mediaRecorder s' = mediaRecorder s
  /\ audioChunks s' = audioChunks s /\ outbox s' = outbox s
  /\ vad_log s' = vad_log s /\ silenceTimeout s' = silenceTimeout s
  /\ autoMode s' = autoMode s /\ isProcessing s' = isProcessing s
  /\ requests s' = requests s /\ stopping s' = stopping s
  /\ reading s' = reading s.

(** Messages of the server arriving at the given times. *)
Definition deliver (times : list Z) (msgs : list Server.message)
    : list (Z * event) :=
  combine times (map WsMessage msgs).

(** The clip the page plays for a reply received at time [t]. *)
Definition clip (t : Z) (reply : Server.message) : list (Z * string) :=
  match reply with
  | Server.ResponseMsg _ _ audio_base64 _ _ =>
      if PyStr.truthy audio_base64 then [(t, audio_base64)] else []
  | _ => []
  end.

End Page.

(** ** More concrete inputs *)

Module Samples.

(** The services of [Demo.env] with a chat completion that raises after
    30 s (its own time limit of 10 s and the retries of the client). *)
Definition env_chat_down : Server.Env := {|
  Server.openai_api_key := Server.openai_api_key Demo.env;
  Server.load_audio := Server.load_audio Demo.env;
  Server.load_audio_ms := Server.load_audio_ms Demo.env;
  Server.whisper := Server.whisper Demo.env;
  Server.whisper_ms := Server.whisper_ms Demo.env;
  Server.chat := fun _ => inl "Connection error.";
  Server.chat_ms := fun _ => 30000;
  Server.edge_tts := Server.edge_tts Demo.env;
  Server.edge_tts_ms := Server.edge_tts_ms Demo.env;
  Server.b64encode := Server.b64encode Demo.env |}.

(** ... with an edge-tts stream that raises after [ms] milliseconds. *)
Definition env_tts_down (ms : Z) : Server.Env := {|
  Server.openai_api_key := Server.openai_api_key Demo.env;
  Server.load_audio := Server.load_audio Demo.env;
  Server.load_audio_ms := Server.load_audio_ms Demo.env;
  Server.whisper := Server.whisper Demo.env;
  Server.whisper_ms := Server.whisper_ms Demo.env;
  Server.chat := Server.chat Demo.env;
  Server.chat_ms := Server.chat_ms Demo.env;
  Server.edge_tts := fun _ => inl "No audio was received.";
  Server.edge_tts_ms := fun _ => ms;
  Server.b64encode := Server.b64encode Demo.env |}.

(** The world after the first and after the second stage. *)
Definition after_transcribe (e : Server.Env) : Server.world :=
  snd (Demo.first_stage e Demo.utterance).

Definition after_answer (e : Server.Env) : Server.world :=
  snd (Server.run
         (Server.wait_for
            (Server.get_openai_response e "where is my parcel") 15000)
         (after_transcribe e)).

(** The page with a recording open since 100 ms and the silence timer
    armed by the quiet frame of 1500 ms. *)
Definition dipped : Client.VoiceAssistant :=
  Client.run [Demo.frame_at 1500 5] Demo.recording.

(** The page after auto mode was switched off again: the monitor loop is
    still scheduled. *)
Definition loop_left : Client.VoiceAssistant :=
  Client.run [(20, Client.AutoModeClick)] Demo.listening.

(** A workbook of two sheets; the last row of the first has no answer. *)
Definition faq : list (Knowledge.sheet) :=
  [{| Knowledge.width := 3;
      Knowledge.rows :=
        [[Some "Where is my parcel?"; Some "tracking";
          Some "It is on its way."];
         [Some "How long does delivery take?"; None;
          Some "Within three days."];
         [Some "Who pays the return?"; Some "returns"; None]] |};
   {| Knowledge.width := 4;
      Knowledge.rows :=
        [[Some "Can I change the address?"; None; Some "Yes, before pickup.";
          Some "checked"]] |}].

(** A workbook whose second sheet has two columns only. *)
Definition narrow : list (Knowledge.sheet) :=
  [{| Knowledge.width := 3;
      Knowledge.rows := [[Some "Where is my parcel?"; None;
                          Some "It is on its way."]] |};
   {| Knowledge.width := 2;
      Knowledge.rows := [[Some "Who pays the return?"; Some "You do."]] |}].

(** An encoder with the length of the text for a vector, and a ranking
    that puts the records with the query's vector first. *)
Definition encode (texts : list string) : list nat :=
  map String.length texts.

Definition nearest (v : nat) (collection : list (Knowledge.entry nat))
    : list (Knowledge.entry nat) :=
  (List.filter (fun e => Nat.eqb (Knowledge.embedding nat e) v) collection
   ++ List.filter (fun e => negb (Nat.eqb (Knowledge.embedding nat e) v))
        collection)%list.

(** A client with a collection left from before. *)
Definition stale : gmap string (list (Knowledge.entry nat)) :=
  {[ Knowledge.COLLECTION_NAME :=
       [{| Knowledge.entry_id := "0"; Knowledge.document := "old";
           Knowledge.metadata := {["answer" := "old"]};
           Knowledge.embedding := 3%nat |}] ]}.

(** The collection of the workbook. *)
Definition faq_collection : list (Knowledge.entry nat) :=
  Knowledge.records nat 0
    [("Where is my parcel?", "It is on its way.");
     ("How long does delivery take?", "Within three days.");
     ("Can I change the address?", "Yes, before pickup.")]
    (encode ["Where is my parcel?"; "How long does delivery take?";
             "Can I change the address?"]).

(** The local services with a collection that finds nothing. *)
Definition env_nothing_found : LocalLoop.Env := {|
  LocalLoop.tts_stream := LocalLoop.tts_stream Demo.local_env;
  LocalLoop.tts_ms := LocalLoop.tts_ms Demo.local_env;
  LocalLoop.mp3_to_wav := LocalLoop.mp3_to_wav Demo.local_env;
  LocalLoop.playback_ms := LocalLoop.playback_ms Demo.local_env;
  LocalLoop.collection_query := fun _ _ => [] |}.

(** A recognizer that is done after two blocks. *)
Definition vosk (fed : list LocalLoop.frame) : Loop.recognition :=
  if (2 <=? length fed)%nat then Loop.Final " where is my parcel "
  else Loop.Partial "where".

(** The blocks delivered during one turn of the loop. *)
Definition turn_deliveries : Loop.deliveries :=
  {| Loop.while_recognizing := [Demo.block];
     Loop.while_answering := [Demo.block; Demo.block];
     Loop.while_speaking := Demo.local_arrivals |}.

(** The loop with one block recognised and two in the queue. *)
Definition waiting : Loop.state :=
  {| Loop.shared :=
       {| LocalLoop.listening_active := true;
          LocalLoop.q_audio := [Demo.block; Demo.block];
          LocalLoop.now := 0; LocalLoop.log := [] |};
     Loop.fed := [Demo.block] |}.

End Samples.

(** * Properties *)

(** ** Strings *)

Section StringFacts.

Lemma append_cons (c : ascii) (s r : string) :
  String c s +:+ r = String c (s +:+ r).
Proof. reflexivity. Qed.

Lemma append_nil (r : string) : "" +:+ r = r.
Proof. reflexivity. Qed.

Lemma substring_0_length (n : nat) (s : string) :
  String.length (substring 0 n s) = Nat.min n (String.length s).
Proof.
  revert s; induction n as [|n IH]; intros [|c s]; simpl; auto.
Qed.

Lemma append_length (s1 s2 : string) :
  String.length (s1 +:+ s2) = (String.length s1 + String.length s2)%nat.
Proof.
  induction s1 as [|c s1 IH]; [reflexivity|].
  rewrite append_cons. simpl. auto.
Qed.

Lemma substring_0_split (n : nat) (s : string) :
  exists rest, s = substring 0 n s +:+ rest.
Proof.
  revert s; induction n as [|n IH]; intros [|c s]; simpl.
  - exists ""; reflexivity.
  - exists (String c s); reflexivity.
  - exists ""; reflexivity.
  - destruct (IH s) as [rest Hrest]. exists rest.
    rewrite append_cons. f_equal. exact Hrest.
Qed.

Lemma prefix_split (p s : string) :
  String.prefix p s = true <-> exists post, s = p +:+ post.
Proof.
  revert p; induction s as [|d s IH]; intros [|c p]; simpl.
  - split; [intros _; exists ""; reflexivity | reflexivity].
  - split; [discriminate | intros [post H]].
    rewrite append_cons in H. discriminate.
  - split; [intros _; exists (String d s); reflexivity | reflexivity].
  - destruct (Ascii.ascii_dec c d) as [->|Hne].
    + rewrite IH. split; intros [post H]; exists post.
      * rewrite append_cons. congruence.
      * rewrite append_cons in H. congruence.
    + split; [discriminate | intros [post H]].
      rewrite append_cons in H. congruence.
Qed.

(** [PyStr.contains] is Python's [in]: the needle occurs somewhere. *)
Lemma contains_spec (needle hay : string) :
  PyStr.contains needle hay = true <->
  exists pre post, hay = pre +:+ needle +:+ post.
Proof.
  induction hay as [|c hay IH]; cbn [PyStr.contains].
  - rewrite orb_false_r, prefix_split. split.
    + intros [post H]. exists "", post. exact H.
    + intros [[|d pre] [post H]]; [exists post; exact H |].
      rewrite append_cons in H. discriminate.
  - rewrite orb_true_iff, IH, prefix_split. split.
    + intros [[post H] | [pre [post H]]].
      * exists "", post. exact H.
      * exists (String c pre), post. rewrite append_cons. congruence.
    + intros [[|d pre] [post H]].
      * left. exists post. exact H.
      * right. exists pre, post. rewrite append_cons in H. congruence.
Qed.

Example strip_example :
  PyStr.strip (String "009" "  where is my parcel " +:+ String "010" "")
  = "where is my parcel".
Proof. reflexivity. Qed.

Example lower_example :
  PyStr.lower "Oh I See, THAT is it" = "oh i see, that is it".
Proof. reflexivity. Qed.

Example contains_example :
  PyStr.contains "that is" "so that is it" = true
  /\ PyStr.contains "murder" "so that is it" = false.
Proof. split; reflexivity. Qed.

Lemma truthy_empty (s : string) : PyStr.truthy s = false <-> s = "".
Proof. destruct s; simpl; split; congruence. Qed.

End StringFacts.

(** ** The synthesizer's text limit *)

Section Synthesizer.

Import Server.

Lemma limit_text_short (text : string) :
  PyStr.len text <= 150 -> limit_text text = text.
Proof.
  intros H. unfold limit_text.
  destruct (Z.ltb_spec 150 (PyStr.len text)); [lia | reflexivity].
Qed.

Lemma limit_text_long (text : string) :
  150 < PyStr.len text ->
  limit_text text = PyStr.slice_to 147 text +:+ "...".
Proof.
  intros H. unfold limit_text.
  destruct (Z.ltb_spec 150 (PyStr.len text)); [reflexivity | lia].
Qed.

Lemma slice_to_len (n : nat) (text : string) :
  Z.of_nat n <= PyStr.len text -> PyStr.len (PyStr.slice_to n text) = Z.of_nat n.
Proof.
  unfold PyStr.len, PyStr.slice_to. intros H.
  rewrite substring_0_length. lia.
Qed.

(** Whatever the outcome of the synthesis (audio, exception, cancellation),
    [text_to_speech] enters the stage and builds exactly one request, for
    the limited text. *)
Lemma text_to_speech_trace (env : Env) (text : string) (dl : option Z)
    (w : world) :
  trace (snd (text_to_speech env text dl w))
  = (trace w ++ [Entered Synthesize; TtsCalled (limit_text text)])%list.
Proof.
  unfold text_to_speech, try_except, tts_request, tts_stream, await_until, block, time_time,
    monitor_record, call, emit, modify, raise.
  unfold mbind, mret, M_bind, M_ret. simpl.
  rewrite <- app_assoc. simpl.
  destruct dl as [d|]; simpl;
    repeat match goal with
           | |- context [if ?b then _ else _] => destruct b; simpl
           | |- context [match edge_tts ?e ?t with _ => _ end] =>
               destruct (edge_tts e t); simpl
           | |- context [match start_time ?w with _ => _ end] =>
               destruct (start_time w); simpl
           end; reflexivity.
Qed.

End Synthesizer.

(** C9. For every input string, [text_to_speech] requests the synthesis of a
    text of at most 150 characters: an input of 150 characters or fewer
    is requested unchanged, a longer one is replaced by its first 147
    characters followed by "...". *)
Theorem C9_text_to_speech_limits_text
    (env : Server.Env) (text : string) (dl : option Z) (w : Server.world) :
  let spoken := Server.limit_text text in
  PyStr.len spoken <= 150
  /\ (PyStr.len text <= 150 /\ spoken = text
      \/ 150 < PyStr.len text
         /\ spoken = PyStr.slice_to 147 text +:+ "..."
         /\ PyStr.len (PyStr.slice_to 147 text) = 147
         /\ exists rest, text = PyStr.slice_to 147 text +:+ rest)
  /\ Server.trace (snd (Server.text_to_speech env text dl w))
     = (Server.trace w
        ++ [Server.Entered Server.Synthesize; Server.TtsCalled spoken])%list.
Proof.
  intros spoken. subst spoken.
  split; [|split; [|apply text_to_speech_trace]].
  - destruct (Z.le_gt_cases (PyStr.len text) 150) as [Hs|Hl].
    + rewrite limit_text_short by exact Hs. exact Hs.
    + rewrite limit_text_long by lia.
      unfold PyStr.len in *. rewrite append_length.
      unfold PyStr.slice_to. rewrite substring_0_length.
      change (String.length "...") with 3%nat. lia.
  - destruct (Z.le_gt_cases (PyStr.len text) 150) as [Hs|Hl].
    + left. split; [exact Hs | apply limit_text_short; exact Hs].
    + right. split; [lia|]. split; [apply limit_text_long; lia|].
      split; [apply (slice_to_len 147); lia | apply substring_0_split].
Qed.

(** ** The local loop: playback gate and garbled questions *)

Section LocalLoopFacts.

Import LocalLoop.

Lemma audio_callback_gated (indata : frame) (s : state) :
  listening_active s = false -> audio_callback indata s = s.
Proof. intros H. unfold audio_callback. rewrite H. reflexivity. Qed.

Lemma callbacks_gated (fs : list frame) (s : state) :
  listening_active s = false -> callbacks fs s = s.
Proof.
  intros H. unfold callbacks.
  induction fs as [|f fs IH]; simpl; [reflexivity|].
  rewrite audio_callback_gated by exact H. exact IH.
Qed.

(** With the gate open the block does reach the recognizer's queue. *)
Lemma audio_callback_listening (indata : frame) (s : state) :
  listening_active s = true ->
  q_audio (audio_callback indata s) = (q_audio s ++ [indata])%list.
Proof. intros H. unfold audio_callback. rewrite H. reflexivity. Qed.

Lemma speak_text_runs (env : Env) (text : string) (arr : arrivals)
    (s : state) :
  gate_discipline env text arr s.
Proof.
  unfold gate_discipline, speak_text, speak_text_try,
    play_audio_from_memory.
  rewrite (callbacks_gated (while_synthesizing arr)) by reflexivity.
  destruct (tts_stream env text) as [e|audio_data];
    [|destruct (mp3_to_wav env audio_data) as [e|wav_data];
      [|destruct (playback_ms env wav_data) as [d|]]];
    rewrite (callbacks_gated (while_playing arr)) by reflexivity;
    rewrite (callbacks_gated (while_guarding arr)) by reflexivity; simpl;
    (split; [reflexivity|split; [reflexivity|]]).
  1,2,4: exists []; simpl; rewrite <- ?app_assoc; simpl;
    (split; [reflexivity|split; intros ? []]).
  eexists [PlaybackStart _; PlaybackEnd _]; simpl.
  rewrite <- !app_assoc; simpl.
  split; [reflexivity|split].
  - intros e [<-|[<-|[]]]; eexists; eauto.
  - intros t [H|[H|[]]]; [discriminate|]. injection H as <-. reflexivity.
Qed.

Lemma garbled_question (env : Env) (question : string) (top_k : nat)
    (indicator : string) :
  PyStr.strip question <> "" ->
  In indicator garbled_indicators ->
  PyStr.contains indicator (PyStr.lower question) = true ->
  query_chroma_db env question top_k = ([trouble_message], []).
Proof.
  intros Hblank Hin Hsub. unfold query_chroma_db.
  destruct (PyStr.truthy (PyStr.strip question)) eqn:Ht.
  - cbn [negb].
    assert (existsb (fun i => PyStr.contains i (PyStr.lower question))
              garbled_indicators = true) as ->; [|reflexivity].
    apply existsb_exists. exists indicator. split; assumption.
  - apply truthy_empty in Ht. contradiction.
Qed.

End LocalLoopFacts.

(** C2. While the gate is engaged ([listening_active] is false) no captured
    block is enqueued for recognition, whatever it holds; a whole run of
    [speak_text] leaves the queue as it found it, whatever blocks arrive
    meanwhile, and clears the gate only after the playback has ended and
    the 0.5 s guard has elapsed. *)
Theorem C2_playback_gate_feedback_immunity
    (env : LocalLoop.Env) (text : string) (arr : LocalLoop.arrivals)
    (s held : LocalLoop.state) (indata : LocalLoop.frame) :
  LocalLoop.listening_active held = false ->
  LocalLoop.audio_callback indata held = held
  /\ LocalLoop.gate_discipline env text arr s.
Proof.
  intros Hheld. split.
  - apply audio_callback_gated. exact Hheld.
  - apply speak_text_runs.
Qed.

(** C10. A question that is not blank and whose lower-cased text contains
    one of "murder", "oh i see", "that is", "of and that" gets the fixed
    clarification message, and neither the embedder nor the collection is
    called. *)
Theorem C10_garbled_question_bypasses_collection
    (env : LocalLoop.Env) (question : string) (top_k : nat)
    (indicator : string) :
  PyStr.strip question <> "" ->
  In indicator LocalLoop.garbled_indicators ->
  PyStr.contains indicator (PyStr.lower question) = true ->
  LocalLoop.query_chroma_db env question top_k
  = ([LocalLoop.trouble_message], []).
Proof. apply garbled_question. Qed.

(** ** The server: two runs of the handler *)

Section ServerAgreement.

Import Server.

Section Combinators.

Context {A B : Type}.
Implicit Types P Q R E F : world -> world -> Prop.

Lemma agree_ret P E (a : A) : agree P P E (mret a).
Proof.
  intros dl w1 w2 H. exists (inr a), w1, w2, [].
  rewrite !app_nil_r. auto.
Qed.

Lemma agree_bind P Q R E (m : M A) (k : A -> M B) :
  agree P Q E m -> (forall a, agree Q R E (k a)) ->
  agree P R E (m ≫= k).
Proof.
  intros Hm Hk dl w1 w2 HP.
  destruct (Hm dl w1 w2 HP) as (r & w1' & w2' & evs & E1 & E2 & HQ & T1 & T2).
  unfold mbind, M_bind. rewrite E1, E2.
  destruct r as [e|a].
  - exists (inl e), w1', w2', evs. auto.
  - destruct (Hk a dl w1' w2' HQ)
      as (r & w1'' & w2'' & evs' & E1' & E2' & HR & T1' & T2').
    exists r, w1'', w2'', (evs ++ evs')%list.
    rewrite E1', E2', T1', T2', T1, T2, !app_assoc. auto.
Qed.

Lemma agree_weaken P P' Q Q' E E' (m : M A) :
  agree P Q E m -> implies P' P -> implies Q Q' -> implies E E' ->
  agree P' Q' E' m.
Proof.
  intros Hm HP HQ HE dl w1 w2 H.
  destruct (Hm dl w1 w2 (HP _ _ H))
    as (r & w1' & w2' & evs & ? & ? & Hx & ?).
  exists r, w1', w2', evs. repeat split; try tauto.
  destruct r; simpl in *; auto.
Qed.

Lemma agree_try_except P Q E (m : M A) (h : exn -> M A) :
  agree P Q E m -> (forall e, agree E Q E (h e)) ->
  agree P Q E (try_except m h).
Proof.
  intros Hm Hh dl w1 w2 HP.
  destruct (Hm dl w1 w2 HP) as (r & w1' & w2' & evs & E1 & E2 & HQ & T1 & T2).
  unfold try_except. rewrite E1, E2.
  destruct r as [e|a].
  - destruct (Hh e dl w1' w2' HQ)
      as (r & w1'' & w2'' & evs' & E1' & E2' & HR & T1' & T2').
    destruct e.
    + exists (inl CancelledError), w1', w2', evs. auto.
    + exists r, w1'', w2'', (evs ++ evs')%list.
      rewrite E1', E2', T1', T2', T1, T2, !app_assoc. auto.
    + exists r, w1'', w2'', (evs ++ evs')%list.
      rewrite E1', E2', T1', T2', T1, T2, !app_assoc. auto.
  - exists (inr a), w1', w2', evs. auto.
Qed.

Lemma agree_try_finally P Q R (m : M A) (fin : M unit) :
  agree P Q Q m -> agree Q R R fin -> agree P R R (try_finally m fin).
Proof.
  intros Hm Hf dl w1 w2 HP.
  destruct (Hm dl w1 w2 HP) as (r & w1' & w2' & evs & E1 & E2 & HQ & T1 & T2).
  assert (Q w1' w2') as HQ' by (destruct r; exact HQ).
  destruct (Hf dl w1' w2' HQ')
    as (r' & w1'' & w2'' & evs' & E1' & E2' & HR & T1' & T2').
  assert (R w1'' w2'') as HR' by (destruct r'; exact HR).
  unfold try_finally. rewrite E1, E2, E1', E2'.
  destruct r' as [e|[]].
  - exists (inl e), w1'', w2'', (evs ++ evs')%list.
    rewrite T1', T2', T1, T2, !app_assoc. auto.
  - exists r, w1'', w2'', (evs ++ evs')%list.
    rewrite T1', T2', T1, T2, !app_assoc. repeat split; auto.
    destruct r; exact HR'.
Qed.

Lemma agree_wait_for P Q E (m : M A) (timeout : Z) :
  agree P Q E m -> implies P same_clock -> agree P Q E (wait_for m timeout).
Proof.
  intros Hm HP dl w1 w2 H. unfold wait_for.
  rewrite <- (HP _ _ H).
  destruct (Hm (Some (clock w1 + timeout)) w1 w2 H)
    as (r & w1' & w2' & evs & E1 & E2 & HQ & T1 & T2).
  rewrite E1, E2.
  destruct r as [[]|a]; eexists _, w1', w2', evs; auto.
Qed.

End Combinators.

Lemma implies_monitor_clock : implies same_monitor same_clock.
Proof. intros w1 w2 [H _]. exact H. Qed.

Lemma implies_refl P : implies P P.
Proof. intros w1 w2 H. exact H. Qed.

Ltac unfold_stage :=
  unfold transcribe_audio_openai, get_openai_response, text_to_speech,
    tts_request, tts_stream, await_until, block, time_time, monitor_start, monitor_record,
    get_metrics, error_result, set_is_processing, send_json, finish_message,
    failed_to_process, reply, process_audio_except,
    try_except, time_time, call, emit, modify, raise;
  unfold mbind, mret, M_bind, M_ret; cbn beta iota.

Ltac agree_by_cases :=
  let dl := fresh "dl" in
  let H := fresh "H" in
  intros dl [c1 st1 ms1 cv1 tr1] [c2 st2 ms2 cv2 tr2] H;
  unfold same_clock, same_monitor in *; simpl in H;
  destruct_and?; subst;
  unfold_stage; simpl;
  repeat (case_match; simpl in *; simplify_eq; try lia);
  rewrite <- ?app_assoc; simpl;
  eexists _, _, _, _;
  (split; [reflexivity|split; [reflexivity|split; [simpl; auto|]]]);
  simpl; split; try reflexivity; rewrite ?app_nil_r; reflexivity.

Lemma agree_transcribe env audio :
  agree same_clock same_monitor same_monitor
    (transcribe_audio_openai env audio).
Proof. agree_by_cases. Qed.

Lemma agree_answer env text :
  agree same_monitor same_monitor same_monitor
    (get_openai_response env text).
Proof. agree_by_cases. Qed.

Lemma agree_synthesize env text :
  agree same_monitor same_monitor same_monitor (text_to_speech env text).
Proof. agree_by_cases. Qed.

Lemma agree_error_result t0 msg :
  agree same_monitor same_monitor same_monitor (error_result t0 msg).
Proof. agree_by_cases. Qed.

Lemma agree_process_audio_except t0 e :
  agree same_monitor same_monitor same_monitor (process_audio_except t0 e).
Proof. destruct e; agree_by_cases. Qed.

Lemma agree_time_time P E : implies P same_clock -> agree P P E time_time.
Proof.
  intros HP dl w1 w2 H. exists (inr (clock w1)), w1, w2, [].
  unfold time_time. rewrite (HP _ _ H), !app_nil_r. auto.
Qed.

Lemma agree_success tr resp ab t0 :
  agree same_monitor same_monitor same_monitor
    (t ← time_time; metrics ← get_metrics;
     mret (Success tr resp ab (t - t0) metrics)).
Proof. agree_by_cases. Qed.

Lemma agree_process_audio env audio :
  agree same_clock same_monitor same_monitor (process_audio env audio).
Proof.
  unfold process_audio.
  eapply agree_bind; [apply agree_time_time, implies_refl|].
  intros t0. apply agree_try_except; [|apply agree_process_audio_except].
  eapply agree_bind.
  { apply agree_wait_for; [apply agree_transcribe|apply implies_refl]. }
  intros tr. destruct (rejected tr); [apply agree_error_result|].
  eapply agree_bind.
  { apply agree_wait_for; [apply agree_answer|apply implies_monitor_clock]. }
  intros resp. eapply agree_bind.
  { apply agree_wait_for;
      [apply agree_synthesize|apply implies_monitor_clock]. }
  intros ab. apply agree_success.
Qed.

Lemma agree_reply conn r :
  agree same_clock same_clock same_clock (reply conn r).
Proof. destruct r; agree_by_cases. Qed.

Lemma agree_failed conn e :
  agree same_clock same_clock same_clock (failed_to_process conn e).
Proof. agree_by_cases. Qed.

Lemma agree_finish conn :
  agree same_clock same_clock same_clock (finish_message conn).
Proof. agree_by_cases. Qed.

Lemma agree_call {A} (r : string + A) :
  agree same_clock same_clock same_clock (call r).
Proof. destruct r; agree_by_cases. Qed.

Lemma agree_set_is_processing b :
  agree same_clock same_clock same_clock (set_is_processing b).
Proof. agree_by_cases. Qed.

Lemma agree_send_json conn m :
  agree same_clock same_clock same_clock (send_json conn m).
Proof. agree_by_cases. Qed.

Lemma agree_on_message env conn data :
  agree same_clock same_clock same_clock (on_message env conn data).
Proof.
  unfold on_message.
  destruct (String.eqb (msg_type data) "audio_data"); [|apply agree_ret].
  eapply agree_bind; [apply agree_set_is_processing|]. intros _.
  eapply agree_bind; [apply agree_send_json|]. intros _.
  eapply agree_try_finally; [|apply agree_finish].
  apply agree_try_except; [|apply agree_failed].
  eapply agree_bind; [apply agree_call|]. intros audio.
  eapply agree_bind.
  { eapply agree_weaken; [apply agree_process_audio|apply implies_refl| |];
      apply implies_monitor_clock. }
  apply agree_reply.
Qed.

End ServerAgreement.

(** ** The server: the pipeline *)

Section ServerFacts.

Import Server.

Lemma rejected_iff (t : string) :
  rejected t = true <-> t = "" \/ PyStr.startswith t "[ERROR" = true.
Proof.
  unfold rejected. rewrite orb_true_iff, negb_true_iff, truthy_empty.
  reflexivity.
Qed.

Lemma wait_for_not_cancelled {A} (m : M A) t dl w w' :
  wait_for m t dl w <> (inl CancelledError, w').
Proof.
  unfold wait_for.
  destruct (m (Some (clock w + t)) w) as [[[]|] ?]; congruence.
Qed.

(** The first stage emits its entry and at most the call to Whisper. *)
Lemma transcribe_events (env : Env) (audio : list byte) (t : Z)
    (dl : option Z) (w : world) :
  let w' := snd (wait_for (transcribe_audio_openai env audio) t dl w) in
  trace w' = (trace w ++ [Entered Transcribe])%list
  \/ trace w' = (trace w ++ [Entered Transcribe; WhisperCalled audio])%list.
Proof.
  unfold wait_for, transcribe_audio_openai, try_except, await_until, block, time_time,
    monitor_start, monitor_record, call, emit, modify, raise.
  unfold mbind, mret, M_bind, M_ret. simpl.
  repeat (case_match; simpl in *; simplify_eq);
    unfold set_monitor, set_trace, set_clock; cbn [trace];
    first [left; reflexivity
          |right; rewrite <- app_assoc; reflexivity].
Qed.


(** A transcription the test of [process_audio] rejects ends the pipeline
    there: the result is an error dictionary and the world is the one the
    first stage left. *)
Lemma process_audio_stops (env : Env) (audio : list byte) (w : world)
    (t : string) (w1 : world) :
  run (wait_for (transcribe_audio_openai env audio) 15000) w = (inr t, w1) ->
  rejected t = true ->
  run (process_audio env audio) w
  = (inr (ErrorResult could_not_understand (clock w1 - clock w)), w1).
Proof.
  unfold run. intros H1 Hr.
  unfold process_audio, try_except, time_time, error_result,
    process_audio_except.
  unfold mbind, mret, M_bind, M_ret. cbn beta iota.
  rewrite H1, Hr. reflexivity.
Qed.

(** The fixed prompt of the answer stage, for a blank or "[ERROR" input:
    the chat model is not called. *)
Lemma get_openai_response_fallback (env : Env) (user_input : string)
    (dl : option Z) (w : world) :
  user_input = "" \/ PyStr.startswith user_input "[ERROR" = true ->
  get_openai_response env user_input dl w
  = (inr repeat_prompt, set_trace (trace w ++ [Entered Answer]) w).
Proof.
  intros H. unfold get_openai_response, try_except, emit, modify.
  unfold mbind, mret, M_bind, M_ret. cbn beta iota.
  destruct H as [->|H]; [reflexivity|]. rewrite H, orb_true_r. reflexivity.
Qed.

(** Audio shorter than 300 ms: the handler enters the first stage, which
    returns the empty string before any call to Whisper, and the client
    gets the generic error. *)
Lemma short_audio_handled (env : Env) (conn : nat) (audio : list byte)
    (len : Z) (w : world) :
  load_audio env audio = inr len -> len < 300 ->
  (exists processing_time w',
     run (process_audio env audio) w
     = (inr (ErrorResult could_not_understand processing_time), w')
     /\ trace w' = (trace w ++ [Entered Transcribe])%list)
  /\ exists processing_time,
       trace (snd (run (on_message env conn
                          {| msg_type := "audio_data";
                             msg_audio := inr audio |}) w))
       = (trace w
          ++ [Sent conn (StateUpdate true); Entered Transcribe;
              Sent conn
                (ErrorMsg could_not_understand (Some processing_time));
              Sent conn (StateUpdate false)])%list.
Proof.
  intros Hlen Hshort.
  assert ((len <? 300) = true) as Hb by (apply Z.ltb_lt; exact Hshort).
  unfold run, on_message, process_audio, transcribe_audio_openai,
    finish_message, failed_to_process, reply, send_json, set_is_processing,
    wait_for, try_except, try_finally, error_result, monitor_start,
    block, time_time, call, emit, modify, raise.
  unfold mbind, mret, M_bind, M_ret. simpl.
  rewrite Hlen. simpl. rewrite Hb. simpl.
  split.
  - eexists _, _. split; reflexivity.
  - eexists. rewrite <- !app_assoc. reflexivity.
Qed.


Lemma text_to_speech_split (env : Env) (response : string)
    (dl : option Z) (w : world) :
  wait_for (text_to_speech env response) 10000 dl w
  = (text ← tts_request response;
     resume_wait_for
       (try_except (tts_stream env text (clock w)) (fun _ => mret ""))
       (clock w + 10000)) dl w.
Proof.
  unfold wait_for, resume_wait_for, text_to_speech, tts_request,
    try_except, time_time, emit, modify.
  unfold mbind, mret, M_bind, M_ret. cbn beta iota. cbn [clock set_trace].
  destruct (tts_stream env (limit_text response) (clock w)
              (Some (clock w + 10000)) _)
    as [[[]|] ?]; reflexivity.
Qed.

Ltac glue :=
  unfold on_message, on_message_begin, on_message_resume, process_audio,
    finish_message, failed_to_process, reply, send_json, set_is_processing,
    try_except, try_finally, error_result, process_audio_except,
    get_metrics, time_time, call, emit, modify, raise, run;
  unfold mbind, mret, M_bind, M_ret; cbn beta iota.

(** A handler that is never overtaken does what [on_message] does: the
    part before the suspension followed by the part after it. *)
Lemma on_message_split (env : Env) (conn : nat) (data : client_message)
    (w : world) :
  run (on_message env conn data) w
  = run (t ← on_message_begin env conn data;
         on_message_resume env conn t;; mret tt) w.
Proof.
  unfold run, on_message, on_message_begin, process_audio.
  destruct (String.eqb (msg_type data) "audio_data"); [|reflexivity].
  glue.
  destruct (msg_audio data) as [e|audio]; [reflexivity|]. cbn beta iota.
  match goal with
  | |- context [wait_for (transcribe_audio_openai env audio) 15000 None ?w0] =>
      destruct (wait_for (transcribe_audio_openai env audio) 15000 None w0)
        as [[[]|tr] w1] eqn:E1
  end;
    [exfalso; exact (wait_for_not_cancelled _ _ _ _ _ E1)
    |reflexivity|reflexivity|].
  destruct (rejected tr); [reflexivity|].
  destruct (wait_for (get_openai_response env tr) 15000 None w1)
    as [[[]|resp] w2] eqn:E2;
    [exfalso; exact (wait_for_not_cancelled _ _ _ _ _ E2)
    |reflexivity|reflexivity|].
  rewrite text_to_speech_split.
  unfold tts_request, resume_wait_for. glue. simpl.
  match goal with
  | |- context [tts_stream env ?t ?t0 ?d ?w0] =>
      destruct (tts_stream env t t0 d w0) as [[[]|ab] w3]
  end; reflexivity.
Qed.

End ServerFacts.



(** C5 (as the code has it).  For a transcription equal to the empty string
    or starting with "[ERROR", [process_audio] returns (it does not hang)
    the error dictionary with the fixed message "Could not understand
    audio.  Please speak clearly and try again." and stops there: nothing
    happens after the first stage, so neither the answer stage nor the
    synthesizer is called.  The fixed prompts that ask the user to repeat
    are what [get_openai_response] returns for such a text, and what
    [query_chroma_db] returns for a blank question, when they are called
    with it. *)
Theorem C5_rejected_transcript_ends_in_error_result
    (env : Server.Env) (lenv : LocalLoop.Env) (audio : list byte)
    (w : Server.world) (t : string) (w1 : Server.world)
    (question : string) (top_k : nat) :
  Server.run
    (Server.wait_for (Server.transcribe_audio_openai env audio) 15000) w
  = (inr t, w1) ->
  (t = "" \/ PyStr.startswith t "[ERROR" = true) ->
  PyStr.strip question = "" ->
  Server.run (Server.process_audio env audio) w
  = (inr (Server.ErrorResult Server.could_not_understand
            (Server.clock w1 - Server.clock w)), w1)
  /\ (forall e, In e (Server.trace w1) ->
        In e (Server.trace w) \/ e = Server.Entered Server.Transcribe
        \/ e = Server.WhisperCalled audio)
  /\ (forall dl w',
        Server.get_openai_response env t dl w'
        = (inr Server.repeat_prompt,
           Server.set_trace
             (Server.trace w' ++ [Server.Entered Server.Answer]) w'))
  /\ LocalLoop.query_chroma_db lenv question top_k
     = ([LocalLoop.sorry_message], []).
Proof.
  intros H1 Ht Hq. repeat split.
  - apply (process_audio_stops env audio w t w1 H1).
    apply rejected_iff. exact Ht.
  - intros e He.
    pose proof (transcribe_events env audio 15000 None w) as Hev.
    unfold Server.run in H1. rewrite H1 in Hev. simpl in Hev.
    destruct Hev as [Hev|Hev]; rewrite Hev in He;
      apply in_app_or in He; destruct He as [He|He]; auto;
      simpl in He; intuition auto.
  - intros dl w'. apply get_openai_response_fallback. exact Ht.
  - unfold LocalLoop.query_chroma_db. rewrite Hq. reflexivity.
Qed.

(** C5, as stated, fails.  An utterance of 200 ms is transcribed to the
    empty string; [process_audio] then returns the error dictionary
    without entering the answer stage, and the handler sends a message of
    type "error": no fallback prompt is produced. *)
Lemma C5_counterexample_no_fallback_prompt :
  let w := Server.initial_world 1000 in
  fst (Server.run
         (Server.wait_for
            (Server.transcribe_audio_openai Demo.env Demo.short_audio)
            15000) w)
  = inr ""
  /\ Server.trace
       (snd (Server.run (Server.process_audio Demo.env Demo.short_audio) w))
     = [Server.Entered Server.Transcribe]
  /\ exists processing_time,
       fst (Server.run (Server.process_audio Demo.env Demo.short_audio) w)
       = inr (Server.ErrorResult Server.could_not_understand
                processing_time)
       /\ Server.received 1
            (Server.trace
               (snd (Server.run
                       (Server.on_message Demo.env 1
                          (Demo.audio_message Demo.short_audio)) w)))
          = [Server.StateUpdate true;
             Server.ErrorMsg Server.could_not_understand
               (Some processing_time);
             Server.StateUpdate false].
Proof.
  split; [reflexivity|]. split; [reflexivity|].
  eexists. split; vm_compute; reflexivity.
Qed.

(** C6 (as the code has it).  An utterance whose decoded audio is shorter
    than 300 ms is handed to [process_audio] like any other; the first
    stage returns the empty string before any call to Whisper, no later
    stage runs, and the client gets the generic error "Could not
    understand audio. ..." with the time the attempt took. *)
Theorem C6_short_audio_is_not_transcribed
    (env : Server.Env) (conn : nat) (audio : list byte) (len : Z)
    (w : Server.world) :
  Server.load_audio env audio = inr len -> len < 300 ->
  (exists processing_time w',
     Server.run (Server.process_audio env audio) w
     = (inr (Server.ErrorResult Server.could_not_understand
               processing_time), w')
     /\ Server.trace w'
        = (Server.trace w ++ [Server.Entered Server.Transcribe])%list)
  /\ exists processing_time,
       Server.trace
         (snd (Server.run
                 (Server.on_message env conn
                    {| Server.msg_type := "audio_data";
                       Server.msg_audio := inr audio |}) w))
       = (Server.trace w
          ++ [Server.Sent conn (Server.StateUpdate true);
              Server.Entered Server.Transcribe;
              Server.Sent conn
                (Server.ErrorMsg Server.could_not_understand
                   (Some processing_time));
              Server.Sent conn (Server.StateUpdate false)])%list.
Proof. apply short_audio_handled. Qed.

(** C6, as stated, fails.  An utterance of 200 ms does reach the pipeline
    (its first stage is entered), and what the client is told is what it
    is told when the pipeline fails for a missing API key, the time
    apart: there is no outcome of its own for a short utterance. *)
Lemma C6_counterexample_short_audio_reaches_pipeline :
  let w := Server.initial_world 1000 in
  let told env a :=
    Server.trace
      (snd (Server.run
              (Server.on_message env 1 (Demo.audio_message a)) w)) in
  In (Server.Entered Server.Transcribe) (told Demo.env Demo.short_audio)
  /\ exists time_short time_no_key,
       Server.received 1 (told Demo.env Demo.short_audio)
       = [Server.StateUpdate true;
          Server.ErrorMsg Server.could_not_understand (Some time_short);
          Server.StateUpdate false]
       /\ Server.received 1 (told Demo.env_without_key Demo.utterance)
          = [Server.StateUpdate true;
             Server.ErrorMsg Server.could_not_understand
               (Some time_no_key);
             Server.StateUpdate false].
Proof.
  split; [vm_compute; auto|].
  eexists _, _. split; vm_compute; reflexivity.
Qed.

(** C8 (as the code has it). The turn flag, the current websocket and the metrics are
    kept in process-wide objects that all connections share.  What the
    handler does and sends for a message depends on what earlier handling
    (of any connection) left in them only through the clock: started in
    two worlds that show the same time, it makes the same calls, sends the
    same messages and ends the same way.  So connections whose messages
    are handled one after the other do not interfere; overlapping ones
    do. *)
Theorem C8_handler_ignores_earlier_sessions
    (env : Server.Env) (conn : nat) (data : Server.client_message)
    (w1 w2 : Server.world) :
  Server.clock w1 = Server.clock w2 ->
  exists r w1' w2' evs,
    Server.run (Server.on_message env conn data) w1 = (r, w1')
    /\ Server.run (Server.on_message env conn data) w2 = (r, w2')
    /\ Server.trace w1' = (Server.trace w1 ++ evs)%list
    /\ Server.trace w2' = (Server.trace w2 ++ evs)%list.
Proof.
  intros Hc.
  destruct (agree_on_message env conn data None w1 w2 Hc)
    as (r & w1' & w2' & evs & E1 & E2 & _ & T1 & T2).
  exists r, w1', w2', evs. auto.
Qed.

(** C8, as stated, fails.  Connection 1 sends the same utterance in two
    runs; connection 2 sends 400 ms of audio in one run and 800 ms in the
    other, handled while connection 1 waits for its synthesized speech.
    The response to connection 1 reports as its transcription time 200 ms
    in one run and 400 ms in the other, the time Whisper took for
    connection 2, not the 600 ms it took for connection 1. *)
Lemma C8_counterexample_overlap_leaks_metrics :
  let seen acts :=
    Server.received 1
      (Server.trace
         (Server.shared
            (Server.sys_run Demo.env acts (Server.initial_system 1000)))) in
  map (Server.metric "transcription_time")
    (seen (Demo.overlap (repeat x00 4))) = [None; Some 200; None]
  /\ map (Server.metric "transcription_time")
       (seen (Demo.overlap (repeat x00 8))) = [None; Some 400; None]
  /\ map (Server.metric "transcription_time") (seen Demo.alone)
     = [None; Some 600; None]
  /\ seen (Demo.overlap (repeat x00 4))
     <> seen (Demo.overlap (repeat x00 8)).
Proof.
  repeat split.
  intros H.
  apply (f_equal (map (Server.metric "transcription_time"))) in H.
  vm_compute in H. discriminate.
Qed.

(** ** The browser client: voice detection and turn taking *)

Section ClientFacts.

Import Client.

Ltac fields :=
  cbn [ws_open mediaRecorder audioChunks isRecording isProcessing autoMode
       microphone silenceTimeout ui now monitoring requests stopping
       reading outbox vad_log played
       set_ws_open set_mediaRecorder set_audioChunks set_isRecording
       set_isProcessing set_autoMode set_microphone set_silenceTimeout
       set_ui set_now set_monitoring set_requests set_stopping set_reading
       set_outbox set_vad_log set_played
       negb andb orb fst snd] in *.

Lemma run_app (l1 l2 : list (Z * event)) (s : VoiceAssistant) :
  run (l1 ++ l2) s = run l2 (run l1 s).
Proof. unfold run. apply fold_left_app. Qed.

Lemma Qgtb_not_Qltb (a b : Q) : Qgtb a b = true -> Qltb a b = false.
Proof.
  unfold Qgtb, Qltb. rewrite negb_true_iff, negb_false_iff.
  intros H. apply Qle_bool_iff. apply Qlt_le_weak. apply Qnot_le_lt.
  intros Hle. apply Qle_bool_iff in Hle. congruence.
Qed.

Lemma checkAudio_keeps_recording (dataArray : list Z)
    (s : VoiceAssistant) :
  isRecording s = true ->
  isRecording (checkAudio dataArray s) = true
  /\ vad_log (checkAudio dataArray s) = vad_log s
  /\ outbox (checkAudio dataArray s) = outbox s
  /\ mediaRecorder (checkAudio dataArray s) = mediaRecorder s.
Proof.
  intros H. unfold checkAudio. rewrite H.
  rewrite andb_false_r. simpl.
  repeat (case_match; simpl); auto.
Qed.

Lemma advance_before_due (t t0 : Z) (s0 s : VoiceAssistant) :
  dipping t0 s0 s -> t < t0 + silenceDelay ->
  dipping t0 s0 (advance t s).
Proof.
  intros (Ha & Hmic & Hm & Hr & Ht & Hv & Ho & Hmr & Hc) Hlt.
  unfold advance. rewrite Ht.
  destruct (Z.leb_spec (t0 + silenceDelay) t); [lia|].
  repeat split; assumption.
Qed.

Lemma dip_frame (t t0 : Z) (dataArray : list Z)
    (s0 s : VoiceAssistant) :
  dipping t0 s0 s -> t < t0 + silenceDelay ->
  Qgtb (average dataArray) (volumeThreshold / 2) = false ->
  dipping t0 s0 (step (t, AnimationFrame dataArray) s).
Proof.
  intros Hd Hlt Hq. apply (advance_before_due t) in Hd; [|exact Hlt].
  unfold step, handle. cbn [fst snd].
  destruct Hd as (Ha & Hmic & Hm & Hr & Ht & Hv & Ho & Hmr & Hc).
  rewrite (proj2 (Nat.ltb_lt _ _) Hm). unfold checkAudio.
  rewrite Ha, Hmic, Hr, Hq, Ht. simpl.
  rewrite andb_false_r. simpl.
  destruct (Qltb _ _); simpl; repeat split; assumption.
Qed.

Lemma dip_frames (t0 : Z) (dips : list (Z * list Z))
    (s0 s : VoiceAssistant) :
  dipping t0 s0 s ->
  Forall (fun i => fst i < t0 + silenceDelay
                   /\ Qgtb (average (snd i)) (volumeThreshold / 2) = false)
    dips ->
  dipping t0 s0 (run (frames dips) s).
Proof.
  intros Hd Hall. revert s Hd.
  induction Hall as [|[t d] dips [Hlt Hq] _ IH]; intros s Hd; simpl.
  - exact Hd.
  - apply IH. apply dip_frame; assumption.
Qed.

Lemma first_dip (t0 : Z) (dataArray : list Z) (s : VoiceAssistant) :
  autoMode s = true -> microphone s = true -> (0 < monitoring s)%nat ->
  isRecording s = true ->
  silenceTimeout s = None -> now s <= t0 ->
  Qltb (average dataArray) (volumeThreshold / 2) = true ->
  dipping t0 s (step (t0, AnimationFrame dataArray) s).
Proof.
  intros Ha Hmic Hm Hr Ht Hnow Hq.
  unfold step, handle, advance. cbn [fst snd]. rewrite Ht. fields.
  rewrite (proj2 (Nat.ltb_lt _ _) Hm).
  unfold checkAudio. fields.
  rewrite Ha, Hmic, Hr, Hq, Ht. rewrite andb_false_r. fields.
  rewrite Z.max_r by exact Hnow.
  repeat split; assumption.
Qed.

Lemma rise_frame (t t0 : Z) (dataArray : list Z)
    (s0 s : VoiceAssistant) :
  dipping t0 s0 s -> t < t0 + silenceDelay ->
  Qgtb (average dataArray) (volumeThreshold / 2) = true ->
  still_open s0 (step (t, AnimationFrame dataArray) s).
Proof.
  intros Hd Hlt Hq. apply (advance_before_due t) in Hd; [|exact Hlt].
  unfold step, handle. cbn [fst snd].
  destruct Hd as (Ha & Hmic & Hm & Hr & Ht & Hv & Ho & Hmr & Hc).
  rewrite (proj2 (Nat.ltb_lt _ _) Hm). unfold checkAudio.
  rewrite Ha, Hmic, Hr, Hq, Ht, (Qgtb_not_Qltb _ _ Hq). simpl.
  rewrite andb_false_r. simpl.
  repeat split; assumption.
Qed.

(** A dip that ends before the silence delay has run leaves the
    recording open. *)
Lemma short_dip (s : VoiceAssistant) (t0 : Z) (first : list Z)
    (dips : list (Z * list Z)) (t_rise : Z) (rise : list Z) :
  autoMode s = true -> microphone s = true -> (0 < monitoring s)%nat ->
  isRecording s = true ->
  silenceTimeout s = None -> now s <= t0 ->
  Qltb (average first) (volumeThreshold / 2) = true ->
  Forall (fun i => fst i < t0 + silenceDelay
                   /\ Qgtb (average (snd i)) (volumeThreshold / 2) = false)
    dips ->
  t_rise < t0 + silenceDelay ->
  Qgtb (average rise) (volumeThreshold / 2) = true ->
  still_open s (run (frames ((t0, first) :: dips ++ [(t_rise, rise)])) s).
Proof.
  intros Ha Hmic Hm Hr Ht Hnow Hfirst Hdips Hlt Hrise.
  unfold frames. rewrite map_cons, map_app. cbn [map fst snd].
  change (run (?i :: ?l) s) with (run l (step i s)).
  rewrite run_app. cbn [run fold_left].
  apply (rise_frame t_rise t0); [|exact Hlt|exact Hrise].
  apply dip_frames; [|exact Hdips].
  apply first_dip; assumption.
Qed.

(** Loud frames, however many and however long, keep the recording
    going: nothing in [checkAudio] looks at its length. *)
Lemma loud_frame_keeps_open (t : Z) (d : list Z)
    (s0 s : VoiceAssistant) :
  autoMode s = true /\ microphone s = true /\ (0 < monitoring s)%nat
  /\ still_open s0 s ->
  Qgtb (average d) (volumeThreshold / 2) = true ->
  let s' := step (t, AnimationFrame d) s in
  autoMode s' = true /\ microphone s' = true /\ (0 < monitoring s')%nat
  /\ still_open s0 s'.
Proof.
  intros (Ha & Hmic & Hm & Hr & Ht & Hv & Ho & Hmr & Hc) Hq.
  unfold step, handle, advance. cbn [fst snd]. rewrite Ht. fields.
  rewrite (proj2 (Nat.ltb_lt _ _) Hm). unfold checkAudio. fields.
  rewrite Ha, Hmic, Hr, Hq, Ht, (Qgtb_not_Qltb _ _ Hq). fields.
  rewrite andb_false_r. fields.
  repeat split; assumption.
Qed.

Lemma loud_frames_keep_recording (loud : list (Z * list Z))
    (s0 s : VoiceAssistant) :
  autoMode s = true /\ microphone s = true /\ (0 < monitoring s)%nat
  /\ still_open s0 s ->
  Forall (fun i => Qgtb (average (snd i)) (volumeThreshold / 2) = true)
    loud ->
  still_open s0 (run (frames loud) s).
Proof.
  intros Hs Hall. revert s Hs.
  induction Hall as [|[t d] loud Hq _ IH]; intros s Hs; simpl.
  - apply Hs.
  - apply IH. apply loud_frame_keeps_open; assumption.
Qed.

Lemma in_delete {A : Type} (x : A) (k : nat) (l : list A) :
  In x (delete k l) -> In x l.
Proof.
  revert k. induction l as [|y l IH]; intros [|k]; simpl; auto.
  intros [->|H]; [left; reflexivity|right; apply (IH k), H].
Qed.

Ltac open_held H :=
  destruct H as (Hp & (Hr & Hq & Hst & Hrd) & Hv & Ho & Hm & Hc).

Ltac close_held :=
  unfold held, settled; fields; repeat split; assumption.

Lemma held_advance (t : Z) (s0 s : VoiceAssistant) :
  held s0 s -> held s0 (advance t s).
Proof.
  intros Hh. open_held Hh.
  unfold advance, silence_elapsed.
  destruct (silenceTimeout s) as [due|]; [destruct (due <=? t)|];
    fields; try rewrite Hr; close_held.
Qed.

Lemma held_checkAudio (d : list Z) (s0 s : VoiceAssistant) :
  held s0 s -> held s0 (checkAudio d s).
Proof.
  intros Hh. open_held Hh.
  unfold checkAudio. rewrite Hp, Hr. rewrite andb_false_r. fields.
  destruct (autoMode s), (microphone s); fields; close_held.
Qed.

Lemma held_toggleAutoMode (s0 s : VoiceAssistant) :
  held s0 s -> held s0 (toggleAutoMode s).
Proof.
  intros Hh. open_held Hh.
  unfold toggleAutoMode, startAutoListening, stopAutoListening.
  fields. destruct (autoMode s); fields.
  - rewrite Hr. close_held.
  - unfold held, settled. fields. repeat split; try assumption.
    intros Hin. apply in_app_or in Hin. destruct Hin as [Hin|[Hin|[]]];
      [exact (Hq Hin)|discriminate].
Qed.

Lemma held_userMedia (k : nat) (g : bool) (d : list Z)
    (s0 s : VoiceAssistant) :
  held s0 s -> held s0 (userMedia k g d s).
Proof.
  intros Hh. unfold userMedia.
  destruct (requests s !! k) as [rq|] eqn:Hk; [|exact Hh].
  assert (held s0 (set_requests (delete k (requests s)) s)) as Hh'.
  { open_held Hh. unfold held, settled. fields.
    repeat split; try assumption.
    intros Hin. apply Hq. exact (in_delete _ _ _ Hin). }
  destruct rq.
  - unfold startAutoListening_resume, monitorAudio.
    destruct g; fields.
    + destruct (autoMode s); fields.
      * apply held_checkAudio. open_held Hh'. fields. close_held.
      * open_held Hh'. fields. close_held.
    + open_held Hh'. fields. close_held.
  - exfalso. open_held Hh. apply Hq.
    apply list_elem_of_In. eapply list_elem_of_lookup_2. exact Hk.
Qed.

Lemma processing_step (i : Z * event) (s0 s : VoiceAssistant) :
  held s0 s -> keeps_processing (snd i) -> held s0 (step i s).
Proof.
  intros Hh Hk. destruct i as [t ev]. unfold step. fields.
  apply (held_advance t) in Hh. revert Hh. generalize (advance t s).
  clear s. intros s Hh.
  destruct ev as [d| | |k g d|k size|k limit| | |m]; unfold handle.
  - destruct (0 <? monitoring s)%nat; [apply held_checkAudio|]; exact Hh.
  - unfold micButton_click. destruct (autoMode s) eqn:Ha.
    + apply held_toggleAutoMode. exact Hh.
    + open_held Hh. rewrite Hr, Hp. fields. close_held.
  - apply held_toggleAutoMode. exact Hh.
  - apply held_userMedia. exact Hh.
  - open_held Hh. rewrite Hst. simpl. close_held.
  - open_held Hh. rewrite Hrd. simpl. close_held.
  - open_held Hh. close_held.
  - open_held Hh. close_held.
  - open_held Hh.
    unfold handleWebSocketMessage, after_reply.
    destruct m as [[]| |]; simpl in Hk; try contradiction;
      repeat (case_match; fields); close_held.
Qed.

Lemma processing_run (inputs : list (Z * event)) (s0 s : VoiceAssistant) :
  held s0 s -> Forall (fun i => keeps_processing (snd i)) inputs ->
  held s0 (run inputs s).
Proof.
  intros Hh Hall. revert s Hh.
  induction Hall as [|i inputs Hk _ IH]; intros s Hh; simpl.
  - exact Hh.
  - apply IH. apply processing_step; assumption.
Qed.

(** The flag is set when the server's state update arrives, not when the
    audio is sent.  A loud frame in between starts the next recording;
    the state update then sets the flag while that recording is open,
    and its audio is sent while the flag is still set: the outbox holds
    two messages and the server has not answered the first. *)
Example second_utterance_sent_while_processing :
  let sent := run Demo.utterance_sent Demo.listening in
  let overtaken :=
    run [Demo.frame_at 3516 30;
         (3600, WsMessage (Server.StateUpdate true))] sent in
  let s :=
    run [Demo.frame_at 4000 5; Demo.frame_at 6000 5;
         (6000, RecorderStopped 0 39700); (6000, BlobRead 0 65536)]
      overtaken in
  ui sent = UiProcessing /\ isProcessing sent = false
  /\ length (outbox sent) = 1%nat
  /\ isProcessing overtaken = true /\ isRecording overtaken = true
  /\ isProcessing s = true /\ length (outbox s) = 2%nat.
Proof. vm_compute. repeat split. Qed.

(** Outside auto mode [startRecording] awaits the microphone and does not
    look at [isProcessing] afterwards: a click made before the flag was
    set opens its recording after it was set. *)
Example manual_recording_starts_while_processing :
  let sent :=
    run [(0, WsOpened); (10, MicClick); (20, UserMedia 0 true []);
         (1000, MicClick); (1000, RecorderStopped 0 15700);
         (1000, BlobRead 0 65536)] initial in
  let clicked :=
    run [(1100, MicClick); (1200, WsMessage (Server.StateUpdate true))]
      sent in
  let s := step (1300, UserMedia 0 true []) clicked in
  length (outbox sent) = 1%nat
  /\ isProcessing clicked = true /\ isRecording clicked = false
  /\ requests clicked = [ForRecording]
  /\ isProcessing s = true /\ isRecording s = true
  /\ mediaRecorder s = Some {| rec_started := 1300 |}.
Proof. vm_compute. repeat split. Qed.

(** A recording is opened by the first frame above the threshold, without
    a timer, as the detector is meant to do. *)
Example single_frame_starts_recording :
  let s := Demo.listening in
  let s' := step (Demo.frame_at 100 30) s in
  silenceTimeout s = None /\ isRecording s = false /\ vad_log s = []
  /\ vad_log s' = [SpeechStart 100] /\ isRecording s' = true
  /\ silenceTimeout s' = None.
Proof. vm_compute. repeat split. Qed.

End ClientFacts.

(** C1 (as the code has it).  From a state in which the [isProcessing]
    flag is set and nothing of a recording is under way (none open, no
    [startRecording] waiting for the microphone, no stopped recorder or
    blob still being delivered), no event starts a recording until the
    state update that clears the flag: neither a frame of any loudness,
    nor a click on the microphone or the auto-mode button, nor a
    microphone request being granted, nor a timer, nor any other
    message; no speech start is decided and no audio is sent to the
    server.  (The page has no flag for the playback of the reply, and a
    recording under way when the flag is set is not held back.) *)
Theorem C1_processing_flag_blocks_recording
    (inputs : list (Z * Client.event)) (s : Client.VoiceAssistant) :
  Client.isProcessing s = true -> Client.settled s ->
  Forall (fun i => Client.keeps_processing (snd i)) inputs ->
  Client.held s (Client.run inputs s).
Proof.
  intros Hp Hs Hall. apply processing_run; [|exact Hall].
  repeat split; try assumption; apply Hs.
Qed.

(** C1, as stated, fails for the Speaking state.  The reply arrives at
    5000 ms and its clip starts playing; the state update that follows
    clears [isProcessing]; a loud frame at 5016 ms, while the clip is
    still playing, starts a new recording. *)
Lemma C1_counterexample_recording_starts_while_speaking :
  let s := Demo.answered in
  let s' := Client.step (Demo.frame_at 5016 30) s in
  Client.speaking Demo.clip_ms s = true
  /\ Client.isRecording s = false
  /\ Client.speaking Demo.clip_ms s' = true
  /\ Client.isRecording s' = true
  /\ Client.mediaRecorder s' = Some {| Client.rec_started := 5016 |}
  /\ Client.vad_log s'
     = (Client.vad_log s ++ [Client.SpeechStart 5016])%list.
Proof. vm_compute. repeat split. Qed.

(** C3.  While an utterance is being recorded, if the loudness drops
    below T_low = volumeThreshold / 2, stays at or below it, and rises
    above it again before the silence delay has run, no speech stop is
    decided and the recording stays open.  A frame never decides a
    speech stop by itself: only the silence timer does. *)
Theorem C3_short_dip_keeps_utterance_open
    (s : Client.VoiceAssistant) (t0 : Z) (first : list Z)
    (dips : list (Z * list Z)) (t_rise : Z) (rise : list Z)
    (recording : Client.VoiceAssistant) (dataArray : list Z) :
  Client.autoMode s = true -> Client.microphone s = true ->
  (0 < Client.monitoring s)%nat ->
  Client.isRecording s = true -> Client.silenceTimeout s = None ->
  Client.now s <= t0 ->
  Client.Qltb (Client.average first) (Client.volumeThreshold / 2) = true ->
  Forall (fun i =>
            fst i < t0 + Client.silenceDelay
            /\ Client.Qgtb (Client.average (snd i))
                 (Client.volumeThreshold / 2) = false) dips ->
  t_rise < t0 + Client.silenceDelay ->
  Client.Qgtb (Client.average rise) (Client.volumeThreshold / 2) = true ->
  Client.isRecording recording = true ->
  Client.still_open s
    (Client.run
       (Client.frames ((t0, first) :: dips ++ [(t_rise, rise)])) s)
  /\ Client.isRecording (Client.checkAudio dataArray recording) = true
  /\ Client.vad_log (Client.checkAudio dataArray recording)
     = Client.vad_log recording.
Proof.
  intros Ha Hmic Hm Hr Ht Hnow Hfirst Hdips Hlt Hrise Hrec. split.
  - apply short_dip; assumption.
  - destruct (checkAudio_keeps_recording dataArray recording Hrec)
      as (H1 & H2 & _). split; assumption.
Qed.

(** C7. At the failing input: a loud frame every second keeps the recording
    that started at 100 ms open at 12100 ms, 12 s of audio in the
    recorder, beyond [MAX_RECORDING_TIME] (10 s); no stop was decided and
    nothing was sent. *)
Theorem C7_recording_outlasts_max_recording_time :
  let s := Client.run Demo.loud_seconds Demo.listening in
  Client.isRecording s = true
  /\ Client.mediaRecorder s = Some {| Client.rec_started := 100 |}
  /\ Client.now s - 100 = 12000
  /\ Server.MAX_RECORDING_TIME * 1000 < Client.now s - 100
  /\ Client.vad_log s = [Client.SpeechStart 100]
  /\ Client.outbox s = [].
Proof. vm_compute. repeat split. Qed.

(** ** The theorems at concrete inputs *)

Lemma C1_witness :
  Client.isProcessing Demo.processing = true
  /\ Client.settled Demo.processing
  /\ Client.held Demo.processing
       (Client.run Demo.while_processing Demo.processing).
Proof.
  assert (Client.settled Demo.processing) as Hs
    by (vm_compute; repeat split; intros H; exact H).
  split; [vm_compute; reflexivity|].
  split; [exact Hs|].
  apply (C1_processing_flag_blocks_recording Demo.while_processing
           Demo.processing).
  - vm_compute; reflexivity.
  - exact Hs.
  - repeat constructor.
Defined.

Lemma C2_witness :
  LocalLoop.listening_active (Demo.local_state false) = false
  /\ LocalLoop.audio_callback Demo.block (Demo.local_state false)
     = Demo.local_state false
  /\ LocalLoop.gate_discipline Demo.local_env "Within three days."
       Demo.local_arrivals (Demo.local_state true).
Proof.
  split; [reflexivity|].
  apply (C2_playback_gate_feedback_immunity Demo.local_env
           "Within three days." Demo.local_arrivals
           (Demo.local_state true) (Demo.local_state false) Demo.block).
  reflexivity.
Defined.

Lemma C3_witness :
  Client.still_open Demo.recording
    (Client.run
       (Client.frames
          ((200, Demo.bins 5)
           :: [(700, Demo.bins 5); (1200, Demo.bins 12)]
           ++ [(1900, Demo.bins 13)]))
       Demo.recording)
  /\ Client.isRecording
       (Client.checkAudio (Demo.bins 0) Demo.recording) = true
  /\ Client.vad_log (Client.checkAudio (Demo.bins 0) Demo.recording)
     = Client.vad_log Demo.recording.
Proof.
  apply (C3_short_dip_keeps_utterance_open Demo.recording 200
           (Demo.bins 5) [(700, Demo.bins 5); (1200, Demo.bins 12)]
           1900 (Demo.bins 13) Demo.recording (Demo.bins 0)).
  - vm_compute; reflexivity.
  - vm_compute; reflexivity.
  - vm_compute; lia.
  - vm_compute; reflexivity.
  - vm_compute; reflexivity.
  - vm_compute; discriminate.
  - vm_compute; reflexivity.
  - repeat constructor; vm_compute; reflexivity.
  - vm_compute; reflexivity.
  - vm_compute; reflexivity.
  - vm_compute; reflexivity.
Defined.


Lemma C5_witness :
  Demo.first_stage Demo.env Demo.short_audio
  = (inr "", snd (Demo.first_stage Demo.env Demo.short_audio))
  /\ PyStr.strip "   " = ""
  /\ Server.run (Server.process_audio Demo.env Demo.short_audio) Demo.start
     = (inr (Server.ErrorResult Server.could_not_understand
               (Server.clock
                  (snd (Demo.first_stage Demo.env Demo.short_audio))
                - Server.clock Demo.start)),
        snd (Demo.first_stage Demo.env Demo.short_audio))
  /\ LocalLoop.query_chroma_db Demo.local_env "   " 1
     = ([LocalLoop.sorry_message], []).
Proof.
  split; [vm_compute; reflexivity|].
  split; [vm_compute; reflexivity|].
  destruct (C5_rejected_transcript_ends_in_error_result Demo.env
              Demo.local_env Demo.short_audio Demo.start ""
              (snd (Demo.first_stage Demo.env Demo.short_audio))
              "   " 1) as (H1 & _ & _ & H4).
  - vm_compute; reflexivity.
  - left; reflexivity.
  - vm_compute; reflexivity.
  - split; [exact H1|exact H4].
Defined.

Lemma C6_witness :
  Server.load_audio Demo.env Demo.short_audio = inr 200
  /\ 200 < 300
  /\ exists processing_time,
       Server.received 1
         (Server.trace
            (snd (Server.run
                    (Server.on_message Demo.env 1
                       (Demo.audio_message Demo.short_audio))
                    Demo.start)))
       = [Server.StateUpdate true;
          Server.ErrorMsg Server.could_not_understand
            (Some processing_time);
          Server.StateUpdate false].
Proof.
  split; [reflexivity|]. split; [lia|].
  destruct (C6_short_audio_is_not_transcribed Demo.env 1 Demo.short_audio
              200 Demo.start) as [_ [pt H]].
  - reflexivity.
  - lia.
  - exists pt. unfold Demo.audio_message. rewrite H. reflexivity.
Defined.

Lemma C8_witness :
  Server.clock Demo.fresh_world = Server.clock Demo.used_world
  /\ Server.metrics Demo.fresh_world <> Server.metrics Demo.used_world
  /\ exists r w1' w2' evs,
       Server.run
         (Server.on_message Demo.env 1 (Demo.audio_message Demo.utterance))
         Demo.fresh_world = (r, w1')
       /\ Server.run
            (Server.on_message Demo.env 1
               (Demo.audio_message Demo.utterance))
            Demo.used_world = (r, w2')
       /\ Server.trace w1' = (Server.trace Demo.fresh_world ++ evs)%list
       /\ Server.trace w2' = (Server.trace Demo.used_world ++ evs)%list.
Proof.
  split; [vm_compute; reflexivity|].
  split.
  - intros H. apply (f_equal (fun m => m !! "tts_time")) in H.
    vm_compute in H. discriminate.
  - apply (C8_handler_ignores_earlier_sessions Demo.env 1
             (Demo.audio_message Demo.utterance) Demo.fresh_world
             Demo.used_world).
    vm_compute; reflexivity.
Defined.

Lemma C10_witness :
  PyStr.strip "So THAT IS the price?" <> ""
  /\ In "that is" LocalLoop.garbled_indicators
  /\ PyStr.contains "that is" (PyStr.lower "So THAT IS the price?") = true
  /\ LocalLoop.query_chroma_db Demo.local_env "So THAT IS the price?" 1
     = ([LocalLoop.trouble_message], []).
Proof.
  assert (PyStr.strip "So THAT IS the price?" <> "") as Hblank
    by (vm_compute; discriminate).
  assert (In "that is" LocalLoop.garbled_indicators) as Hin
    by (simpl; auto).
  split; [exact Hblank|]. split; [exact Hin|].
  split; [vm_compute; reflexivity|].
  apply (C10_garbled_question_bypasses_collection Demo.local_env
           "So THAT IS the price?" 1 "that is" Hblank Hin).
  vm_compute; reflexivity.
Defined.

(** ** More about strings *)

Section StripFacts.

Import PyStr Outcomes.

Lemma append_assoc (s1 s2 s3 : string) :
  (s1 +:+ s2) +:+ s3 = s1 +:+ (s2 +:+ s3).
Proof.
  induction s1 as [|c s1 IH]; [reflexivity|].
  rewrite !append_cons, IH. reflexivity.
Qed.

Lemma rev_onto_append (s acc : string) :
  rev_onto s acc = rev s +:+ acc.
Proof.
  unfold rev. revert acc.
  induction s as [|c s IH]; intros acc; simpl; [reflexivity|].
  rewrite (IH (String c acc)), (IH (String c "")).
  rewrite append_assoc. reflexivity.
Qed.

Lemma rev_cons (c : ascii) (s : string) :
  rev (String c s) = rev s +:+ String c "".
Proof. unfold rev at 1. simpl. apply rev_onto_append. Qed.

Lemma append_empty_r (s : string) : s +:+ "" = s.
Proof. induction s as [|c s IH]; [reflexivity|]. rewrite append_cons, IH. reflexivity. Qed.

Lemma rev_append (s1 s2 : string) : rev (s1 +:+ s2) = rev s2 +:+ rev s1.
Proof.
  induction s1 as [|c s1 IH].
  - rewrite append_nil. cbn [rev rev_onto]. symmetry. apply append_empty_r.
  - rewrite append_cons, !rev_cons, IH, append_assoc. reflexivity.
Qed.

Lemma rev_involutive (s : string) : rev (rev s) = s.
Proof.
  induction s as [|c s IH]; [reflexivity|].
  rewrite rev_cons, rev_append, IH. reflexivity.
Qed.

Lemma lstrip_idem (s : string) : lstrip (lstrip s) = lstrip s.
Proof.
  induction s as [|c s IH]; [reflexivity|]. simpl.
  destruct (isspace c) eqn:E; [exact IH|]. simpl. rewrite E. reflexivity.
Qed.

Lemma lstrip_suffix (s : string) : exists p, s = p +:+ lstrip s.
Proof.
  induction s as [|c s [p IH]]; [exists ""; reflexivity|]. simpl.
  destruct (isspace c).
  - exists (String c p). rewrite append_cons. f_equal. exact IH.
  - exists "". reflexivity.
Qed.

Lemma lstrip_prefix_closed (s r : string) :
  lstrip (s +:+ r) = s +:+ r -> lstrip s = s.
Proof.
  destruct s as [|c s]; [reflexivity|].
  rewrite append_cons. simpl. destruct (isspace c); [|reflexivity].
  intros H. pose proof (lstrip_suffix (s +:+ r)) as [p Hp].
  rewrite H in Hp. apply (f_equal String.length) in Hp.
  rewrite !append_length in Hp. cbn [String.length] in Hp.
  rewrite append_length in Hp. lia.
Qed.

Lemma strip_trimmed (s : string) : trimmed s -> strip s = s.
Proof.
  intros [H1 H2]. unfold strip, rstrip. rewrite H1, H2.
  apply rev_involutive.
Qed.

Lemma strip_is_trimmed (s : string) : trimmed (strip s).
Proof.
  unfold trimmed, strip, rstrip. rewrite rev_involutive, lstrip_idem.
  split; [|reflexivity].
  destruct (lstrip_suffix (rev (lstrip s))) as [p Hp].
  apply (f_equal rev) in Hp. rewrite rev_involutive, rev_append in Hp.
  apply (lstrip_prefix_closed _ (rev p)). rewrite <- Hp.
  apply lstrip_idem.
Qed.

Lemma strip_idempotent (s : string) : strip (strip s) = strip s.
Proof. apply strip_trimmed, strip_is_trimmed. Qed.

End StripFacts.

(** ** The server: what a turn does *)

Section PipelineFacts.

Import Server Outcomes.


Lemma sum_values_empty : sum_values ∅ = 0.
Proof. unfold sum_values. apply map_fold_empty. Qed.

Lemma sum_values_insert (k : string) (v : Z) (m : gmap string Z) :
  m !! k = None -> sum_values (<[k := v]> m) = v + sum_values m.
Proof.
  intros H. unfold sum_values.
  apply (map_fold_insert_L (fun _ v acc => v + acc)); [|exact H].
  intros. lia.
Qed.

Lemma sum_values_update (k : string) (v : Z) (m : gmap string Z) :
  sum_values (<[k := v]> m) = v + sum_values (delete k m).
Proof.
  rewrite <- (insert_delete_eq m k v).
  apply sum_values_insert. apply lookup_delete_eq.
Qed.

Lemma three_metrics (a b c : Z) :
  let m := <["tts_time" := c]> (<["response_time" := b]>
             (<["transcription_time" := a]>
                (<["transcription_time" := 0]>
                   (<["response_time" := 0]> (<["tts_time" := 0]> ∅))))) in
  sum_values m = a + b + c
  /\ m !! "transcription_time" = Some a
  /\ m !! "response_time" = Some b
  /\ m !! "tts_time" = Some c.
Proof.
  intros m. subst m. repeat split; try reflexivity.
  rewrite insert_insert_eq.
  rewrite (insert_insert_ne _ "response_time" "transcription_time") by done.
  rewrite insert_insert_eq.
  rewrite (insert_insert_ne _ "tts_time" "transcription_time") by done.
  rewrite (insert_insert_ne _ "tts_time" "response_time") by done.
  rewrite insert_insert_eq.
  rewrite !sum_values_insert, sum_values_empty; [lia|..];
    simplify_map_eq; done.
Qed.


Ltac unfold_stage :=
  unfold transcribe_audio_openai, get_openai_response, text_to_speech,
    tts_request, tts_stream, wait_for, await_until, block, time_time, monitor_start,
    monitor_record, try_except, call, emit, modify, raise;
  unfold mbind, mret, M_bind, M_ret; cbn beta iota.

Lemma not_rejected (t : string) :
  rejected t = false -> t <> "" /\ PyStr.startswith t "[ERROR" = false.
Proof.
  unfold rejected. rewrite orb_false_iff, negb_false_iff.
  intros [H1 H2]. split; [|exact H2]. intros ->. discriminate.
Qed.

Lemma transcribe_succeeds (env : Env) (audio : list byte) (dl : option Z)
    (w : world) (len : Z) (transcript : string) :
  clock w <> 0 ->
  load_audio env audio = inr len -> 300 <= len ->
  api_configured env = true ->
  whisper env audio = inr transcript ->
  let elapsed := Z.of_N (load_audio_ms env audio) + whisper_ms env audio in
  exists w1,
    wait_for (transcribe_audio_openai env audio) 15000 dl w
    = (inr (PyStr.strip transcript), w1)
    /\ clock w1 = clock w + elapsed
    /\ start_time w1 = Some (clock w + elapsed)
    /\ metrics w1 = <["transcription_time" := elapsed]> started
    /\ trace w1
       = (trace w ++ [Entered Transcribe; WhisperCalled audio])%list.
Proof.
  intros Hclock Hload Hlen Hkey Hw elapsed. subst elapsed.
  unfold_stage. simpl. rewrite Hload. simpl.
  destruct (Z.ltb_spec len 300); [lia|]. rewrite Hkey. simpl.
  rewrite Hw. simpl.
  destruct (Z.eqb_spec (clock w) 0); [lia|].
  eexists. split; [reflexivity|]. simpl.
  rewrite <- app_assoc. unfold started.
  split; [lia|]. split; [f_equal; lia|]. split; [f_equal; lia|reflexivity].
Qed.

Lemma answer_succeeds (env : Env) (text : string) (dl : option Z)
    (w : world) (t0 : Z) (content : string) :
  start_time w = Some t0 -> t0 <> 0 ->
  PyStr.strip text <> "" -> PyStr.startswith text "[ERROR" = false ->
  api_configured env = true ->
  chat env text = inr content ->
  exists w2,
    wait_for (get_openai_response env text) 15000 dl w
    = (inr (PyStr.strip content), w2)
    /\ clock w2 = clock w + chat_ms env text
    /\ start_time w2 = Some (clock w + chat_ms env text)
    /\ metrics w2
       = <["response_time" := clock w + chat_ms env text - t0]> (metrics w)
    /\ trace w2 = (trace w ++ [Entered Answer; ChatCalled text])%list.
Proof.
  intros Hst Ht0 Hblank Hpre Hkey Hchat.
  assert (PyStr.truthy (PyStr.strip text) = true) as Htr
    by (destruct (PyStr.strip text); simpl; congruence).
  unfold_stage. simpl. rewrite Htr, Hpre, Hkey. simpl.
  rewrite Hchat. simpl. rewrite Hst.
  destruct (Z.eqb_spec t0 0); [lia|].
  eexists. split; [reflexivity|]. simpl.
  rewrite <- app_assoc. repeat split.
Qed.

Lemma synthesize_succeeds (env : Env) (text : string) (dl : option Z)
    (w : world) (t0 : Z) (speech : list byte) :
  start_time w = Some t0 -> t0 <> 0 ->
  edge_tts env (limit_text text) = inr speech ->
  0 <= edge_tts_ms env (limit_text text) <= 10000 ->
  exists w3,
    wait_for (text_to_speech env text) 10000 dl w
    = (inr (b64encode env speech), w3)
    /\ clock w3 = clock w + edge_tts_ms env (limit_text text)
    /\ metrics w3
       = <["tts_time" := clock w + edge_tts_ms env (limit_text text) - t0]>
           (metrics w)
    /\ trace w3
       = (trace w ++ [Entered Synthesize; TtsCalled (limit_text text)])%list.
Proof.
  intros Hst Ht0 Htts Hms.
  unfold_stage. simpl.
  rewrite Z.max_r by lia.
  destruct (Z.ltb_spec (clock w + 10000)
              (clock w + edge_tts_ms env (limit_text text))); [lia|].
  simpl. rewrite Htts. simpl. rewrite Hst.
  destruct (Z.eqb_spec t0 0); [lia|].
  eexists. split; [reflexivity|]. simpl.
  rewrite <- app_assoc. repeat split.
Qed.

(** X2.  The happy path of [process_audio].  When the audio decodes to at
    least 300 ms, the key is configured, the three services answer within
    their time limits (15 s, 15 s, 10 s) and the transcript is not
    rejected, the result is the success dictionary with the stripped
    transcript, the stripped answer and the encoded speech; its metrics
    hold the three stage times and [total_time], which is their sum, and
    the services are called once each, in order, the chat model with the
    stripped transcript and edge-tts with the limited answer. *)
Theorem X2_all_stages_succeed (env : Env) (audio : list byte) (w : world)
    (len : Z) (transcript content : string) (speech : list byte) :
  0 < clock w ->
  load_audio env audio = inr len -> 300 <= len ->
  api_configured env = true ->
  whisper env audio = inr transcript ->
  0 <= whisper_ms env audio <= 15000 ->
  rejected (PyStr.strip transcript) = false ->
  chat env (PyStr.strip transcript) = inr content ->
  0 <= chat_ms env (PyStr.strip transcript) <= 15000 ->
  edge_tts env (limit_text (PyStr.strip content)) = inr speech ->
  0 <= edge_tts_ms env (limit_text (PyStr.strip content)) <= 10000 ->
  exists processing_time ta tb tc metrics w',
    run (process_audio env audio) w
    = (inr (Success (PyStr.strip transcript) (PyStr.strip content)
              (b64encode env speech) processing_time metrics), w')
    /\ metrics !! "transcription_time" = Some ta
    /\ metrics !! "response_time" = Some tb
    /\ metrics !! "tts_time" = Some tc
    /\ metrics !! "total_time" = Some (ta + tb + tc)
    /\ trace w'
       = (trace w ++ [Entered Transcribe; WhisperCalled audio;
                      Entered Answer; ChatCalled (PyStr.strip transcript);
                      Entered Synthesize;
                      TtsCalled (limit_text (PyStr.strip content))])%list.
Proof.
  intros Hclock Hload Hlen Hkey Hw Hwms Hrej Hchat Hcms Htts Htms.
  set (a := Z.of_N (load_audio_ms env audio) + whisper_ms env audio).
  set (b := chat_ms env (PyStr.strip transcript)) in *.
  set (c := edge_tts_ms env (limit_text (PyStr.strip content))) in *.
  assert (0 <= a) as Ha0 by (subst a; lia).
  apply not_rejected in Hrej as Hnb. destruct Hnb as [Hne Hpre].
  destruct (transcribe_succeeds env audio None w len transcript)
    as (w1 & E1 & C1 & S1 & M1 & T1); try assumption; try lia.
  fold a in C1, S1, M1.
  destruct (answer_succeeds env (PyStr.strip transcript) None w1
              (clock w + a) content)
    as (w2 & E2 & C2 & S2 & M2 & T2); try assumption; try lia.
  { rewrite strip_idempotent. exact Hne. }
  destruct (synthesize_succeeds env (PyStr.strip content) None w2
              (clock w1 + b) speech)
    as (w3 & E3 & C3 & M3 & T3); try assumption; try lia.
  unfold run, process_audio, try_except, time_time, get_metrics.
  unfold mbind, mret, M_bind, M_ret. cbn beta iota.
  rewrite E1, Hrej, E2, E3.
  assert (metrics w3
          = <["tts_time" := c]> (<["response_time" := b]>
              (<["transcription_time" := a]> started))) as M.
  { rewrite M3, M2, M1, C2, C1. fold b c. repeat f_equal; lia. }
  pose proof (three_metrics a b c) as (Hsum & Hta & Hb & Hc).
  fold started in Hsum, Hta, Hb, Hc.
  exists (clock w3 - clock w), a, b, c,
    (<["total_time" := a + b + c]> (metrics w3)), w3.
  split; [|rewrite M; repeat split].
  - rewrite M at 1. rewrite Hsum. reflexivity.
  - rewrite T3, T2, T1, <- !app_assoc. reflexivity.
Qed.
Ltac unfold_stage2 :=
  unfold transcribe_audio_openai, get_openai_response, text_to_speech,
    tts_request, tts_stream, await_until, block, time_time, monitor_start, monitor_record,
    try_except, call, emit, modify, raise;
  unfold mbind, mret, M_bind, M_ret; cbn beta iota.

Lemma transcribe_contained env audio t dl w :
  contained (fst (wait_for (transcribe_audio_openai env audio) t dl w)).
Proof.
  unfold wait_for. unfold_stage2. simpl.
  repeat (case_match; simpl in *; simplify_eq); exact I.
Qed.

Lemma answer_contained env text t dl w :
  contained (fst (wait_for (get_openai_response env text) t dl w)).
Proof.
  unfold wait_for. unfold_stage2. simpl.
  repeat (case_match; simpl in *; simplify_eq); exact I.
Qed.

Lemma synthesize_contained env text t dl w :
  contained (fst (wait_for (text_to_speech env text) t dl w)).
Proof.
  unfold wait_for. unfold_stage2. simpl.
  repeat (case_match; simpl in *; simplify_eq); exact I.
Qed.

Ltac glue :=
  unfold process_audio, try_except, error_result, process_audio_except,
    get_metrics, time_time, run;
  unfold mbind, mret, M_bind, M_ret; cbn beta iota.

Lemma process_audio_pipeline env audio w :
  exists r w', run (process_audio env audio) w = (inr r, w')
               /\ pipeline env audio w r w'.
Proof.
  glue.
  pose proof (transcribe_contained env audio 15000 None w) as C1.
  destruct (wait_for (transcribe_audio_openai env audio) 15000 None w)
    as [[[]|t] w1] eqn:E1; simpl in C1; try contradiction.
  { eexists _, _. split; [reflexivity|].
    apply (stop_at_transcribe _ _ _ _ _ E1). left; reflexivity. }
  destruct (rejected t) eqn:Hr.
  { eexists _, _. split; [reflexivity|].
    apply (stop_at_transcribe _ _ _ _ _ E1). right; eauto. }
  pose proof (answer_contained env t 15000 None w1) as C2.
  destruct (wait_for (get_openai_response env t) 15000 None w1)
    as [[[]|response] w2] eqn:E2; simpl in C2; try contradiction.
  { eexists _, _. split; [reflexivity|].
    eapply stop_at_answer; eauto. }
  pose proof (synthesize_contained env response 10000 None w2) as C3.
  destruct (wait_for (text_to_speech env response) 10000 None w2)
    as [[[]|ab] w3] eqn:E3; simpl in C3; try contradiction.
  { eexists _, _. split; [reflexivity|].
    eapply stop_at_synthesize; eauto. }
  eexists _, _. split; [reflexivity|].
  eapply all_stages; eauto.
Qed.

Lemma received_app conn (l1 l2 : list event) :
  received conn (l1 ++ l2) = (received conn l1 ++ received conn l2)%list.
Proof. unfold received. apply omap_app. Qed.

Ltac quiet_by_cases :=
  intros conn dl w; unfold wait_for; unfold_stage2; simpl;
  repeat (case_match; simpl in *; simplify_eq);
  unfold set_monitor, set_trace, set_clock; cbn [trace conv];
  rewrite ?received_app; simpl; rewrite ?app_nil_r; auto.

Lemma transcribe_quiet env audio t :
  quiet (wait_for (transcribe_audio_openai env audio) t).
Proof. quiet_by_cases. Qed.

Lemma answer_quiet env text t :
  quiet (wait_for (get_openai_response env text) t).
Proof. quiet_by_cases. Qed.

Lemma synthesize_quiet env text t :
  quiet (wait_for (text_to_speech env text) t).
Proof. quiet_by_cases. Qed.

Lemma pipeline_quiet env audio w r w' conn :
  pipeline env audio w r w' ->
  received conn (trace w') = received conn (trace w) /\ conv w' = conv w.
Proof.
  intros H. destruct H as [r1 w1 E1 _|t w1 w2 E1 _ E2
                          |t w1 resp w2 w3 E1 _ E2 E3
                          |t w1 resp w2 ab w3 E1 _ E2 E3].
  all: pose proof (transcribe_quiet env audio 15000 conn None w) as [Q1 V1];
    rewrite E1 in Q1, V1; simpl in Q1, V1.
  - auto.
  - pose proof (answer_quiet env t 15000 conn None w1) as [Q2 V2].
    rewrite E2 in Q2, V2; simpl in Q2, V2. split; congruence.
  - pose proof (answer_quiet env t 15000 conn None w1) as [Q2 V2].
    rewrite E2 in Q2, V2; simpl in Q2, V2.
    pose proof (synthesize_quiet env resp 10000 conn None w2) as [Q3 V3].
    rewrite E3 in Q3, V3; simpl in Q3, V3. split; congruence.
  - pose proof (answer_quiet env t 15000 conn None w1) as [Q2 V2].
    rewrite E2 in Q2, V2; simpl in Q2, V2.
    pose proof (synthesize_quiet env resp 10000 conn None w2) as [Q3 V3].
    rewrite E3 in Q3, V3; simpl in Q3, V3. split; congruence.
Qed.

Lemma handler_turn (env : Env) (conn : nat)
    (data : client_message) (w : world) :
  msg_type data = "audio_data" ->
  exists reply w',
    run (on_message env conn data) w = (inr tt, w')
    /\ received conn (trace w')
       = (received conn (trace w)
          ++ [StateUpdate true; reply; StateUpdate false])%list
    /\ (forall b, reply <> StateUpdate b)
    /\ is_processing (conv w') = false
    /\ current_websocket (conv w') = current_websocket (conv w).
Proof.
  intros Hty. unfold run, on_message. rewrite Hty. simpl.
  unfold finish_message, failed_to_process, reply, send_json,
    set_is_processing, try_except, try_finally, call, emit, modify, raise.
  unfold mbind, mret, M_bind, M_ret. cbn beta iota.
  destruct (msg_audio data) as [msg|audio].
  - eexists _, _. split; [reflexivity|]. simpl.
    rewrite !received_app. simpl. rewrite Nat.eqb_refl. simpl.
    rewrite <- !app_assoc. repeat split; try reflexivity. congruence.
  - cbn beta iota.
    match goal with
    | |- context [process_audio env audio None ?w0] =>
        destruct (process_audio_pipeline env audio w0)
          as (r & w' & E & Hp);
        unfold run in E; rewrite E;
        destruct (pipeline_quiet _ _ _ _ _ conn Hp) as [Q V]
    end.
    destruct r; eexists _, _; (split; [reflexivity|]); simpl;
      rewrite !received_app, Q; simpl; rewrite !received_app; simpl;
      rewrite Nat.eqb_refl, V; simpl; rewrite <- !app_assoc;
      repeat split; try reflexivity; congruence.
Qed.

(** X9.  Every message of type "audio_data" is handled without an
    exception, and its connection receives exactly three messages for
    it: the state update that sets the processing flag, one reply that
    is not a state update, and the state update that clears the flag;
    the flag is clear afterwards and [current_websocket] is as before. *)
Theorem X9_audio_message_handled (env : Env) (conn : nat)
    (data : client_message) (w : world) :
  msg_type data = "audio_data" ->
  exists reply w',
    run (on_message env conn data) w = (inr tt, w')
    /\ received conn (trace w')
       = (received conn (trace w) ++ turn reply)%list
    /\ (forall b, reply <> StateUpdate b)
    /\ is_processing (conv w') = false
    /\ current_websocket (conv w') = current_websocket (conv w).
Proof. intros Hty. exact (handler_turn env conn data w Hty). Qed.

Lemma other_message_ignored env conn data w :
  is_audio data = false -> run (on_message env conn data) w = (inr tt, w).
Proof. unfold is_audio, run, on_message. intros ->. reflexivity. Qed.

Lemma serve_turns (env : Env) (conn : nat) (msgs : list json)
    (w : world) :
  exists r replies w',
    run (serve env conn msgs) w = (r, w')
    /\ r = (if forallb typed msgs then inr tt
            else inl (Exception
                        (match List.filter (fun j => negb (typed j)) msgs
                         with
                         | Untyped error :: _ => error
                         | _ => ""
                         end)))
    /\ received conn (trace w')
       = (received conn (trace w) ++ concat (map turn replies))%list
    /\ length replies = length (List.filter is_audio (served msgs))
    /\ Forall (fun m => forall b, m <> StateUpdate b) replies
    /\ current_websocket (conv w') = current_websocket (conv w)
    /\ is_processing (conv w')
       = if existsb is_audio (served msgs) then false
         else is_processing (conv w).
Proof.
  revert w. induction msgs as [|[data|error] msgs IH]; intros w.
  - exists (inr tt), [], w. simpl. rewrite app_nil_r. repeat split.
    constructor.
  - unfold run in *. cbn [serve receive served forallb typed List.filter
                            negb andb].
    unfold mbind, M_bind.
    destruct (is_audio data) eqn:Ha.
    + destruct (handler_turn env conn data w)
        as (reply & w1 & E1 & R1 & N1 & P1 & C1).
      { unfold is_audio in Ha. apply String.eqb_eq in Ha. exact Ha. }
      unfold run in E1. rewrite E1.
      destruct (IH w1) as (r & replies & w' & E & Hr & R & L & F & C & P).
      exists r, (reply :: replies), w'. rewrite E. split; [reflexivity|].
      split; [exact Hr|].
      cbn [List.filter existsb]. rewrite Ha. cbn [orb length map concat].
      rewrite R, R1, <- app_assoc. unfold turn at 2.
      repeat split; try congruence.
      * constructor; assumption.
      * rewrite P.
        destruct (existsb is_audio (served msgs)); [reflexivity|exact P1].
    + pose proof (other_message_ignored env conn data w Ha) as E1.
      unfold run in E1. rewrite E1.
      destruct (IH w) as (r & replies & w' & E & Hr & R & L & F & C & P).
      exists r, replies, w'. rewrite E. cbn [List.filter existsb].
      rewrite Ha. cbn [orb]. repeat split; assumption.
  - exists (inl (Exception error)), [], w. unfold run.
    cbn [serve receive served forallb typed List.filter negb andb].
    unfold mbind, M_bind, raise. simpl. rewrite app_nil_r.
    repeat split. constructor.
Qed.

(** X10.  A whole connection.  For everything a client sends before it
    disconnects the endpoint ends without an exception.  The messages in
    front of the first one without a type are served: the connection
    receives one turn (state update, reply, state update) for each audio
    message among them, in order, and nothing for the others.  If every
    message has a type, [current_websocket] is cleared at the end; a
    message without a type ends the endpoint there, the later messages
    are not served, and [current_websocket] still names the
    connection. *)
Theorem X10_connection_served (env : Env) (conn : nat)
    (msgs : list json) (w : world) :
  exists replies w',
    run (websocket_endpoint env conn msgs) w = (inr tt, w')
    /\ received conn (trace w')
       = (received conn (trace w) ++ concat (map turn replies))%list
    /\ length replies = length (List.filter is_audio (served msgs))
    /\ Forall (fun m => forall b, m <> StateUpdate b) replies
    /\ current_websocket (conv w')
       = (if forallb typed msgs then None else Some conn).
Proof.
  unfold run, websocket_endpoint, set_current_websocket, try_except, modify.
  unfold mbind, mret, M_bind, M_ret. cbn beta iota.
  match goal with
  | |- context [serve env conn msgs None ?w0] =>
      destruct (serve_turns env conn msgs w0)
        as (r & replies & w' & E & Hr & R & L & F & C & P)
  end.
  unfold run in E. rewrite E. cbn beta iota.
  destruct (forallb typed msgs); subst r.
  - eexists replies, _. split; [reflexivity|]. simpl.
    repeat split; assumption.
  - eexists replies, _. split; [reflexivity|].
    repeat split; assumption.
Qed.

Lemma transcription_error_trimmed (msg : string) :
  trimmed (transcription_error msg).
Proof.
  unfold trimmed, transcription_error. split; [reflexivity|].
  rewrite !rev_append. reflexivity.
Qed.

Lemma transcription_error_passes (msg : string) :
  rejected (transcription_error msg) = false
  /\ PyStr.strip (transcription_error msg) <> "".
Proof.
  split; [reflexivity|].
  rewrite strip_trimmed by apply transcription_error_trimmed.
  discriminate.
Qed.

(** What the first stage can return. *)
Lemma transcribe_returns (env : Env) (audio : list byte) (t : Z)
    (dl : option Z) (w : world) (text : string) (w1 : world) :
  wait_for (transcribe_audio_openai env audio) t dl w = (inr text, w1) ->
  text = "" \/ text = "[ERROR: API key not configured]"
  \/ (exists transcript, text = PyStr.strip transcript)
  \/ (exists msg, text = transcription_error msg).
Proof.
  unfold wait_for. unfold_stage2. simpl. unfold transcription_error.
  repeat (case_match; simpl in *; simplify_eq); intros; simplify_eq;
    eauto 6.
Qed.

(** The guard of the answer stage is dead code in the pipeline. *)
Lemma answer_guard_passes (env : Env) (audio : list byte) (w : world)
    (text : string) (w1 : world) :
  run (wait_for (transcribe_audio_openai env audio) 15000) w
  = (inr text, w1) ->
  rejected text = false ->
  negb (PyStr.truthy (PyStr.strip text))
  || PyStr.startswith text "[ERROR" = false.
Proof.
  unfold run. intros E Hr.
  destruct (not_rejected text Hr) as [Hne Hpre]. rewrite Hpre, orb_false_r.
  apply negb_false_iff.
  assert (PyStr.strip text <> "") as Hs.
  { destruct (transcribe_returns _ _ _ _ _ _ _ E)
      as [->|[->|[[x ->]|[msg ->]]]].
    - congruence.
    - discriminate.
    - rewrite strip_idempotent. exact Hne.
    - apply transcription_error_passes. }
  destruct (PyStr.strip text); simpl; congruence.
Qed.

(** X3.  The guard of [get_openai_response] (blank text or a text that
    starts with "[ERROR") never fires inside the pipeline: every text
    the first stage returns and [process_audio] lets through fails the
    guard's test, so the fallback prompt of the answer stage cannot be
    the reply to an utterance. *)
Theorem X3_answer_guard_never_fires (env : Env) (audio : list byte)
    (w : world) (text : string) (w1 : world) :
  run (wait_for (transcribe_audio_openai env audio) 15000) w
  = (inr text, w1) ->
  rejected text = false ->
  negb (PyStr.truthy (PyStr.strip text))
  || PyStr.startswith text "[ERROR" = false.
Proof. exact (answer_guard_passes env audio w text w1). Qed.

(** An answer stage whose guard does not fire, with a key: the chat model
    is called with the text, and that is all the stage emits. *)
Lemma answer_calls_chat (env : Env) (text : string) (t : Z)
    (dl : option Z) (w : world) :
  negb (PyStr.truthy (PyStr.strip text))
  || PyStr.startswith text "[ERROR" = false ->
  api_configured env = true ->
  trace (snd (wait_for (get_openai_response env text) t dl w))
  = (trace w ++ [Entered Answer; ChatCalled text])%list.
Proof.
  intros Hg Hk. unfold wait_for. unfold_stage2. simpl. rewrite Hg, Hk. simpl.
  repeat (case_match; simpl in *; simplify_eq);
    unfold set_monitor, set_trace, set_clock; cbn [trace];
    rewrite <- app_assoc; reflexivity.
Qed.

Lemma wait_for_synthesize_trace (env : Env) (text : string) (t : Z)
    (dl : option Z) (w : world) :
  trace (snd (wait_for (text_to_speech env text) t dl w))
  = (trace w ++ [Entered Synthesize; TtsCalled (limit_text text)])%list.
Proof.
  unfold wait_for.
  pose proof (text_to_speech_trace env text (Some (clock w + t)) w) as H.
  destruct (text_to_speech env text (Some (clock w + t)) w) as [[[]|] ?];
    exact H.
Qed.

(** X4.  Audio that does not decode, with a key configured: the first
    stage returns the marker "[Transcription Error: ...]", the pipeline
    does not stop, the chat model is called with the marker as if it were
    the user's words, and the result is either a success whose
    transcription is the marker or the timeout error. *)
Theorem X4_decode_error_reaches_chat (env : Env) (audio : list byte)
    (w : world) (msg : string) :
  load_audio env audio = inl msg ->
  api_configured env = true ->
  exists r w' tail,
    run (process_audio env audio) w = (inr r, w')
    /\ trace w'
       = (trace w
          ++ [Entered Transcribe; Entered Answer;
              ChatCalled (transcription_error msg)] ++ tail)%list
    /\ match r with
       | Success transcription _ _ _ _ =>
           transcription = transcription_error msg
       | ErrorResult error _ => error = took_too_long
       end.
Proof.
  intros Hload Hkey.
  assert (exists w1,
    wait_for (transcribe_audio_openai env audio) 15000 None w
    = (inr (transcription_error msg), w1)
    /\ trace w1 = (trace w ++ [Entered Transcribe])%list)
    as (w1 & E1 & T1).
  { unfold wait_for. unfold_stage2. simpl. rewrite Hload. simpl.
    eexists. split; reflexivity. }
  destruct (transcription_error_passes msg) as [Hrej Hne].
  assert (negb (PyStr.truthy (PyStr.strip (transcription_error msg)))
          || PyStr.startswith (transcription_error msg) "[ERROR" = false)
    as Hg by (apply (answer_guard_passes env audio w _ w1 E1 Hrej)).
  pose proof (answer_calls_chat env _ 15000 None w1 Hg Hkey) as T2.
  pose proof (answer_contained env (transcription_error msg) 15000 None w1)
    as C2.
  unfold run, process_audio, try_except, time_time, get_metrics,
    error_result, process_audio_except.
  unfold mbind, mret, M_bind, M_ret. cbn beta iota.
  rewrite E1, Hrej.
  destruct (wait_for (get_openai_response env (transcription_error msg))
              15000 None w1) as [[[]|resp] w2] eqn:E2;
    simpl in C2, T2; try contradiction.
  - eexists _, _, []. split; [reflexivity|].
    rewrite T2, T1, <- app_assoc. split; reflexivity.
  - pose proof (wait_for_synthesize_trace env resp 10000 None w2) as T3.
    pose proof (synthesize_contained env resp 10000 None w2) as C3.
    destruct (wait_for (text_to_speech env resp) 10000 None w2)
      as [[[]|ab] w3] eqn:E3; simpl in C3, T3; try contradiction;
      eexists _, _, _; (split; [reflexivity|]);
      rewrite T3, T2, T1, <- !app_assoc; split; reflexivity.
Qed.

(** A chat call that raises: the stage returns an apology that quotes the
    exception, and records no response time. *)
Lemma answer_apologises (env : Env) (text : string) (dl : option Z)
    (w : world) (msg : string) :
  negb (PyStr.truthy (PyStr.strip text))
  || PyStr.startswith text "[ERROR" = false ->
  api_configured env = true ->
  chat env text = inl msg ->
  exists w2,
    wait_for (get_openai_response env text) 15000 dl w
    = (inr (apology msg), w2)
    /\ metrics w2 = metrics w /\ start_time w2 = start_time w.
Proof.
  intros Hg Hk Hchat. unfold wait_for. unfold_stage2. simpl.
  rewrite Hg, Hk. simpl. rewrite Hchat. simpl. eexists. repeat split.
Qed.

(** A synthesis that raises: the stage returns the empty string and
    records no synthesis time. *)
Lemma synthesize_fails (env : Env) (text : string) (dl : option Z)
    (w : world) (msg : string) :
  edge_tts env (limit_text text) = inl msg ->
  edge_tts_ms env (limit_text text) <= 10000 ->
  exists w3,
    wait_for (text_to_speech env text) 10000 dl w = (inr "", w3)
    /\ metrics w3 = metrics w.
Proof.
  intros Htts Hms. unfold wait_for. unfold_stage2. simpl.
  destruct (Z.ltb_spec (clock w + 10000)
              (Z.max (clock w)
                 (clock w + edge_tts_ms env (limit_text text)))); [lia|].
  simpl. rewrite Htts. simpl. eexists. repeat split.
Qed.

(** A synthesis that outlasts its 10 s: cancelled at the deadline. *)
Lemma synthesize_times_out (env : Env) (text : string) (dl : option Z)
    (w : world) :
  10000 < edge_tts_ms env (limit_text text) ->
  exists w3,
    wait_for (text_to_speech env text) 10000 dl w = (inl TimeoutError, w3)
    /\ metrics w3 = metrics w /\ clock w3 = clock w + 10000.
Proof.
  intros Hms. unfold wait_for. unfold_stage2. simpl.
  destruct (Z.ltb_spec (clock w + 10000)
              (Z.max (clock w)
                 (clock w + edge_tts_ms env (limit_text text)))); [|lia].
  simpl. eexists. repeat split. simpl. lia.
Qed.

Ltac open_pipeline :=
  unfold run, process_audio, try_except, time_time, get_metrics,
    error_result, process_audio_except;
  unfold mbind, mret, M_bind, M_ret; cbn beta iota.

(** X5.  A chat completion that raises, however long it took, does not
    fail the turn: the answer stage returns the apology that quotes the
    exception, the synthesizer is called with it, and the result is a
    success with that apology for a response (or the timeout error when
    the synthesis is too slow). *)
Theorem X5_chat_failure_is_spoken (env : Env) (audio : list byte) (w : world)
    (text : string) (w1 : world) (msg : string) :
  run (wait_for (transcribe_audio_openai env audio) 15000) w
  = (inr text, w1) ->
  rejected text = false ->
  api_configured env = true ->
  chat env text = inl msg ->
  exists r w',
    run (process_audio env audio) w = (inr r, w')
    /\ In (TtsCalled (limit_text (apology msg))) (trace w')
    /\ match r with
       | Success transcription response _ _ _ =>
           transcription = text /\ response = apology msg
       | ErrorResult error _ => error = took_too_long
       end.
Proof.
  intros E1 Hrej Hkey Hchat.
  pose proof (answer_guard_passes env audio w text w1 E1 Hrej) as Hg.
  destruct (answer_apologises env text None w1 msg Hg Hkey Hchat)
    as (w2 & E2 & _).
  pose proof (wait_for_synthesize_trace env (apology msg) 10000 None w2)
    as T3.
  pose proof (synthesize_contained env (apology msg) 10000 None w2) as C3.
  unfold run in E1. open_pipeline. rewrite E1, Hrej, E2.
  destruct (wait_for (text_to_speech env (apology msg)) 10000 None w2)
    as [[[]|ab] w3] eqn:E3; simpl in C3, T3; try contradiction;
    eexists _, _; (split; [reflexivity|]); rewrite T3;
    (split; [apply in_or_app; right; simpl; auto|]); auto.
Qed.

(** X6.  A synthesis that raises within its 10 s: [text_to_speech]
    returns the empty string, [process_audio] still returns the success
    dictionary, with an empty [audio_base64] and the [tts_time] left as
    it was before the stage, and the page that receives it plays
    nothing. *)
Theorem X6_failed_synthesis_is_a_silent_success (env : Env) (audio : list byte)
    (w : world) (text : string) (w1 : world) (response : string)
    (w2 : world) (msg : string) (page : Client.VoiceAssistant) :
  run (wait_for (transcribe_audio_openai env audio) 15000) w
  = (inr text, w1) ->
  rejected text = false ->
  run (wait_for (get_openai_response env text) 15000) w1
  = (inr response, w2) ->
  edge_tts env (limit_text response) = inl msg ->
  edge_tts_ms env (limit_text response) <= 10000 ->
  exists processing_time metrics w',
    run (process_audio env audio) w
    = (inr (Success text response "" processing_time metrics), w')
    /\ metrics !! "tts_time" = Server.metrics w2 !! "tts_time"
    /\ Client.played
         (Client.handleWebSocketMessage
            (ResponseMsg text response "" processing_time metrics) page)
       = Client.played page.
Proof.
  intros E1 Hrej E2 Htts Hms.
  destruct (synthesize_fails env response None w2 msg Htts Hms)
    as (w3 & E3 & M3).
  unfold run in E1, E2. open_pipeline. rewrite E1, Hrej, E2, E3.
  eexists _, _, _. split; [reflexivity|]. split; [|reflexivity].
  rewrite lookup_insert_ne by done. rewrite M3. reflexivity.
Qed.

(** X7.  A synthesis that takes more than 10 s is cancelled at its
    deadline: transcript and answer are dropped, the result is the error
    dictionary with the timeout message, and the stage records no
    metric. *)
Theorem X7_slow_synthesis_times_out (env : Env) (audio : list byte)
    (w : world) (text : string) (w1 : world) (response : string)
    (w2 : world) :
  run (wait_for (transcribe_audio_openai env audio) 15000) w
  = (inr text, w1) ->
  rejected text = false ->
  run (wait_for (get_openai_response env text) 15000) w1
  = (inr response, w2) ->
  10000 < edge_tts_ms env (limit_text response) ->
  exists processing_time w',
    run (process_audio env audio) w
    = (inr (ErrorResult took_too_long processing_time), w')
    /\ Server.metrics w' = Server.metrics w2.
Proof.
  intros E1 Hrej E2 Hms.
  destruct (synthesize_times_out env response None w2 Hms)
    as (w3 & E3 & M3 & C3).
  unfold run in E1, E2. open_pipeline. rewrite E1, Hrej, E2, E3.
  exists (clock w3 - clock w), w3. split; [reflexivity|exact M3].
Qed.

Lemma transcribe_without_key (env : Env) (audio : list byte) (t : Z)
    (dl : option Z) (w : world) :
  api_configured env = false ->
  trace (snd (wait_for (transcribe_audio_openai env audio) t dl w))
  = (trace w ++ [Entered Transcribe])%list.
Proof.
  intros Hk. unfold wait_for. unfold_stage2. rewrite Hk. simpl.
  repeat (case_match; simpl in *; simplify_eq);
    unfold set_monitor, set_trace, set_clock; cbn [trace]; reflexivity.
Qed.

Lemma answer_without_key (env : Env) (text : string) (t : Z)
    (dl : option Z) (w : world) :
  api_configured env = false ->
  trace (snd (wait_for (get_openai_response env text) t dl w))
  = (trace w ++ [Entered Answer])%list.
Proof.
  intros Hk. unfold wait_for. unfold_stage2. rewrite Hk. simpl.
  repeat (case_match; simpl in *; simplify_eq);
    unfold set_monitor, set_trace, set_clock; cbn [trace]; reflexivity.
Qed.

(** X8.  Without an API key [process_audio] returns a result and calls
    neither Whisper nor the chat model, whatever the audio. *)
Theorem X8_no_key_no_openai_call (env : Env) (audio : list byte) (w : world) :
  api_configured env = false ->
  exists r w' evs,
    run (process_audio env audio) w = (inr r, w')
    /\ trace w' = (trace w ++ evs)%list
    /\ Forall offline evs.
Proof.
  intros Hk.
  destruct (process_audio_pipeline env audio w) as (r & w' & E & Hp).
  exists r, w'.
  pose proof (transcribe_without_key env audio 15000 None w Hk) as T1.
  destruct Hp as [r1 w1 E1 _|t w1 w2 E1 _ E2
                 |t w1 resp w2 w3 E1 _ E2 E3
                 |t w1 resp w2 ab w3 E1 _ E2 E3];
    rewrite E1 in T1; simpl in T1.
  - eexists. split; [exact E|]. split; [exact T1|].
    repeat constructor.
  - pose proof (answer_without_key env t 15000 None w1 Hk) as T2.
    rewrite E2 in T2; simpl in T2.
    eexists. split; [exact E|]. rewrite T2, T1, <- app_assoc.
    split; [reflexivity|]. repeat constructor.
  - pose proof (answer_without_key env t 15000 None w1 Hk) as T2.
    rewrite E2 in T2; simpl in T2.
    pose proof (wait_for_synthesize_trace env resp 10000 None w2) as T3.
    rewrite E3 in T3; simpl in T3.
    eexists. split; [exact E|]. rewrite T3, T2, T1, <- !app_assoc.
    split; [reflexivity|]. repeat constructor.
  - pose proof (answer_without_key env t 15000 None w1 Hk) as T2.
    rewrite E2 in T2; simpl in T2.
    pose proof (wait_for_synthesize_trace env resp 10000 None w2) as T3.
    rewrite E3 in T3; simpl in T3.
    eexists. split; [exact E|]. rewrite T3, T2, T1, <- !app_assoc.
    split; [reflexivity|]. repeat constructor.
Qed.

(** X1.  [process_audio] never raises and always returns: for every
    audio and every behaviour of the services the result is a success
    dictionary or an error dictionary whose message is one of the two
    fixed texts. *)
Theorem X1_process_audio_never_raises (env : Env) (audio : list byte)
    (w : world) :
  exists r w',
    run (process_audio env audio) w = (inr r, w')
    /\ match r with
       | ErrorResult error _ =>
           error = could_not_understand \/ error = took_too_long
       | Success _ _ _ _ _ => True
       end.
Proof.
  destruct (process_audio_pipeline env audio w) as (r & w' & E & Hp).
  exists r, w'. split; [exact E|].
  destruct Hp as [[] ? _ _| | |]; auto.
Qed.


End PipelineFacts.

(** ** The browser client: invariants *)

Section PageFacts.

Import Client Page.

Ltac fields :=
  cbn [ws_open mediaRecorder audioChunks isRecording isProcessing autoMode
       microphone silenceTimeout ui now monitoring requests stopping
       reading outbox vad_log played
       set_ws_open set_mediaRecorder set_audioChunks set_isRecording
       set_isProcessing set_autoMode set_microphone set_silenceTimeout
       set_ui set_now set_monitoring set_requests set_stopping set_reading
       set_outbox set_vad_log set_played
       negb andb orb fst snd] in *.

Ltac unfold_client :=
  unfold step, advance, handle, userMedia, handleWebSocketMessage,
    after_reply, micButton_click, toggleAutoMode, startAutoListening,
    startAutoListening_resume, monitorAudio, stopAutoListening,
    checkAudio, silence_elapsed, startRecording, startRecording_resume,
    stopRecording, recorder_stopped, processRecording,
    processRecording_resume in *.

Ltac crush s :=
  unfold consistent in *; unfold_client; fields;
  destruct (isRecording s) eqn:?, (silenceTimeout s) eqn:?,
    (microphone s) eqn:?;
  fields;
  repeat (case_match; fields; simplify_eq); fields;
  intuition (try congruence; try discriminate).

Lemma consistent_advance t s : consistent s -> consistent (advance t s).
Proof. intros H. crush s. Qed.

Lemma consistent_handle ev s : consistent s -> consistent (handle ev s).
Proof.
  intros H. destruct ev as [d| | |k g d|k size|k limit| | |[]]; crush s.
Qed.

Lemma consistent_initial : consistent initial.
Proof. unfold consistent. simpl. intuition congruence. Qed.

Lemma consistent_run (inputs : list (Z * event)) (s : VoiceAssistant) :
  consistent s -> consistent (run inputs s).
Proof.
  revert s. induction inputs as [|[t ev] inputs IH]; intros s H; simpl.
  - exact H.
  - apply IH. unfold step. apply consistent_handle, consistent_advance, H.
Qed.

(** X11.  Whatever happens to the page (frames, clicks, microphone
    requests settling in any order, recorder and blob events, socket
    events, messages, timers), a recording has its recorder, and a
    pending silence timer belongs to an open audio graph and to a
    recorder. *)
Theorem X11_reachable_consistent (inputs : list (Z * event)) :
  consistent (run inputs initial).
Proof. apply consistent_run, consistent_initial. Qed.

(** The auto-mode flag and the audio graph, on the other hand, are not
    tied to each other: [startAutoListening] does not look at the flag
    again after the microphone was granted.  Two clicks before the grant
    leave the graph open with auto mode off. *)
Example graph_open_without_auto_mode :
  let s := run [(10, AutoModeClick); (20, AutoModeClick);
                (30, UserMedia 0 true [])] initial in
  autoMode s = false /\ microphone s = true /\ ui s = UiListening
  /\ monitoring s = 0%nat.
Proof. vm_compute. repeat split. Qed.

Lemma manual_frame (i : Z * list Z) (s0 s : VoiceAssistant) :
  autoMode s0 = false -> silenceTimeout s0 = None ->
  same_recording s0 s ->
  same_recording s0 (step (fst i, AnimationFrame (snd i)) s).
Proof.
  intros Ha Ht (H1 & H2 & H3 & H4 & H5 & H6 & H7 & H8 & H9 & H10 & H11).
  unfold step, advance, handle, checkAudio. fields.
  rewrite H6, Ht. fields. rewrite H7, Ha. fields.
  destruct (0 <? monitoring s)%nat; unfold same_recording; fields;
    repeat split; congruence.
Qed.

(** X13.  Outside auto mode, with no silence timer pending, the callbacks
    of a monitor loop that is still scheduled do nothing but end the
    loop: whatever the loudness, no recording is started or stopped, no
    timer armed, nothing detected and nothing sent. *)
Theorem X13_manual_mode_ignores_frames (l : list (Z * list Z))
    (s : VoiceAssistant) :
  autoMode s = false -> silenceTimeout s = None ->
  same_recording s (run (frames l) s).
Proof.
  intros Ha Ht.
  assert (same_recording s s) as H0 by (repeat split).
  revert H0. generalize s at 2 4.
  induction l as [|i l IH]; intros s' H'; simpl.
  - exact H'.
  - apply IH. apply manual_frame; assumption.
Qed.

Lemma step_without_timer (i : Z * event) (s : VoiceAssistant) :
  silenceTimeout s = None ->
  step i s = handle (snd i) (set_now (Z.max (now s) (fst i)) s).
Proof. intros H. unfold step, advance. rewrite H. reflexivity. Qed.

(** The events of the first stopped recorder. *)
Lemma recorder_events (t size : Z) (r : recorder) (stopped : Z)
    (rest : list (recorder * Z)) (s : VoiceAssistant) :
  silenceTimeout s = None -> stopping s = (r, stopped) :: rest ->
  0 < size ->
  let s' := step (t, RecorderStopped 0 size) s in
  reading s'
  = (reading s
     ++ [audioChunks s
         ++ [{| blob_ms := stopped - rec_started r;
                blob_size := size |}]])%list
  /\ stopping s' = rest
  /\ silenceTimeout s' = None /\ isRecording s' = isRecording s
  /\ vad_log s' = vad_log s /\ outbox s' = outbox s
  /\ ws_open s' = ws_open s.
Proof.
  intros Ht Hs Hlt s'. subst s'. rewrite step_without_timer by exact Ht.
  cbn [snd fst handle]. fields. rewrite Hs.
  cbn [lookup list_lookup delete list_delete].
  unfold recorder_stopped, processRecording. cbn [blob_size].
  rewrite (proj2 (Z.ltb_lt 0 size)) by lia.
  fields. repeat split; assumption.
Qed.

(** The first blob has been read. *)
Lemma blob_read (t limit : Z) (chunks : list blob)
    (rest : list (list blob)) (s : VoiceAssistant) :
  silenceTimeout s = None -> reading s = chunks :: rest ->
  let s' := step (t, BlobRead 0 limit) s in
  outbox s'
  = (if (total_size chunks <=? limit) && ws_open s
     then outbox s ++ [chunks] else outbox s)%list
  /\ reading s' = rest
  /\ isRecording s' = isRecording s /\ vad_log s' = vad_log s.
Proof.
  intros Ht Hs s'. subst s'. rewrite step_without_timer by exact Ht.
  cbn [snd fst handle]. fields. rewrite Hs.
  cbn [lookup list_lookup delete list_delete].
  unfold processRecording_resume. fields.
  destruct (total_size chunks <=? limit), (ws_open s); fields;
    repeat split.
Qed.

(** The silence timer fires. *)
Lemma silence_elapses (t0 t : Z) (r : recorder) (s0 s : VoiceAssistant) :
  dipping t0 s0 s ->
  mediaRecorder s = Some r ->
  now s <= t0 + silenceDelay ->
  t0 + silenceDelay <= t ->
  let s' := advance t s in
  isRecording s' = false /\ silenceTimeout s' = None
  /\ vad_log s' = (vad_log s0 ++ [SpeechStop (t0 + silenceDelay)])%list
  /\ stopping s' = (stopping s ++ [(r, t0 + silenceDelay)])%list
  /\ reading s' = reading s /\ outbox s' = outbox s0
  /\ audioChunks s' = audioChunks s0 /\ ws_open s' = ws_open s.
Proof.
  intros (Ha & Hmic & Hm & Hr & Ht & Hv & Ho & Hmr & Hc) Hrec Hnow Hdue.
  unfold advance, silence_elapsed, stopRecording.
  rewrite Ht. destruct (Z.leb_spec (t0 + silenceDelay) t); [|lia].
  fields. rewrite Hr. fields. rewrite Hrec. fields. rewrite ?Hr. fields.
  rewrite Z.max_r by lia. rewrite Hv.
  repeat split; assumption.
Qed.

(** X12.  The silence timer.  With a recording open and the timer armed
    by a quiet frame at [t0], once [silenceDelay] has passed the timer
    stops the recording at [t0 + silenceDelay], clears itself and one
    SpeechStop is logged; nothing is sent yet.  When the recorder has
    then delivered its blob, which covers the time from its start to
    that moment, and the blob has been read, the audio is sent if the
    engine accepts as many arguments as the recording has bytes and the
    socket is open; nothing is sent otherwise. *)
Theorem X12_silence_closes_utterance (t0 t t1 t2 size limit : Z)
    (r : recorder) (s0 s : VoiceAssistant) :
  dipping t0 s0 s ->
  mediaRecorder s = Some r ->
  stopping s = [] -> reading s = [] ->
  now s <= t0 + silenceDelay ->
  t0 + silenceDelay <= t ->
  0 < size ->
  let s1 := advance t s in
  let s2 := run [(t1, RecorderStopped 0 size); (t2, BlobRead 0 limit)] s1 in
  let sent := (audioChunks s0
               ++ [{| blob_ms := t0 + silenceDelay - rec_started r;
                      blob_size := size |}])%list in
  isRecording s1 = false
  /\ silenceTimeout s1 = None
  /\ vad_log s1 = (vad_log s0 ++ [SpeechStop (t0 + silenceDelay)])%list
  /\ outbox s1 = outbox s0
  /\ isRecording s2 = false
  /\ vad_log s2 = vad_log s1
  /\ outbox s2
     = (if (total_size sent <=? limit) && ws_open s
        then outbox s0 ++ [sent] else outbox s0)%list.
Proof.
  intros Hd Hrec Hst Hrd Hnow Hdue Hsize s1 s2 sent.
  destruct (silence_elapses t0 t r s0 s Hd Hrec Hnow Hdue)
    as (R1 & T1 & V1 & S1 & D1 & O1 & C1 & W1).
  fold s1 in R1, T1, V1, S1, D1, O1, C1, W1.
  rewrite Hst in S1. rewrite Hrd in D1. cbn [app] in S1.
  destruct (recorder_events t1 size r (t0 + silenceDelay) [] s1 T1 S1
              Hsize)
    as (D2 & S2 & T2 & R2 & V2 & O2 & W2).
  rewrite D1, C1 in D2. cbn [app] in D2.
  destruct (blob_read t2 limit sent [] _ T2 D2) as (O3 & D3 & R3 & V3).
  subst s2. unfold run. cbn [fold_left].
  repeat split; try assumption; try congruence.
  rewrite O3, W2, W1, O2, O1. reflexivity.
Qed.

End PageFacts.

(** ** Server and page together *)

Section TurnFacts.

Import Client Page.

Ltac fields :=
  cbn [ws_open mediaRecorder audioChunks isRecording isProcessing autoMode
       microphone silenceTimeout ui now monitoring outbox vad_log played
       set_ws_open set_mediaRecorder set_audioChunks set_isRecording
       set_isProcessing set_autoMode set_microphone set_silenceTimeout
       set_ui set_now set_monitoring set_outbox set_vad_log set_played
       negb andb orb fst snd] in *.

Lemma message_effect (t : Z) (m : Server.message) (s : VoiceAssistant) :
  silenceTimeout s = None ->
  let s' := step (t, WsMessage m) s in
  silenceTimeout s' = None
  /\ isRecording s' = isRecording s
  /\ outbox s' = outbox s
  /\ vad_log s' = vad_log s
  /\ autoMode s' = autoMode s
  /\ now s' = Z.max (now s) t
  /\ played s' = (played s ++ clip (Z.max (now s) t) m)%list
  /\ isProcessing s'
     = match m with
       | Server.StateUpdate b => b
       | _ => isProcessing s
       end
  /\ ui s'
     = match m with
       | Server.StateUpdate _ => ui s
       | _ => if autoMode s then UiListening else UiIdle
       end.
Proof.
  intros Ht. unfold step, advance. cbn [fst snd]. rewrite Ht.
  cbn [handle]. unfold handleWebSocketMessage, after_reply, clip.
  destruct m as [b|msg pt|tr resp ab pt mt]; fields;
    rewrite ?app_nil_r; try (repeat split; assumption).
  destruct (PyStr.truthy ab); fields; rewrite ?app_nil_r;
    repeat split; assumption.
Qed.

Lemma page_turn (reply : Server.message) (t1 t2 t3 : Z)
    (page : VoiceAssistant) :
  (forall b, reply <> Server.StateUpdate b) ->
  silenceTimeout page = None ->
  let page' := run (deliver [t1; t2; t3] (Outcomes.turn reply)) page in
  isProcessing page' = false
  /\ isRecording page' = isRecording page
  /\ outbox page' = outbox page
  /\ vad_log page' = vad_log page
  /\ played page'
     = (played page ++ clip (Z.max (Z.max (now page) t1) t2) reply)%list
  /\ ui page' = (if autoMode page then UiListening else UiIdle).
Proof.
  intros Hreply Ht page'.
  destruct (message_effect t1 (Server.StateUpdate true) page Ht)
    as (T1 & R1 & O1 & V1 & A1 & N1 & P1 & _ & U1).
  set (s1 := step (t1, WsMessage (Server.StateUpdate true)) page) in *.
  destruct (message_effect t2 reply s1 T1)
    as (T2 & R2 & O2 & V2 & A2 & N2 & P2 & _ & U2).
  set (s2 := step (t2, WsMessage reply) s1) in *.
  destruct (message_effect t3 (Server.StateUpdate false) s2 T2)
    as (T3 & R3 & O3 & V3 & A3 & N3 & P3 & I3 & U3).
  set (s3 := step (t3, WsMessage (Server.StateUpdate false)) s2) in *.
  assert (page' = s3) as -> by reflexivity.
  cbn [clip] in P1, P3. rewrite app_nil_r in P1, P3.
  split; [exact I3|]. split; [congruence|]. split; [congruence|].
  split; [congruence|]. split.
  - rewrite P3, P2, P1, N1. reflexivity.
  - rewrite U3, U2, A1. destruct reply as [b| |]; [|reflexivity..].
    exfalso. apply (Hreply b). reflexivity.
Qed.

(** X14.  A turn from end to end.  The three messages the handler sends
    for an audio message, received by a page with no silence timer
    pending, leave the page ready for the next utterance: the processing
    flag is clear, no recording was started or stopped and nothing was
    detected or sent meanwhile, the clip of the reply is handed to the
    player when the reply carries one, and the page shows Listening in
    auto mode and Idle otherwise. *)
Theorem X14_turn_leaves_page_ready (env : Server.Env) (conn : nat)
    (data : Server.client_message) (w : Server.world) (t1 t2 t3 : Z)
    (page : VoiceAssistant) :
  Server.msg_type data = "audio_data" ->
  silenceTimeout page = None ->
  exists reply w',
    Server.run (Server.on_message env conn data) w = (inr tt, w')
    /\ Server.received conn (Server.trace w')
       = (Server.received conn (Server.trace w) ++ Outcomes.turn reply)%list
    /\ let page' := run (deliver [t1; t2; t3] (Outcomes.turn reply)) page in
       isProcessing page' = false
       /\ isRecording page' = isRecording page
       /\ outbox page' = outbox page
       /\ vad_log page' = vad_log page
       /\ played page'
          = (played page
             ++ clip (Z.max (Z.max (now page) t1) t2) reply)%list
       /\ ui page' = (if autoMode page then UiListening else UiIdle).
Proof.
  intros Hty Ht.
  destruct (handler_turn env conn data w Hty)
    as (reply & w' & E & R & N & _).
  exists reply, w'. split; [exact E|]. split; [exact R|].
  apply page_turn; assumption.
Qed.

End TurnFacts.

(** ** The local loop: knowledge base and main loop *)

Section KnowledgeFacts.

Import Knowledge.

Context {vector : Type}.
Implicit Types (pairs : list (string * string)) (embeddings : list vector).

Lemma records_length idx pairs embeddings :
  length embeddings = length pairs ->
  length (records vector idx pairs embeddings) = length pairs.
Proof.
  revert idx embeddings.
  induction pairs as [|[q a] pairs IH]; intros idx [|e embeddings] H;
    simpl in *; try lia. f_equal. apply IH. lia.
Qed.

Lemma records_lookup idx pairs embeddings (i : nat) q a :
  length embeddings = length pairs ->
  pairs !! i = Some (q, a) ->
  exists emb,
    embeddings !! i = Some emb
    /\ records vector idx pairs embeddings !! i
       = Some {| entry_id := pretty (idx + i)%nat; document := q;
                 metadata := {["answer" := a]}; embedding := emb |}.
Proof.
  revert idx embeddings i.
  induction pairs as [|[q' a'] pairs IH]; intros idx [|e embeddings] i H Hi;
    simpl in *; try discriminate; try lia.
  destruct i as [|i]; simpl in *.
  - injection Hi as -> ->. exists e. rewrite Nat.add_0_r. auto.
  - destruct (IH (S idx) embeddings i) as (emb & He & Hr); [lia|exact Hi|].
    exists emb. rewrite He, Hr. replace (S idx + i)%nat with (idx + S i)%nat by lia.
    auto.
Qed.

Lemma records_ids idx pairs embeddings :
  length embeddings = length pairs ->
  map (entry_id vector) (records vector idx pairs embeddings)
  = map pretty (seq idx (length pairs)).
Proof.
  revert idx embeddings.
  induction pairs as [|[q a] pairs IH]; intros idx [|e embeddings] H;
    simpl in *; try lia; [reflexivity|]. f_equal. apply IH. lia.
Qed.

Lemma records_answers idx pairs embeddings :
  Forall (fun e => exists q a, In (q, a) pairs
                    /\ document vector e = q
                    /\ metadata vector e = {["answer" := a]})
    (records vector idx pairs embeddings).
Proof.
  revert idx embeddings.
  induction pairs as [|[q a] pairs IH]; intros idx [|e embeddings];
    simpl; try constructor.
  - exists q, a. simpl. auto.
  - eapply Forall_impl; [apply IH|].
    intros x (q' & a' & Hin & Hd & Hm). exists q', a'. simpl. auto.
Qed.


Lemma complete_rows (l : list (list (option string))) :
  length (omap question_and_answer l) = length (List.filter complete l).
Proof.
  induction l as [|row l IH]; [reflexivity|].
  simpl. unfold complete at 1, question_and_answer at 1.
  destruct (cell row 0), (cell row 2); simpl; try exact IH.
  f_equal. exact IH.
Qed.

(** The loop over the sheets gives the questions and answers of the
    complete rows of the whole workbook, in order. *)
Lemma all_pairs_wide (sheets : list sheet) :
  Forall (fun sh => (3 <= width sh)%nat) sheets ->
  all_pairs sheets
  = inr (omap question_and_answer (concat (map rows sheets))).
Proof.
  induction 1 as [|sh sheets Hw _ IH]; simpl; [reflexivity|].
  unfold questions_and_answers.
  destruct (Nat.ltb_spec (width sh) 3); [lia|].
  rewrite IH, omap_app. reflexivity.
Qed.

Lemma records_documents idx pairs embeddings :
  length embeddings = length pairs ->
  map (document vector) (records vector idx pairs embeddings)
  = map fst pairs
  /\ map (metadata vector) (records vector idx pairs embeddings)
     = map (fun p => {["answer" := snd p]}) pairs
  /\ map (embedding vector) (records vector idx pairs embeddings)
     = embeddings.
Proof.
  revert idx embeddings.
  induction pairs as [|[q a] pairs IH]; intros idx [|e embeddings] H;
    simpl in *; try lia; [auto|].
  destruct (IH (S idx) embeddings) as (D & M & E); [lia|].
  rewrite D, M, E. auto.
Qed.

Lemma all_pairs_narrow (sheets : list sheet) :
  Exists (fun sh => (width sh < 3)%nat) sheets ->
  exists e, all_pairs sheets = inl e.
Proof.
  induction 1 as [sh sheets Hn|sh sheets _ (e & E)]; simpl.
  - unfold questions_and_answers.
    destruct (Nat.ltb_spec (width sh) 3); [eauto|lia].
  - rewrite E. destruct (questions_and_answers sh); eauto.
Qed.

Lemma upload_collection (sheets : list sheet)
    (encode : list string -> list vector)
    (c : gmap string (list (entry vector))) :
  Forall (fun sh => (3 <= width sh)%nat) sheets ->
  one_each encode ->
  let pairs := omap question_and_answer (concat (map rows sheets)) in
  let collection := records vector 0 pairs (encode (map fst pairs)) in
  upload_excel_to_chroma vector (inr sheets) encode c
  = (<[COLLECTION_NAME := collection]> c, inr collection)
  /\ length collection = length pairs.
Proof.
  intros Hw Henc pairs collection.
  unfold upload_excel_to_chroma. rewrite (all_pairs_wide sheets Hw).
  fold pairs. cbv zeta. fold collection.
  rewrite insert_insert_eq, insert_delete_eq. split; [reflexivity|].
  apply records_length. rewrite Henc, length_map. reflexivity.
Qed.

(** X15.  What an upload leaves.  When every sheet has at least three
    columns and the encoder gives one vector per question, the upload
    replaces whatever collection was there by one record for each row
    that has both a question (column 0) and an answer (column 2), in the
    order of the workbook: the record of the i-th such row has the id i,
    the question for its document, the answer of that row under the key
    "answer", and the vector the encoder gave for that question. *)
Theorem X15_upload_fills_collection (sheets : list sheet)
    (encode : list string -> list vector)
    (c : gmap string (list (entry vector))) :
  Forall (fun sh => (3 <= width sh)%nat) sheets ->
  one_each encode ->
  let pairs := omap question_and_answer (concat (map rows sheets)) in
  exists collection,
    upload_excel_to_chroma vector (inr sheets) encode c
    = (<[COLLECTION_NAME := collection]> c, inr collection)
    /\ length collection
       = length (List.filter complete (concat (map rows sheets)))
    /\ map (entry_id vector) collection
       = map pretty (seq 0 (length collection))
    /\ NoDup (map (entry_id vector) collection)
    /\ map (document vector) collection = map fst pairs
    /\ map (metadata vector) collection
       = map (fun p => {["answer" := snd p]}) pairs
    /\ map (embedding vector) collection = encode (map fst pairs).
Proof.
  intros Hw Henc pairs.
  destruct (upload_collection sheets encode c Hw Henc) as [E L].
  fold pairs in E, L.
  assert (length (encode (map fst pairs)) = length pairs) as Hl
    by (rewrite Henc, length_map; reflexivity).
  destruct (records_documents 0 pairs (encode (map fst pairs)) Hl)
    as (D & M & V).
  exists (records vector 0 pairs (encode (map fst pairs))).
  split; [exact E|]. split; [|split; [|split; [|split; [|split]]]].
  - rewrite L. apply complete_rows.
  - rewrite records_ids, L by exact Hl. reflexivity.
  - rewrite records_ids by exact Hl.
    apply (NoDup_fmap_2 _). apply NoDup_seq.
  - exact D.
  - exact M.
  - exact V.
Qed.

(** X16.  A sheet with fewer than three columns aborts the upload with
    an exception after the old collection was deleted and the new one
    created: the client is left with an empty collection, which the next
    start takes for a missing one. *)
Theorem X16_narrow_sheet_aborts_upload (sheets : list sheet)
    (encode : list string -> list vector)
    (c : gmap string (list (entry vector))) :
  Exists (fun sh => (width sh < 3)%nat) sheets ->
  exists e c',
    upload_excel_to_chroma vector (inr sheets) encode c = (c', inl e)
    /\ c' !! COLLECTION_NAME = Some []
    /\ get_existing_collection vector c' = None.
Proof.
  intros Hn. destruct (all_pairs_narrow sheets Hn) as (e & E).
  unfold upload_excel_to_chroma. rewrite E. cbv zeta.
  eexists _, _. split; [reflexivity|].
  unfold get_existing_collection. rewrite lookup_insert_eq. auto.
Qed.

(** X17.  The assistant started on a client without the collection
    uploads the workbook; started again on the client that upload left,
    it finds the collection and returns it without reading the workbook
    or calling the encoder, provided the workbook had at least one
    complete row. *)
Theorem X17_restart_reuses_collection (sheets : list sheet)
    (encode : list string -> list vector)
    (c : gmap string (list (entry vector)))
    (workbook' : string + list sheet)
    (encode' : list string -> list vector) (row : list (option string)) :
  Forall (fun sh => (3 <= width sh)%nat) sheets ->
  one_each encode ->
  In row (concat (map rows sheets)) -> complete row = true ->
  exists collection c',
    main_collection vector (inr sheets) encode (delete COLLECTION_NAME c)
    = (c', inr collection)
    /\ collection <> []
    /\ main_collection vector workbook' encode' c' = (c', inr collection).
Proof.
  intros Hw Henc Hin Hrow.
  destruct (upload_collection sheets encode (delete COLLECTION_NAME c)
              Hw Henc) as [E L].
  rewrite complete_rows in L.
  set (collection :=
         records vector 0
           (omap question_and_answer (concat (map rows sheets)))
           (encode
              (map fst
                 (omap question_and_answer (concat (map rows sheets))))))
    in *.
  assert (collection <> []) as Hne.
  { intros Hnil. rewrite Hnil in L. simpl in L.
    assert (In row (List.filter complete (concat (map rows sheets)))) as H
      by (apply filter_In; auto).
    destruct (List.filter complete (concat (map rows sheets)));
      [contradiction|discriminate]. }
  exists collection, (<[COLLECTION_NAME := collection]>
                        (delete COLLECTION_NAME c)).
  unfold main_collection at 1, get_existing_collection at 1.
  rewrite lookup_delete_eq, E. split; [reflexivity|]. split; [exact Hne|].
  unfold main_collection, get_existing_collection.
  rewrite lookup_insert_eq.
  destruct collection; [congruence|reflexivity].
Qed.



Lemma in_take {A : Type} (n : nat) (l : list A) (x : A) :
  In x (take n l) -> In x l.
Proof.
  revert l. induction n as [|n IH]; intros [|y l]; simpl; try tauto.
  intros [->|H]; [left; reflexivity|right; apply IH, H].
Qed.

(** X18.  Every reply of [query_chroma_db] over an uploaded collection
    is one of the two fixed messages or the answer cell of a complete
    row of the workbook, so the default "No answer found." is not
    needed. *)
Theorem X18_answers_come_from_workbook (base : LocalLoop.Env)
    (encode : list string -> list vector)
    (nearest : vector -> list (entry vector) -> list (entry vector))
    (sheets : list sheet) (pairs : list (string * string))
    (c c' : gmap string (list (entry vector)))
    (collection : list (entry vector))
    (question : string) (top_k : nat) (reply : string) :
  all_pairs sheets = inr pairs ->
  upload_excel_to_chroma vector (inr sheets) encode c
  = (c', inr collection) ->
  selects nearest ->
  In reply
    (fst (LocalLoop.query_chroma_db
            (with_collection vector base encode nearest collection)
            question top_k)) ->
  reply = LocalLoop.sorry_message \/ reply = LocalLoop.trouble_message
  \/ exists q, In (q, reply) pairs.
Proof.
  intros Hp Hu Hsel Hin.
  unfold upload_excel_to_chroma in Hu. rewrite Hp in Hu.
  cbv zeta in Hu. injection Hu as _ <-.
  unfold LocalLoop.query_chroma_db in Hin.
  destruct (negb _); [left; simpl in Hin; intuition congruence|].
  destruct (existsb _ _); [right; left; simpl in Hin; intuition congruence|].
  right; right. cbn [fst] in Hin. apply in_map_iff in Hin.
  destruct Hin as (m & <- & Hm). cbn [LocalLoop.collection_query
    with_collection] in Hm.
  destruct (encode [question]) as [|v ?]; [contradiction|].
  unfold query in Hm. apply in_map_iff in Hm. destruct Hm as (e & <- & He).
  assert (In e (nearest v (records vector 0 pairs (encode (map fst pairs)))))
    as He' by (eapply in_take; exact He).
  apply Hsel in He'.
  pose proof (records_answers 0 pairs (encode (map fst pairs))) as Hall.
  rewrite List.Forall_forall in Hall.
  destruct (Hall e He') as (q & a & Hqa & _ & Hmeta).
  exists q. rewrite Hmeta, lookup_singleton_eq. exact Hqa.
Qed.

End KnowledgeFacts.

Section LoopFacts.

Import Loop.

(** Blocks delivered by the stream thread: queued and logged with the
    gate open, dropped with the gate closed. *)
Lemma callbacks_run (fs : list LocalLoop.frame) (sh : LocalLoop.state) :
  LocalLoop.listening_active (LocalLoop.callbacks fs sh)
  = LocalLoop.listening_active sh
  /\ LocalLoop.now (LocalLoop.callbacks fs sh) = LocalLoop.now sh
  /\ LocalLoop.q_audio (LocalLoop.callbacks fs sh)
     = (LocalLoop.q_audio sh
        ++ if LocalLoop.listening_active sh then fs else [])%list
  /\ LocalLoop.log (LocalLoop.callbacks fs sh)
     = (LocalLoop.log sh
        ++ enqueued (LocalLoop.listening_active sh) fs)%list.
Proof.
  unfold enqueued. revert sh.
  induction fs as [|f fs IH]; intros sh; cbn [LocalLoop.callbacks fold_left].
  - destruct (LocalLoop.listening_active sh); cbn [map];
      rewrite !app_nil_r; auto.
  - fold (LocalLoop.callbacks fs (LocalLoop.audio_callback f sh)).
    destruct (IH (LocalLoop.audio_callback f sh)) as (L & N & Q & G).
    rewrite L, N, Q, G. unfold LocalLoop.audio_callback.
    destruct (LocalLoop.listening_active sh) eqn:E; simpl; rewrite ?E;
      rewrite <- ?app_assoc; simpl; auto.
Qed.

(** X19.  One turn of the main loop with a block in the queue and the
    gate open: the block is taken and fed to the recognizer; behind the
    blocks that were waiting, the queue holds the blocks delivered while
    the recognizer worked and, when a question was recognised, while the
    knowledge base was searched, and none of those delivered while the
    reply was spoken; the gate is open again afterwards. *)
Theorem X19_iteration_takes_one_block (env : LocalLoop.Env)
    (vosk : list LocalLoop.frame -> recognition)
    (arr : deliveries) (s : state)
    (data : LocalLoop.frame) (rest : list LocalLoop.frame) :
  LocalLoop.q_audio (shared s) = data :: rest ->
  LocalLoop.listening_active (shared s) = true ->
  let r := iteration env vosk arr s in
  fst r <> Blocked
  /\ fed (snd r) = (fed s ++ [data])%list
  /\ LocalLoop.listening_active (shared (snd r)) = true
  /\ LocalLoop.q_audio (shared (snd r))
     = (rest ++ while_recognizing arr
        ++ match vosk (fed s ++ [data])%list with
           | Final raw =>
               if PyStr.truthy (PyStr.strip raw) then while_answering arr
               else []
           | Partial _ => []
           end)%list.
Proof.
  intros Hq Hl. unfold iteration. rewrite Hq.
  destruct (callbacks_run (while_recognizing arr)
              (set_queue rest (shared s))) as (L1 & _ & Q1 & _).
  cbn [set_queue LocalLoop.listening_active LocalLoop.q_audio] in L1, Q1.
  rewrite Hl in L1, Q1.
  destruct (vosk (fed s ++ [data])%list) as [raw|p]; cbn zeta.
  - destruct (PyStr.truthy (PyStr.strip raw)).
    + destruct (LocalLoop.query_chroma_db env (PyStr.strip raw) 1)
        as [answers evs].
      match goal with
      | |- context [LocalLoop.callbacks (while_answering arr) ?sh0] =>
          destruct (callbacks_run (while_answering arr) sh0)
            as (L2 & _ & Q2 & _);
          cbn [add_log LocalLoop.listening_active LocalLoop.q_audio]
            in L2, Q2;
          rewrite L1 in L2, Q2; rewrite Q1 in Q2
      end.
      destruct answers as [|reply answers]; cbn [fst snd shared fed].
      * split; [discriminate|]. rewrite L2, Q2, <- app_assoc. auto.
      * match goal with
        | |- context [LocalLoop.speak_text env reply ?a ?sh0] =>
            destruct (speak_text_runs env reply a sh0) as (Hq' & Hl' & _)
        end.
        split; [discriminate|]. rewrite Hl', Hq', Q2, <- app_assoc. auto.
    + cbn [fst snd shared fed]. split; [discriminate|].
      rewrite L1, Q1, app_nil_r. auto.
  - cbn [fst snd shared fed]. split; [discriminate|].
    rewrite L1, Q1, app_nil_r. auto.
Qed.

(** X20.  A final result whose question finds nothing in the collection
    ends the loop: [answers[0]] raises, the except clause around the loop
    catches it, nothing is spoken and the gate is left as it was; the
    log shows the two calls of the lookup and, with the gate open, the
    blocks queued meanwhile. *)
Theorem X20_empty_result_stops_loop (env : LocalLoop.Env)
    (vosk : list LocalLoop.frame -> recognition)
    (arr : deliveries) (s : state)
    (data : LocalLoop.frame) (rest : list LocalLoop.frame)
    (raw : string) :
  LocalLoop.q_audio (shared s) = data :: rest ->
  vosk (fed s ++ [data])%list = Final raw ->
  PyStr.strip raw <> "" ->
  existsb (fun indicator =>
             PyStr.contains indicator (PyStr.lower (PyStr.strip raw)))
    LocalLoop.garbled_indicators = false ->
  LocalLoop.collection_query env (PyStr.strip raw) 1 = [] ->
  let r := iteration env vosk arr s in
  let listening := LocalLoop.listening_active (shared s) in
  fst r = Stopped "list index out of range"
  /\ LocalLoop.listening_active (shared (snd r)) = listening
  /\ LocalLoop.log (shared (snd r))
     = (LocalLoop.log (shared s)
        ++ enqueued listening (while_recognizing arr)
        ++ [LocalLoop.Encoded (PyStr.strip raw); LocalLoop.Queried 1]
        ++ enqueued listening (while_answering arr))%list.
Proof.
  intros Hq Hv Hne Hg Hnone. unfold iteration. rewrite Hq, Hv. cbn zeta.
  assert (PyStr.truthy (PyStr.strip raw) = true) as Ht
    by (destruct (PyStr.strip raw); simpl; congruence).
  rewrite Ht. unfold LocalLoop.query_chroma_db.
  rewrite strip_idempotent, Ht, Hg. cbn [negb]. rewrite Hnone.
  cbn [map fst snd shared].
  destruct (callbacks_run (while_recognizing arr)
              (set_queue rest (shared s))) as (L1 & _ & _ & G1).
  cbn [set_queue LocalLoop.listening_active LocalLoop.log] in L1, G1.
  match goal with
  | |- context [LocalLoop.callbacks (while_answering arr) ?sh0] =>
      destruct (callbacks_run (while_answering arr) sh0)
        as (L2 & _ & _ & G2);
      cbn [add_log LocalLoop.listening_active LocalLoop.log] in L2, G2;
      rewrite L1 in L2, G2; rewrite G1 in G2
  end.
  split; [reflexivity|]. split; [exact L2|].
  rewrite G2, <- !app_assoc. reflexivity.
Qed.

End LoopFacts.

(** ** The further theorems at concrete inputs *)

Lemma X2_witness :
  exists processing_time metrics w',
    Server.run (Server.process_audio Demo.env Demo.utterance) Demo.start
    = (inr (Server.Success "where is my parcel" "It is on its way." "SUQz"
              processing_time metrics), w')
    /\ exists ta tb tc,
         metrics !! "transcription_time" = Some ta
         /\ metrics !! "response_time" = Some tb
         /\ metrics !! "tts_time" = Some tc
         /\ metrics !! "total_time" = Some (ta + tb + tc).
Proof.
  destruct (X2_all_stages_succeed Demo.env Demo.utterance Demo.start 1200
              " where is my parcel " "It is on its way."
              [x49; x44; x33]%byte)
    as (pt & ta & tb & tc & m & w' & E & Ha & Hb & Hc & Ht & _).
  - vm_compute; reflexivity.
  - vm_compute; reflexivity.
  - vm_compute; discriminate.
  - vm_compute; reflexivity.
  - vm_compute; reflexivity.
  - vm_compute; split; discriminate.
  - vm_compute; reflexivity.
  - vm_compute; reflexivity.
  - vm_compute; split; discriminate.
  - vm_compute; reflexivity.
  - vm_compute; split; discriminate.
  - exists pt, m, w'. split; [exact E|]. exists ta, tb, tc. auto.
Defined.

Lemma X3_witness :
  negb (PyStr.truthy (PyStr.strip "where is my parcel"))
  || PyStr.startswith "where is my parcel" "[ERROR" = false.
Proof.
  apply (X3_answer_guard_never_fires Demo.env Demo.utterance Demo.start
           "where is my parcel" (Samples.after_transcribe Demo.env)).
  - vm_compute; reflexivity.
  - vm_compute; reflexivity.
Defined.

Lemma X4_witness :
  exists r w' tail,
    Server.run (Server.process_audio Demo.env Demo.corrupt) Demo.start
    = (inr r, w')
    /\ Server.trace w'
       = (Server.trace Demo.start
          ++ [Server.Entered Server.Transcribe;
              Server.Entered Server.Answer;
              Server.ChatCalled "[Transcription Error: Decoding failed]"]
          ++ tail)%list.
Proof.
  destruct (X4_decode_error_reaches_chat Demo.env Demo.corrupt Demo.start
              "Decoding failed") as (r & w' & tail & E & T & _).
  - reflexivity.
  - reflexivity.
  - exists r, w', tail. split; [exact E|exact T].
Defined.

Lemma X5_witness :
  exists r w',
    Server.run (Server.process_audio Samples.env_chat_down Demo.utterance)
      Demo.start = (inr r, w')
    /\ In (Server.TtsCalled
             "I'm having trouble connecting right now. Error: Connection error.")
         (Server.trace w').
Proof.
  destruct (X5_chat_failure_is_spoken Samples.env_chat_down Demo.utterance
              Demo.start "where is my parcel"
              (Samples.after_transcribe Samples.env_chat_down)
              "Connection error.") as (r & w' & E & T & _).
  - vm_compute; reflexivity.
  - vm_compute; reflexivity.
  - reflexivity.
  - reflexivity.
  - exists r, w'. split; [exact E|exact T].
Defined.

Lemma X6_witness :
  exists processing_time metrics w',
    Server.run
      (Server.process_audio (Samples.env_tts_down 300) Demo.utterance)
      Demo.start
    = (inr (Server.Success "where is my parcel" "It is on its way." ""
              processing_time metrics), w')
    /\ Client.played
         (Client.handleWebSocketMessage
            (Server.ResponseMsg "where is my parcel" "It is on its way." ""
               processing_time metrics) Demo.processing)
       = Client.played Demo.processing.
Proof.
  destruct (X6_failed_synthesis_is_a_silent_success
              (Samples.env_tts_down 300) Demo.utterance Demo.start
              "where is my parcel"
              (Samples.after_transcribe (Samples.env_tts_down 300))
              "It is on its way."
              (Samples.after_answer (Samples.env_tts_down 300))
              "No audio was received." Demo.processing)
    as (pt & m & w' & E & _ & P).
  - vm_compute; reflexivity.
  - vm_compute; reflexivity.
  - vm_compute; reflexivity.
  - reflexivity.
  - vm_compute; discriminate.
  - exists pt, m, w'. split; [exact E|exact P].
Defined.

Lemma X7_witness :
  exists processing_time w',
    Server.run
      (Server.process_audio (Samples.env_tts_down 12000) Demo.utterance)
      Demo.start
    = (inr (Server.ErrorResult Server.took_too_long processing_time), w').
Proof.
  destruct (X7_slow_synthesis_times_out (Samples.env_tts_down 12000)
              Demo.utterance Demo.start "where is my parcel"
              (Samples.after_transcribe (Samples.env_tts_down 12000))
              "It is on its way."
              (Samples.after_answer (Samples.env_tts_down 12000)))
    as (pt & w' & E & _).
  - vm_compute; reflexivity.
  - vm_compute; reflexivity.
  - vm_compute; reflexivity.
  - vm_compute; reflexivity.
  - exists pt, w'. exact E.
Defined.

Lemma X8_witness :
  exists r w' evs,
    Server.run (Server.process_audio Demo.env_without_key Demo.corrupt)
      Demo.start = (inr r, w')
    /\ Server.trace w' = (Server.trace Demo.start ++ evs)%list
    /\ Forall Outcomes.offline evs.
Proof.
  apply (X8_no_key_no_openai_call Demo.env_without_key Demo.corrupt
           Demo.start).
  reflexivity.
Defined.

Lemma X9_witness :
  exists reply w',
    Server.run
      (Server.on_message Demo.env 1 (Demo.audio_message Demo.utterance))
      Demo.start = (inr tt, w')
    /\ Server.received 1 (Server.trace w')
       = (Server.received 1 (Server.trace Demo.start)
          ++ Outcomes.turn reply)%list.
Proof.
  destruct (X9_audio_message_handled Demo.env 1
              (Demo.audio_message Demo.utterance) Demo.start)
    as (reply & w' & E & R & _).
  - reflexivity.
  - exists reply, w'. split; [exact E|exact R].
Defined.

Lemma X12_witness :
  let s1 := Client.advance 3600 Samples.dipped in
  let delivered limit :=
    Client.run [(3600, Client.RecorderStopped 0 54400);
                (3610, Client.BlobRead 0 limit)] s1 in
  let sent := delivered 65536 in
  let lost := delivered 50000 in
  Client.isRecording s1 = false
  /\ Client.vad_log s1
     = (Client.vad_log Demo.recording ++ [Client.SpeechStop 3500])%list
  /\ Client.outbox s1 = []
  /\ Client.outbox sent
     = [[{| Client.blob_ms := 3400; Client.blob_size := 54400 |}]]
  /\ Client.outbox lost = [].
Proof.
  destruct (X12_silence_closes_utterance 1500 3600 3600 3610 54400 65536
              {| Client.rec_started := 100 |} Demo.recording
              Samples.dipped) as (R & _ & V & O1 & _ & _ & O).
  - vm_compute; repeat split; lia.
  - vm_compute; reflexivity.
  - vm_compute; reflexivity.
  - vm_compute; reflexivity.
  - vm_compute; discriminate.
  - vm_compute; discriminate.
  - reflexivity.
  - split; [exact R|]. split; [exact V|]. split; [exact O1|].
    split; [exact O|]. vm_compute; reflexivity.
Defined.

Lemma X13_witness :
  Client.monitoring Samples.loop_left = 1%nat
  /\ Page.same_recording Samples.loop_left
       (Client.run
          (Client.frames [(100, Demo.bins 30); (200, Demo.bins 0)])
          Samples.loop_left).
Proof.
  split; [vm_compute; reflexivity|].
  apply (X13_manual_mode_ignores_frames
           [(100, Demo.bins 30); (200, Demo.bins 0)] Samples.loop_left).
  - vm_compute; reflexivity.
  - vm_compute; reflexivity.
Defined.

Lemma X14_witness :
  exists reply w',
    Server.run
      (Server.on_message Demo.env 1 (Demo.audio_message Demo.utterance))
      Demo.start = (inr tt, w')
    /\ Client.isProcessing
         (Client.run (Page.deliver [3600; 5000; 5000] (Outcomes.turn reply))
            Demo.listening) = false.
Proof.
  destruct (X14_turn_leaves_page_ready Demo.env 1
              (Demo.audio_message Demo.utterance) Demo.start
              3600 5000 5000 Demo.listening)
    as (reply & w' & E & _ & P & _).
  - reflexivity.
  - vm_compute; reflexivity.
  - exists reply, w'. split; [exact E|exact P].
Defined.

Lemma X15_witness :
  exists collection,
    Knowledge.upload_excel_to_chroma nat (inr Samples.faq) Samples.encode
      Samples.stale
    = (<[Knowledge.COLLECTION_NAME := collection]> Samples.stale,
       inr collection)
    /\ map (Knowledge.entry_id nat) collection = ["0"; "1"; "2"].
Proof.
  destruct (X15_upload_fills_collection Samples.faq Samples.encode
              Samples.stale) as (collection & E & L & I & _).
  - repeat constructor.
  - intros texts. apply length_map.
  - exists collection. split; [exact E|].
    rewrite I, L. reflexivity.
Defined.

Lemma X16_witness :
  exists e c',
    Knowledge.upload_excel_to_chroma nat (inr Samples.narrow)
      Samples.encode Samples.stale = (c', inl e)
    /\ c' !! Knowledge.COLLECTION_NAME = Some []
    /\ Knowledge.get_existing_collection nat c' = None.
Proof.
  apply (X16_narrow_sheet_aborts_upload Samples.narrow Samples.encode
           Samples.stale).
  right. left. simpl. lia.
Defined.

Lemma X17_witness :
  exists collection c',
    Knowledge.main_collection nat (inr Samples.faq) Samples.encode
      (delete Knowledge.COLLECTION_NAME Samples.stale)
    = (c', inr collection)
    /\ collection <> []
    /\ Knowledge.main_collection nat (inl "No such file or directory")
         (fun _ => []) c' = (c', inr collection).
Proof.
  apply (X17_restart_reuses_collection Samples.faq Samples.encode
           Samples.stale (inl "No such file or directory") (fun _ => [])
           [Some "Where is my parcel?"; Some "tracking";
            Some "It is on its way."]).
  - repeat constructor.
  - intros texts. apply length_map.
  - simpl. auto.
  - reflexivity.
Defined.

Lemma X18_witness :
  "It is on its way." = LocalLoop.sorry_message
  \/ "It is on its way." = LocalLoop.trouble_message
  \/ exists q,
       In (q, "It is on its way.")
         [("Where is my parcel?", "It is on its way.");
          ("How long does delivery take?", "Within three days.");
          ("Can I change the address?", "Yes, before pickup.")].
Proof.
  apply (X18_answers_come_from_workbook Demo.local_env Samples.encode
           Samples.nearest Samples.faq _ Samples.stale
           (<[Knowledge.COLLECTION_NAME := Samples.faq_collection]>
              Samples.stale)
           Samples.faq_collection "Where is my parcel?" 1).
  - reflexivity.
  - vm_compute; reflexivity.
  - intros v collection e H. unfold Samples.nearest in H.
    apply in_app_or in H. destruct H as [H|H];
      apply filter_In in H; apply H.
  - vm_compute. left; reflexivity.
Defined.

Lemma X19_witness :
  fst (Loop.iteration Demo.local_env Samples.vosk Samples.turn_deliveries
         Samples.waiting) <> Loop.Blocked
  /\ LocalLoop.q_audio
       (Loop.shared
          (snd (Loop.iteration Demo.local_env Samples.vosk
                  Samples.turn_deliveries Samples.waiting)))
     = [Demo.block; Demo.block; Demo.block; Demo.block].
Proof.
  destruct (X19_iteration_takes_one_block Demo.local_env Samples.vosk
              Samples.turn_deliveries Samples.waiting Demo.block
              [Demo.block]) as (B & _ & _ & Q).
  - reflexivity.
  - reflexivity.
  - split; [exact B|exact Q].
Defined.

Lemma X20_witness :
  fst (Loop.iteration Samples.env_nothing_found Samples.vosk
         Samples.turn_deliveries Samples.waiting)
  = Loop.Stopped "list index out of range".
Proof.
  apply (X20_empty_result_stops_loop Samples.env_nothing_found Samples.vosk
           Samples.turn_deliveries Samples.waiting Demo.block [Demo.block]
           " where is my parcel ").
  - reflexivity.
  - reflexivity.
  - vm_compute; discriminate.
  - vm_compute; reflexivity.
  - reflexivity.
Defined.
